(* ===== verification/_CoqProject ===== *)
-Q . S2P
Prelude.v
Calendar.v
Frame.v
GroupBy.v
SortValues.v
Tables.v
Normalizer.v
DateFilter.v
MonthlyRevenue.v
ProductCount.v
CitySpending.v
CategoryRevenue.v
Rank.v
RFM.v
Dashboard.v
Currency.v
Page.v
Session.v
