(* ===== verification/Prelude.v ===== *)
(** * Verification of the OList e-commerce dashboard ([src/dashboard.py])

    ** The program

    [src/dashboard.py] is a Streamlit page over six CSV tables of an
    e-commerce dataset (orders, order items, customers, products, category
    translations, payments). At start-up it truncates every purchase
    timestamp to its month (line 96) and gives every product a category
    name (lines 81-87, 97-98). The sidebar's date widget yields a range
    (lines 100-111) that filters the orders (line 113). Five views are
    computed from the filtered orders (lines 115-119): monthly revenue
    (lines 9-19), order count per product (21-28), spending per city
    (30-36), revenue per category (38-44), and an RFM score per customer
    (46-79). The page shows two metrics (lines 127, 131), three RFM
    averages (223-232) and charts of the views.

    ** Files, in dependency order

    - [Prelude]: the shared library. Sums over lists [Σ[ x <- l ] e]
      (scope [dash_scope]) with their lemmas; Python's order on strings
      as [str_lt], a strict order; lexicographic comparison of integer
      tuples ([lex_compare], [lex_le]); the hint databases [dash] and
      [dash_rw]; and the tactic [decide_by_eval] that closes a decidable
      goal on concrete data by evaluation.
    - [Calendar] (Module [Calendar]): dates and Timestamps, CPython's day
      ordinal, the [%B %Y] printer and pandas' parser of it (the parser
      ignores the case of the month name and accepts a run of white space,
      as Python's [_strptime] pattern does). Round-trip theorem.
    - [Frame] (Module [Frame]): [pd.merge] (inner and left) and
      [drop_duplicates]; sums and counts over merges.
    - [GroupBy] (Module [GroupBy]): [groupby(...).agg()] as an insertion
      into a list of sorted keys, proved against a contract ([groupby_spec])
      that determines the output; [sum], [count], [max], and the dropping
      of missing keys.
    - [SortValues] (Module [SortValues]): [sort_values] as a contract (a
      sorted permutation) and one implementation of it (merge sort). The
      interface between the sort and its clients is the typeclass
      [SortImpl] with its law [SortImplLaws] (the output meets the
      contract): the views and charts are defined over any instance and
      their theorems assume only the law, because pandas' default
      quicksort leaves the order of ties open; [merge_sort_impl] is the
      instance the examples evaluate.
    - [Tables] (Module [Tables]): the six tables as records of the columns
      the code uses.
    - [Normalizer], [DateFilter], [MonthlyRevenue], [ProductCount],
      [CitySpending], [CategoryRevenue], [Rank], [RFM]: one Module each,
      one Definition per step of the code, named after the code.
    - [Dashboard] (Module [Dashboard]): the script body as one function
      [dashboard] from the tables and the widget's selection to the
      summary the page shows, or to the exception that stops the script.
    - [Currency] (Module [Currency]): babel's [format_currency(x,
      "BRL", locale='es_CO')] (lines 131, 231): quantization to the
      centavo, half to even, and the [es_CO] pattern [¤ #,##0.00] (symbol
      [R$], a no-break space, [.] between groups of three digits, [,]
      before two decimals). The integer part is written by repeated
      division by ten, a recursion that is not structural: [digits_fuel]
      carries fuel and [digits_bound n], one step per bit of [n], is
      enough.
    - [Page] (Module [Page]): what a run draws (lines 103-111, 121-267):
      [render] gives the sequence of Streamlit elements (image, date
      widget, headers, metrics, figures) and the exception that stopped
      the run; a chart is the data it draws: the points of the line plot,
      and for each bar chart its title and bars (label, value, palette
      colour), after the [head]/[tail] and the sorts of lines 156-257.
    - [Session] (Module [Session]): Streamlit's reruns as a step relation
      on the value of the date widget: the default range, the first and
      second click of a range within [min_value] and [max_value]; each
      state is rendered by a rerun.

    Each operation is a total function over lists; the only effects the
    code has are exceptions, modelled as [option] (a parse that fails) and
    as the sum [dashboard_error + summary]. Every loop over a table is
    structural recursion; the one recursion that is not, the digit
    expansion of Currency, carries fuel with a proved bound.

    ** What is proved

    - Conservation: the total revenue of the page is the price of every
      item of an order of the range ([Dashboard.dashboard_total_revenue]);
      the counts, amounts and revenues of the other views add up to their
      items or payments, the merges losing or duplicating nothing when
      the ids are unique.
    - Shape of each view: each row is a key of the merged rows with the
      sum or count of its rows; the monthly revenue is in strict
      chronological order; the product ranking is non-increasing; the
      RFM table has one row per customer.
    - The date filter: loading moves timestamps to month starts, so the
      filter keeps an order exactly when the first day of its month is in
      the range; an inverted range yields empty views; the widget's
      initial range keeps every order; a partial selection raises.
    - The normaliser implements the contract of the spec (section 4.1)
      when each category has one translation.
    - RFM: a customer's Frequency counts its orders with items (not its
      distinct order dates) and its Monetary value is the price of their
      items; its Recency is the number of days from the latest date of
      the range to its own latest date, never negative; one order of one
      customer, whatever its data, gives the spec's row (Recency 0,
      Frequency 1, ranks and score 100).
    - Calendar: [toordinal]'s closed formula counts the days from
      0001-01-01; the month label determines the month and parses back.
    - Ranks: pandas' average rank is strictly monotone and the ranks sum
      to [n (n + 1) / 2]; normalised recency and frequency ranks lie in
      (0, 100]; the monetary one, which line 73 computes from the
      frequency rank, only in (0, 200), and the score in (0, 157); the
      monetary one exceeds 100 exactly when the frequency rank is above
      every monetary rank, the only way a score exceeds 100.
    - The charts: the best-product, city and category charts show the top
      rows of their table and highlight a row with the largest value; the
      worst-product chart shows the bottom five and highlights the best
      of them; the city and category charts draw ten and fifteen bars;
      the RFM panels show the five customers with the lowest
      Recency and the highest Frequency and Monetary; every chart draws
      each category once; the rounded averages are within half a unit
      of their last digit.
    - The session: the widget's reachable values are exactly its default
      range, one allowed day and two allowed days, and a page that stops
      at a partial selection shows after the next click.
    - Currency: the string shown, read back with its grouping checked,
      is a whole number of centavos within half a centavo of the amount
      and the even one at a tie (the digit expansion, a fuelled loop of
      the model, terminates within [digits_bound]).
    - End to end (Dashboard, Currency and Page together): on well-formed
      orders a run with a two-date range draws the whole page, its
      "Total orders" metric is the number of orders of the range and its
      "Total Revenue" string reads back as the price of every item of an
      order of the range ([Page.page_summary_metrics]); the points of
      the monthly line plot add up to what "Total Revenue" reads back
      as; every Recency of the page counts days between first days of
      months, since line 96 truncates the timestamps line 52 reads.

    ** Modelling choices and what is not modelled

    Prices and payments are integers (centavos); the sums of floats and
    their rounding are not modelled. Ranks, normalised ranks, scores and
    means are exact rationals. Strings are Rocq strings of 8-bit
    characters (the no-break space as its two UTF-8 bytes). The CSV
    reading (lines 89-94) is not modelled: the tables are inputs, and
    parsing CSV files is pandas' work, not the program's. [format_currency]
    and [round] work on the exact amount, where babel converts the float
    to a [Decimal] and numpy rounds the float [x * 10 ^ d]; the
    formatting of NaN (the mean of an empty RFM table) is not modelled
    and stays [None]. The locale data of [format_currency] (pattern,
    symbol, separators) are CLDR's for [es_CO], as babel ships them.
    Figure sizes, fonts, tick rotation, axis labels and placement, and
    [sns.set] (line 7) are styling and are not modelled. The session
    model takes the two dates of a range in the order they are clicked;
    the theorems about it do not depend on that order. *)

From stdpp Require Export base list sets strings sorting.
From Stdlib Require Export Ascii ZArith QArith Lia Lqa.

Declare Scope dash_scope.
Delimit Scope dash_scope with dash.
Open Scope Z_scope.

Create HintDb dash.
Create Rewrite HintDb dash_rw.

(** ** Sums over lists (the [.sum()] of a pandas column) *)

Definition sumZ {A} (f : A -> Z) (l : list A) : Z :=
  fold_right (fun x acc => f x + acc) 0 l.

Notation "'Σ[' x '<-' l ']' e" := (sumZ (fun x => e) l)
  (at level 35, x binder, l at level 50, e at level 35) : dash_scope.
Open Scope dash_scope.

Section Sums.
Context {A : Type}.
Implicit Types (f g : A -> Z) (l : list A).

Lemma sumZ_nil f : sumZ f [] = 0.
Proof. reflexivity. Qed.

Lemma sumZ_cons f x l : sumZ f (x :: l) = f x + sumZ f l.
Proof. reflexivity. Qed.

Lemma sumZ_app f l1 l2 : sumZ f (l1 ++ l2) = sumZ f l1 + sumZ f l2.
Proof. induction l1; simpl; lia. Qed.

Lemma sumZ_ext f g l : (forall x, x ∈ l -> f x = g x) -> sumZ f l = sumZ g l.
Proof.
  induction l as [|x l IH]; intros Hfg; simpl; [done|].
  rewrite (Hfg x), IH; [done| |set_solver].
  intros y Hy. apply Hfg. set_solver.
Qed.

Lemma sumZ_add f g l : sumZ (fun x => f x + g x) l = sumZ f l + sumZ g l.
Proof. induction l; simpl; lia. Qed.

Lemma sumZ_mul_l c f l : Σ[ x <- l ] (c * f x) = c * sumZ f l.
Proof. induction l; simpl; lia. Qed.

Lemma sumZ_const_1 l : sumZ (fun _ => 1) l = Z.of_nat (length l).
Proof. induction l; simpl; lia. Qed.

Lemma sumZ_filter f (P : A -> Prop) `{!forall x, Decision (P x)} l :
  sumZ f (filter P l) = sumZ (fun x => if decide (P x) then f x else 0) l.
Proof.
  induction l as [|x l IH]; simpl; [done|].
  rewrite filter_cons. case_decide; simpl; lia.
Qed.

Lemma sumZ_nonneg f l : (forall x, x ∈ l -> 0 <= f x) -> 0 <= sumZ f l.
Proof.
  induction l as [|x l IH]; intros H; simpl; [lia|].
  assert (0 <= f x) by (apply H; set_solver).
  assert (0 <= sumZ f l) by (apply IH; intros; apply H; set_solver). lia.
Qed.

#[global] Instance sumZ_perm f : Proper ((≡ₚ) ==> (=)) (sumZ f).
Proof. intros l1 l2 Hp. induction Hp; simpl; lia. Qed.
End Sums.

Lemma sumZ_map {A B} (f : B -> Z) (g : A -> B) (l : list A) :
  sumZ f (map g l) = sumZ (fun x => f (g x)) l.
Proof. induction l; simpl; lia. Qed.

Lemma sumZ_flat_map {A B} (f : B -> Z) (g : A -> list B) (l : list A) :
  sumZ f (flat_map g l) = sumZ (fun x => sumZ f (g x)) l.
Proof. induction l; simpl; rewrite ?sumZ_app; lia. Qed.

(** Counting the elements of a filtered list that satisfy a second test. *)
Lemma sumZ_indicator_filter {A} (P Q : A -> Prop)
    `{!forall x, Decision (P x), !forall x, Decision (Q x)} (l : list A) :
  Σ[ x <- filter P l ] (if decide (Q x) then 1 else 0) =
  Z.of_nat (length (filter (fun x => P x /\ Q x) l)).
Proof.
  induction l as [|x l IH]; [done|]. rewrite !filter_cons.
  destruct (decide (P x)), (decide (Q x)); simpl.
  - rewrite !decide_True by tauto. simpl. lia.
  - rewrite !decide_False by tauto. simpl. lia.
  - by rewrite decide_False by tauto.
  - by rewrite decide_False by tauto.
Qed.

Lemma sumZ_filter_filter {A} (f : A -> Z) (P Q : A -> Prop)
    `{!forall x, Decision (P x), !forall x, Decision (Q x)} (l : list A) :
  Σ[ x <- filter P l ] (if decide (Q x) then f x else 0) =
  Σ[ x <- filter (fun x => P x /\ Q x) l ] f x.
Proof.
  induction l as [|x l IH]; [done|]. rewrite !filter_cons.
  destruct (decide (P x)), (decide (Q x)); simpl.
  - rewrite !decide_True by tauto. simpl. lia.
  - rewrite !decide_False by tauto. simpl. lia.
  - by rewrite decide_False by tauto.
  - by rewrite decide_False by tauto.
Qed.

Lemma sumZ_filter_map {A B} (g : B -> Z) (f : A -> B) (P : B -> Prop)
    `{!forall x, Decision (P x)} (l : list A) :
  sumZ g (filter P (map f l)) = Σ[ x <- filter (fun x => P (f x)) l ] g (f x).
Proof.
  induction l as [|x l IH]; simpl; [done|]. rewrite !filter_cons.
  case_decide; simpl; by rewrite IH.
Qed.


Lemma length_filter_sumZ {A} (P : A -> Prop) `{!forall x, Decision (P x)} (l : list A) :
  Z.of_nat (length (filter P l)) = Σ[ x <- l ] (if decide (P x) then 1 else 0).
Proof. by rewrite <- sumZ_const_1, sumZ_filter. Qed.

#[export] Hint Rewrite @sumZ_app @sumZ_map @sumZ_flat_map : dash_rw.

Lemma sumZ_swap {A B} (f : A -> B -> Z) (l1 : list A) (l2 : list B) :
  Σ[ x <- l1 ] Σ[ y <- l2 ] f x y = Σ[ y <- l2 ] Σ[ x <- l1 ] f x y.
Proof.
  induction l1 as [|x l1 IH]; simpl.
  - induction l2; simpl; lia.
  - rewrite IH, <- sumZ_add. done.
Qed.


(** Over a list without duplicates, membership is a count of equal
    elements. *)
Lemma indicator_elem_of {A} `{EqDecision A} (l : list A) x :
  NoDup l -> (if decide (x ∈ l) then 1 else 0) = Σ[ y <- l ] (if decide (x = y) then 1 else 0).
Proof.
  induction l as [|y l IH]; intros Hnd; [by rewrite decide_False by set_solver|].
  apply NoDup_cons in Hnd as [Hy Hnd]. cbn [sumZ fold_right]. fold (sumZ (fun y => if decide (x = y) then 1 else 0) l).
  rewrite <- IH by done.
  repeat case_decide; subst; set_solver || lia.
Qed.

(** Double counting: the elements of [l1] that are in [l2] are as many
    as the elements of [l2] that are in [l1]. *)
Lemma sum_mem_swap {A} `{EqDecision A} (l1 l2 : list A) :
  NoDup l1 -> NoDup l2 ->
  Σ[ x <- l1 ] (if decide (x ∈ l2) then 1 else 0) = Σ[ y <- l2 ] (if decide (y ∈ l1) then 1 else 0).
Proof.
  intros H1 H2.
  rewrite (sumZ_ext _ (fun x => Σ[ y <- l2 ] (if decide (x = y) then 1 else 0)))
    by (intros x _; by apply indicator_elem_of).
  rewrite (sumZ_ext (fun y => if decide (y ∈ l1) then 1 else 0)
             (fun y => Σ[ x <- l1 ] (if decide (x = y) then 1 else 0))).
  - apply sumZ_swap.
  - intros y _. rewrite (indicator_elem_of l1 y H1). apply sumZ_ext. intros x _.
    repeat case_decide; subst; done || lia.
Qed.

Lemma length_filter_map {A B} (P : B -> Prop) `{!forall x, Decision (P x)} (f : A -> B) l :
  length (filter P (map f l)) = length (filter (fun x => P (f x)) l).
Proof. induction l as [|x l IH]; [done|]. simpl. rewrite !filter_cons. case_decide; simpl; lia. Qed.

Lemma filter_map_comm {A B} (P : B -> Prop) `{!forall x, Decision (P x)} (f : A -> B) l :
  filter P (map f l) = map f (filter (fun x => P (f x)) l).
Proof. induction l as [|x l IH]; [done|]. simpl. rewrite !filter_cons. case_decide; simpl; by rewrite IH. Qed.

(** A filter keeps a row exactly when some row passes it. *)
Lemma length_filter_pos {A} (P : A -> Prop) `{!forall x, Decision (P x)} (l : list A) :
  (0 < length (filter P l))%nat <-> exists x, x ∈ l /\ P x.
Proof.
  induction l as [|x l IH]; simpl; [split; [lia|]; intros (? & ? & _); set_solver|].
  rewrite filter_cons. case_decide as Hx; simpl.
  - split; [intros _; exists x; split; [set_solver|done]|lia].
  - rewrite IH. split; intros (y & Hy & Py); exists y; split; try done; [set_solver|].
    apply elem_of_cons in Hy as [->|]; [done|done].
Qed.

(** A filter that every row passes keeps the table. *)
Lemma filter_all {A} (P : A -> Prop) `{!forall x, Decision (P x)} (l : list A) :
  (forall x, x ∈ l -> P x) -> filter P l = l.
Proof.
  induction l as [|x l IH]; intros Hall; [done|].
  rewrite filter_cons_True by (apply Hall; set_solver). f_equal. apply IH. intros y Hy. apply Hall. set_solver.
Qed.

(** A sublist of a strictly sorted column is strictly sorted. *)
Lemma StronglySorted_sublist {A} (R : relation A) (l1 l2 : list A) :
  l1 `sublist_of` l2 -> StronglySorted R l2 -> StronglySorted R l1.
Proof.
  induction 1 as [|x l1 l2 Hs IH|x l1 l2 Hs IH]; intros S; [constructor| |].
  - apply StronglySorted_inv in S as [S F]. constructor; [by apply IH|].
    rewrite Forall_forall in F |- *. intros y Hy. apply F. by eapply elem_of_sublist.
  - apply IH. by apply StronglySorted_inv in S as [S _].
Qed.

(** In a strongly sorted table every row of a prefix is related to every
    row of the rest. *)
Lemma StronglySorted_app_rel {A} (R : relation A) (l1 l2 : list A) x y :
  StronglySorted R (l1 ++ l2) -> x ∈ l1 -> y ∈ l2 -> R x y.
Proof.
  induction l1 as [|z l1 IH]; simpl; intros S Hx Hy; [set_solver|].
  apply StronglySorted_inv in S as [S F].
  apply elem_of_cons in Hx as [->|Hx]; [|by apply IH].
  rewrite Forall_forall in F. apply F. set_solver.
Qed.

(** The first row of a suffix ends the prefix one row longer. *)
Lemma drop_cons_split {A} (l : list A) m x rest :
  drop m l = x :: rest -> x ∈ take (S m) l /\ drop (S m) l = rest.
Proof.
  revert m. induction l as [|y l IH]; intros [|m]; simpl; try done.
  - intros [= -> ->]. split; [set_solver|]. by rewrite drop_0.
  - intros E%IH. set_solver.
Qed.

(** A column strictly sorted by an irreflexive order has no repeats. *)
Lemma StronglySorted_NoDup {A} (R : relation A) `{!Irreflexive R} (l : list A) :
  StronglySorted R l -> NoDup l.
Proof.
  induction 1 as [|x l S IH F]; constructor; [|done].
  intros Hin. rewrite Forall_forall in F. by apply (irreflexivity R x), F.
Qed.

(** ** The order of Python strings

    pandas sorts [object] columns of strings with Python's [<] on [str],
    which compares code points lexicographically; on the ASCII strings of
    the model that is [String.compare]. *)

Definition str_lt (s1 s2 : string) : Prop := String.compare s1 s2 = Lt.

#[export] Instance str_lt_dec : RelDecision str_lt.
Proof. intros s1 s2. unfold str_lt. apply _. Defined.

Lemma ascii_compare_refl (a : Ascii.ascii) : Ascii.compare a a = Eq.
Proof. unfold Ascii.compare. apply N.compare_refl. Qed.

Lemma str_compare_refl s : String.compare s s = Eq.
Proof. induction s; simpl; rewrite ?ascii_compare_refl; done. Qed.

Lemma str_compare_eq s1 s2 : String.compare s1 s2 = Eq <-> s1 = s2.
Proof.
  split; [apply String.compare_eq_iff|intros ->; apply str_compare_refl].
Qed.

Lemma str_compare_gt s1 s2 : String.compare s1 s2 = Gt <-> str_lt s2 s1.
Proof.
  unfold str_lt. rewrite String.compare_antisym.
  destruct (String.compare s2 s1); simpl; naive_solver.
Qed.

Lemma ascii_compare_lt_trans a b c :
  Ascii.compare a b = Lt -> Ascii.compare b c = Lt -> Ascii.compare a c = Lt.
Proof. unfold Ascii.compare. rewrite !N.compare_lt_iff. lia. Qed.

Lemma ascii_compare_lt_eq a b c :
  Ascii.compare a b = Lt -> Ascii.compare b c = Eq -> Ascii.compare a c = Lt.
Proof. intros H1 H2%Ascii.compare_eq_iff. by subst. Qed.

Lemma str_lt_trans s1 s2 s3 : str_lt s1 s2 -> str_lt s2 s3 -> str_lt s1 s3.
Proof.
  unfold str_lt. revert s2 s3.
  induction s1 as [|a s1 IH]; intros [|b s2] [|c s3]; simpl; try done.
  destruct (Ascii.compare a b) eqn:Hab, (Ascii.compare b c) eqn:Hbc;
    try done; intros H1 H2.
  - apply Ascii.compare_eq_iff in Hab, Hbc. subst. rewrite ascii_compare_refl. eauto.
  - apply Ascii.compare_eq_iff in Hab. subst. by rewrite Hbc.
  - apply Ascii.compare_eq_iff in Hbc. subst. by rewrite Hab.
  - by rewrite (ascii_compare_lt_trans a b c).
Qed.

#[export] Instance str_lt_strict : StrictOrder str_lt.
Proof.
  split.
  - intros s H. unfold str_lt in H. by rewrite str_compare_refl in H.
  - intros ???. apply str_lt_trans.
Qed.

Lemma str_trichotomy s1 s2 : str_lt s1 s2 \/ s1 = s2 \/ str_lt s2 s1.
Proof.
  unfold str_lt. destruct (String.compare s1 s2) eqn:E; auto.
  - right; left. by apply str_compare_eq.
  - right; right. by apply str_compare_gt.
Qed.

#[export] Hint Resolve str_lt_trans : dash.

(** ** Lexicographic comparison of integer tuples

    CPython compares [date] and [datetime] values as the tuples
    [(year, month, day)] and [(year, month, day, hour, minute, second)]. *)

Fixpoint lex_compare (l1 l2 : list Z) : comparison :=
  match l1, l2 with
  | [], [] => Eq
  | [], _ :: _ => Lt
  | _ :: _, [] => Gt
  | x :: l1', y :: l2' =>
      match Z.compare x y with Eq => lex_compare l1' l2' | c => c end
  end.

Lemma lex_compare_antisym l1 l2 : lex_compare l2 l1 = CompOpp (lex_compare l1 l2).
Proof.
  revert l2. induction l1 as [|x l1 IH]; intros [|y l2]; simpl; try done.
  rewrite (Z.compare_antisym x y). destruct (x ?= y)%Z; simpl; auto.
Qed.

Lemma lex_compare_eq l1 l2 : lex_compare l1 l2 = Eq <-> l1 = l2.
Proof.
  revert l2. induction l1 as [|x l1 IH]; intros [|y l2]; simpl; try done.
  destruct (Z.compare_spec x y); subst.
  - rewrite IH. split; [by intros ->|by intros [=]].
  - split; [done|intros [=]; lia].
  - split; [done|intros [=]; lia].
Qed.

Lemma lex_compare_lt_trans l1 l2 l3 :
  lex_compare l1 l2 = Lt -> lex_compare l2 l3 = Lt -> lex_compare l1 l3 = Lt.
Proof.
  revert l2 l3. induction l1 as [|x l1 IH]; intros [|y l2] [|z l3]; simpl; try done.
  destruct (Z.compare_spec x y), (Z.compare_spec y z), (Z.compare_spec x z);
    subst; try done; try lia; eauto.
Qed.

Section LexOrder.
Context {A : Type} (fields : A -> list Z).

(** [a <= b] on values compared by their field tuples. *)
Definition lex_le (a b : A) : Prop := lex_compare (fields a) (fields b) <> Gt.

#[global] Instance lex_le_dec : RelDecision lex_le.
Proof. intros a b. unfold lex_le. apply _. Defined.

Lemma lex_le_lt_eq a b :
  lex_le a b <-> lex_compare (fields a) (fields b) = Lt \/ fields a = fields b.
Proof.
  unfold lex_le. rewrite <- lex_compare_eq.
  destruct (lex_compare (fields a) (fields b)); naive_solver.
Qed.

#[global] Instance lex_le_total : Total lex_le.
Proof.
  intros a b. unfold lex_le. rewrite (lex_compare_antisym (fields a)).
  destruct (lex_compare (fields a) (fields b)); simpl; naive_solver.
Qed.

#[global] Instance lex_le_preorder : PreOrder lex_le.
Proof.
  split.
  - intros a. apply lex_le_lt_eq. by right.
  - intros a b c. rewrite !lex_le_lt_eq.
    intros [H1 | H1] [H2 | H2]; rewrite ?H1, ?H2 in *; auto.
    left. by eapply lex_compare_lt_trans.
Qed.

Lemma lex_le_antisym_fields a b : lex_le a b -> lex_le b a -> fields a = fields b.
Proof.
  unfold lex_le. rewrite (lex_compare_antisym (fields a)).
  destruct (lex_compare (fields a) (fields b)) eqn:E; simpl; intros H1 H2;
    try congruence. by apply lex_compare_eq.
Qed.
End LexOrder.

(** Close a decidable proposition about concrete data by evaluation. *)
Ltac decide_by_eval := apply (bool_decide_unpack _); vm_compute; exact I.
