(* ===== verification/Calendar.v ===== *)
(** Calendar: the dates and timestamps that [src/dashboard.py] handles.

    - [date] is Python's [datetime.date] (proleptic Gregorian calendar),
      [datetime] a pandas [Timestamp] at one-second resolution.
    - [strftime_B_Y] is [.dt.strftime('%B %Y')] (lines 11, 15, 96) and
      [to_datetime_B_Y] is [pd.to_datetime(..., format="%B %Y")]
      (lines 13, 96): a label such as ["January 2023"] and its parser,
      which, like the pattern Python's [_strptime] builds, ignores the
      case of the month name, accepts a run of white space between the
      fields, requires four digits and fails ([None]) otherwise.
    - [truncate_to_month] is the load-time rewrite of line 96, which
      replaces every purchase timestamp by the first instant of its month.
    - [toordinal] is CPython's [date.toordinal] ([_ymd2ord]); the
      [.days] of a difference of dates (line 56) is [days_between].

    [year_string] prints four digits. pandas Timestamps have years
    1677-2262, where the platform's [%Y] has four digits too; the
    theorems assume only the weaker [printable] (a month of the calendar
    and a year of at most four digits). *)

From S2P Require Import Prelude.

Module Calendar.

(** ** Dates *)

Record date := mk_date { year : Z; month : Z; day : Z }.

Record datetime := mk_datetime
  { dt_date : date; dt_hour : Z; dt_minute : Z; dt_second : Z }.

#[export] Instance date_eq_dec : EqDecision date.
Proof. solve_decision. Defined.
#[export] Instance datetime_eq_dec : EqDecision datetime.
Proof. solve_decision. Defined.

(** [_is_leap] of CPython's [datetime] module. *)
Definition is_leap (y : Z) : bool :=
  (y mod 4 =? 0) && (negb (y mod 100 =? 0) || (y mod 400 =? 0)).

(** [_days_in_month]. *)
Definition days_in_month (y m : Z) : Z :=
  match m with
  | 1 | 3 | 5 | 7 | 8 | 10 | 12 => 31
  | 4 | 6 | 9 | 11 => 30
  | 2 => if is_leap y then 29 else 28
  | _ => 0
  end.

Definition days_in_year (y : Z) : Z := if is_leap y then 366 else 365.

(** The dates [datetime.date] accepts: [MINYEAR = 1], [MAXYEAR = 9999]. *)
Definition valid_date (d : date) : bool :=
  (1 <=? year d) && (year d <=? 9999) && (1 <=? month d) && (month d <=? 12)
  && (1 <=? day d) && (day d <=? days_in_month (year d) (month d)).

(** [_DAYS_BEFORE_MONTH[m] + (m > 2 and _is_leap(y))]. *)
Definition days_before_month (y m : Z) : Z :=
  let base := match m with
              | 1 => 0 | 2 => 31 | 3 => 59 | 4 => 90 | 5 => 120 | 6 => 151
              | 7 => 181 | 8 => 212 | 9 => 243 | 10 => 273 | 11 => 304
              | 12 => 334 | _ => -1
              end in
  base + (if (2 <? m) && is_leap y then 1 else 0).

(** [_days_before_year]: [y*365 + y//4 - y//100 + y//400] with [y = year - 1]. *)
Definition days_before_year (y : Z) : Z :=
  let y' := y - 1 in 365 * y' + y' / 4 - y' / 100 + y' / 400.

(** [_ymd2ord], i.e. [date.toordinal]. *)
Definition toordinal (d : date) : Z :=
  days_before_year (year d) + days_before_month (year d) (month d) + day d.

(** [(a - b).days] for two dates. *)
Definition days_between (a b : date) : Z := toordinal a - toordinal b.

(** ** Chronological order (CPython's [_cmp] on the field tuples) *)

Definition date_fields (d : date) : list Z := [year d; month d; day d].

Definition datetime_fields (t : datetime) : list Z :=
  date_fields (dt_date t) ++ [dt_hour t; dt_minute t; dt_second t].

Definition date_compare (a b : date) : comparison :=
  lex_compare (date_fields a) (date_fields b).

Definition date_le : relation date := lex_le date_fields.
Definition datetime_le : relation datetime := lex_le datetime_fields.

#[export] Instance date_le_dec : RelDecision date_le := lex_le_dec _.
#[export] Instance datetime_le_dec : RelDecision datetime_le := lex_le_dec _.
#[export] Instance date_le_total : Total date_le := lex_le_total _.
#[export] Instance datetime_le_total : Total datetime_le := lex_le_total _.
#[export] Instance date_le_preorder : PreOrder date_le := lex_le_preorder _.
#[export] Instance datetime_le_preorder : PreOrder datetime_le := lex_le_preorder _.

(** [max] of two dates, as the [.max()] reduction of a date column. *)
Definition date_max (a b : date) : date := if decide (date_le a b) then b else a.

(** Midnight of a date: what [str(start_date)] denotes when pandas
    compares it with a Timestamp column (line 113). *)
Definition midnight (d : date) : datetime := mk_datetime d 0 0 0.

(** ** The label [%B %Y] and its parser *)

Definition month_name (m : Z) : string :=
  match m with
  | 1 => "January" | 2 => "February" | 3 => "March" | 4 => "April"
  | 5 => "May" | 6 => "June" | 7 => "July" | 8 => "August"
  | 9 => "September" | 10 => "October" | 11 => "November"
  | 12 => "December" | _ => ""
  end.

Definition digit_char (d : Z) : Ascii.ascii := Ascii.ascii_of_nat (48 + Z.to_nat d).

Definition char_digit (c : Ascii.ascii) : option Z :=
  let n := Z.of_nat (Ascii.nat_of_ascii c) in
  if (48 <=? n) && (n <=? 57) then Some (n - 48) else None.

(** [%Y]: the year in four decimal digits. *)
Definition year_string (y : Z) : string :=
  String (digit_char (y / 1000))
    (String (digit_char ((y / 100) mod 10))
       (String (digit_char ((y / 10) mod 10))
          (String (digit_char (y mod 10)) EmptyString))).

Definition strftime_B_Y (t : datetime) : string :=
  month_name (month (dt_date t)) +:+ " " +:+ year_string (year (dt_date t)).

(** [\s] of the pattern Python's [_strptime] builds (pandas parses with
    it): the characters [str.isspace] accepts among the code points 0-255
    a [string] holds. *)
Definition is_space (c : Ascii.ascii) : bool :=
  let n := Ascii.nat_of_ascii c in
  ((9 <=? n) && (n <=? 13))%nat || ((28 <=? n) && (n <=? 32))%nat || (n =? 133)%nat || (n =? 160)%nat.

(** Case folding of [re.IGNORECASE] on the letters month names use. *)
Definition lower_char (c : Ascii.ascii) : Ascii.ascii :=
  let n := Ascii.nat_of_ascii c in
  if ((65 <=? n) && (n <=? 90))%nat then Ascii.ascii_of_nat (n + 32) else c.

Fixpoint lower (s : string) : string :=
  match s with
  | EmptyString => EmptyString
  | String c r => String (lower_char c) (lower r)
  end.

(** [%B] when parsing: the month whose name is [s], ignoring case. *)
Definition month_of_name (s : string) : option Z :=
  find (fun m => bool_decide (lower (month_name m) = lower s)) [1;2;3;4;5;6;7;8;9;10;11;12].

(** Split at the first white-space character. *)
Fixpoint split_space (s : string) : string * string :=
  match s with
  | EmptyString => (EmptyString, EmptyString)
  | String c r =>
      if is_space c then (EmptyString, r)
      else let '(a, b) := split_space r in (String c a, b)
  end.

(** The rest of the white-space run [\s+]. *)
Fixpoint skip_spaces (s : string) : string :=
  match s with
  | String c r => if is_space c then skip_spaces r else s
  | EmptyString => EmptyString
  end.

(** [%Y] when parsing: exactly four decimal digits. *)
Definition parse_year4 (s : string) : option Z :=
  match s with
  | String a (String b (String c (String d EmptyString))) =>
      match char_digit a, char_digit b, char_digit c, char_digit d with
      | Some a, Some b, Some c, Some d => Some (1000 * a + 100 * b + 10 * c + d)
      | _, _, _, _ => None
      end
  | _ => None
  end.

(** [pd.to_datetime(s, format="%B %Y")]: the string must match
    [(?i)(january|...|december)\s+(\d\d\d\d)] to its end; the result is
    the first instant of the month, or a parse error. *)
Definition to_datetime_B_Y (s : string) : option datetime :=
  let '(name, rest) := split_space s in
  match month_of_name name, parse_year4 (skip_spaces rest) with
  | Some m, Some y => Some (mk_datetime (mk_date y m 1) 0 0 0)
  | _, _ => None
  end.

(** Line 96: [pd.to_datetime(pd.to_datetime(ts).dt.strftime("%B %Y"),
    format="%B %Y")]. *)
Definition truncate_to_month (t : datetime) : option datetime :=
  to_datetime_B_Y (strftime_B_Y t).

(** The timestamps whose label [%B %Y] can be printed and parsed back:
    a month of the calendar and a year of at most four digits (pandas
    Timestamps lie in the years 1677-2262). *)
Definition printable (t : datetime) : Prop :=
  1 <= month (dt_date t) <= 12 /\ 0 <= year (dt_date t) <= 9999.

(** The month-start timestamp the parser produces on success. *)
Definition month_start (t : datetime) : datetime :=
  mk_datetime (mk_date (year (dt_date t)) (month (dt_date t)) 1) 0 0 0.

(** ** Lemmas *)

Lemma month_cases m :
  1 <= m <= 12 ->
  m = 1 \/ m = 2 \/ m = 3 \/ m = 4 \/ m = 5 \/ m = 6 \/ m = 7 \/ m = 8 \/
  m = 9 \/ m = 10 \/ m = 11 \/ m = 12.
Proof. lia. Qed.

Ltac month_split m :=
  let H := fresh in
  match goal with Hm : 1 <= m <= 12 |- _ => pose proof (month_cases m Hm) as H end;
  repeat destruct H as [H|H]; subst m.

Lemma char_digit_digit_char d : 0 <= d <= 9 -> char_digit (digit_char d) = Some d.
Proof.
  intros Hd. assert (d = 0 \/ d = 1 \/ d = 2 \/ d = 3 \/ d = 4 \/ d = 5 \/
                     d = 6 \/ d = 7 \/ d = 8 \/ d = 9) as H by lia.
  repeat destruct H as [H|H]; subst; reflexivity.
Qed.

Lemma parse_year4_year_string y :
  0 <= y <= 9999 -> parse_year4 (year_string y) = Some y.
Proof.
  intros Hy. unfold year_string, parse_year4.
  rewrite !char_digit_digit_char by (Z.to_euclidean_division_equations; lia).
  f_equal. Z.to_euclidean_division_equations. lia.
Qed.

Lemma split_space_month m rest :
  1 <= m <= 12 -> split_space (month_name m +:+ " " +:+ rest) = (month_name m, rest).
Proof. intros Hm. month_split m; reflexivity. Qed.

Lemma month_of_name_month_name m :
  1 <= m <= 12 -> month_of_name (month_name m) = Some m.
Proof. intros Hm. month_split m; reflexivity. Qed.

Lemma is_leap_cases y :
  (is_leap y = true /\ days_in_year y = 366) \/ (is_leap y = false /\ days_in_year y = 365).
Proof. unfold days_in_year. destruct (is_leap y); auto. Qed.

Lemma days_before_year_succ y :
  days_before_year (y + 1) = days_before_year y + days_in_year y.
Proof.
  unfold days_before_year, days_in_year, is_leap.
  destruct (y mod 4 =? 0) eqn:E1, (y mod 100 =? 0) eqn:E2, (y mod 400 =? 0) eqn:E3;
    simpl; rewrite ?Z.eqb_eq, ?Z.eqb_neq in *; Z.to_euclidean_division_equations; lia.
Qed.

Lemma days_before_year_mono y1 y2 :
  y1 < y2 -> days_before_year y1 + days_in_year y1 <= days_before_year y2.
Proof.
  intros Hlt. rewrite <- days_before_year_succ.
  unfold days_before_year. Z.to_euclidean_division_equations. lia.
Qed.

Lemma days_before_month_end y m :
  1 <= m <= 12 -> days_before_month y m + days_in_month y m <= days_in_year y.
Proof.
  intros Hm. unfold days_in_year.
  month_split m; unfold days_before_month, days_in_month; simpl;
    destruct (is_leap y); simpl; lia.
Qed.

Lemma days_before_month_mono y m1 m2 :
  1 <= m1 <= 12 -> 1 <= m2 <= 12 -> m1 < m2 ->
  days_before_month y m1 + days_in_month y m1 <= days_before_month y m2.
Proof.
  intros Hm1 Hm2 Hlt. month_split m1; month_split m2;
    unfold days_before_month, days_in_month; simpl;
    destruct (is_leap y); simpl; lia.
Qed.

Lemma date_compare_spec a b :
  date_compare a b = Lt <->
  year a < year b \/ (year a = year b /\ (month a < month b \/
                                         (month a = month b /\ day a < day b))).
Proof.
  unfold date_compare; simpl.
  destruct (Z.compare_spec (year a) (year b)),
           (Z.compare_spec (month a) (month b)),
           (Z.compare_spec (day a) (day b)); split; intros; try done; lia.
Qed.

Lemma date_fields_inj a b : date_fields a = date_fields b -> a = b.
Proof. destruct a, b. by intros [= -> -> ->]. Qed.

Lemma date_le_lt_eq a b : date_le a b <-> date_compare a b = Lt \/ a = b.
Proof.
  unfold date_le. rewrite lex_le_lt_eq. unfold date_compare.
  split; intros [|H]; auto; right; [by apply date_fields_inj|by subst].
Qed.

Lemma date_le_antisym a b : date_le a b -> date_le b a -> a = b.
Proof. intros H1 H2. apply date_fields_inj. by eapply lex_le_antisym_fields. Qed.

Lemma date_max_le_l a b : date_le a (date_max a b).
Proof. unfold date_max. case_decide; [done|reflexivity]. Qed.

Lemma date_max_le_r a b : date_le b (date_max a b).
Proof.
  unfold date_max. case_decide; [reflexivity|].
  by destruct (date_le_total a b).
Qed.

Lemma date_max_cases a b : date_max a b = a \/ date_max a b = b.
Proof. unfold date_max. case_decide; auto. Qed.

(** [Series.max()] of a non-empty date column, folded from its first
    value: an upper bound of the column, and one of its values. *)
Lemma fold_date_max_ub l d x :
  x ∈ d :: l -> date_le x (fold_left date_max l d).
Proof.
  revert d x. induction l as [|w l IH]; intros d x Hx; simpl.
  - assert (x = d) as -> by set_solver. reflexivity.
  - apply elem_of_cons in Hx as [->|[->|Hx]%elem_of_cons].
    + etrans; [apply (date_max_le_l d w)|]. apply IH. set_solver.
    + etrans; [apply (date_max_le_r d w)|]. apply IH. set_solver.
    + apply IH. set_solver.
Qed.

Lemma fold_date_max_in l d : fold_left date_max l d ∈ d :: l.
Proof.
  revert d. induction l as [|w l IH]; intros d; simpl; [set_solver|].
  pose proof (IH (date_max d w)). destruct (date_max_cases d w) as [E|E]; rewrite E in *; set_solver.
Qed.

Lemma valid_date_spec d :
  valid_date d = true <->
  1 <= year d <= 9999 /\ 1 <= month d <= 12 /\ 1 <= day d <= days_in_month (year d) (month d).
Proof.
  unfold valid_date. rewrite !andb_true_iff, !Z.leb_le. naive_solver.
Qed.

(** The ordinal of a valid date lies inside its year. *)
Lemma toordinal_in_year d :
  valid_date d = true ->
  days_before_year (year d) < toordinal d <= days_before_year (year d) + days_in_year (year d).
Proof.
  intros (Hy & Hm & Hd)%valid_date_spec. unfold toordinal.
  destruct d as [y m dd]; simpl in *.
  pose proof (days_before_month_end y m Hm).
  assert (0 <= days_before_month y m).
  { month_split m; unfold days_before_month; simpl;
      destruct (is_leap y); simpl; lia. }
  lia.
Qed.

Ltac ord_unfold :=
  repeat match goal with
  | H : valid_date _ = true |- _ => apply valid_date_spec in H as (? & ? & ?)
  end; unfold toordinal.

(** [toordinal] is strictly monotone on valid dates: the day count
    of CPython agrees with the chronological order. *)
Lemma toordinal_lt a b :
  valid_date a = true -> valid_date b = true -> date_compare a b = Lt ->
  toordinal a < toordinal b.
Proof.
  intros Ha Hb Hlt.
  pose proof (toordinal_in_year a Ha) as [Ia1 Ia2].
  pose proof (toordinal_in_year b Hb) as [Ib1 Ib2].
  apply date_compare_spec in Hlt as [Hy|[Hy [Hm|[Hm Hd]]]].
  - pose proof (days_before_year_mono _ _ Hy). lia.
  - ord_unfold. rewrite Hy in *.
    pose proof (days_before_month_mono (year b) (month a) (month b)). lia.
  - ord_unfold. rewrite Hy, Hm. lia.
Qed.

Lemma toordinal_le a b :
  valid_date a = true -> valid_date b = true -> date_le a b ->
  toordinal a <= toordinal b.
Proof.
  intros Ha Hb [Hlt | ->]%date_le_lt_eq; [|lia].
  pose proof (toordinal_lt a b Ha Hb Hlt). lia.
Qed.


Lemma datetime_fields_inj a b : datetime_fields a = datetime_fields b -> a = b.
Proof. destruct a as [[] ? ? ?], b as [[] ? ? ?]. by intros [= -> -> -> -> -> ->]. Qed.

#[export] Instance datetime_le_antisym : AntiSymm (=) datetime_le.
Proof. intros a b H1 H2. apply datetime_fields_inj. by eapply lex_le_antisym_fields. Qed.

#[export] Instance date_le_antisym' : AntiSymm (=) date_le.
Proof. intros a b. apply date_le_antisym. Qed.

Lemma char_digit_inv c d : char_digit c = Some d -> 0 <= d <= 9 /\ digit_char d = c.
Proof.
  unfold char_digit, digit_char. destruct (_ && _) eqn:E; [|done].
  apply andb_true_iff in E as [E1%Z.leb_le E2%Z.leb_le]. intros [= <-].
  split; [lia|]. rewrite <- (Ascii.ascii_nat_embedding c) at 2. f_equal. lia.
Qed.

Lemma parse_year4_inv s y : parse_year4 s = Some y -> 0 <= y <= 9999 /\ year_string y = s.
Proof.
  destruct s as [|a [|b [|c [|d [|]]]]]; simpl; try done.
  destruct (char_digit a) as [da|] eqn:Ea, (char_digit b) as [db|] eqn:Eb,
    (char_digit c) as [dc|] eqn:Ec, (char_digit d) as [dd|] eqn:Ed; try done.
  apply char_digit_inv in Ea as [Ha <-], Eb as [Hb <-], Ec as [Hc <-], Ed as [Hd <-].
  intros [= <-]. split; [lia|]. unfold year_string.
  repeat f_equal; Z.to_euclidean_division_equations; lia.
Qed.

Lemma month_of_name_inv s m :
  month_of_name s = Some m -> 1 <= m <= 12 /\ lower (month_name m) = lower s.
Proof.
  unfold month_of_name. intros (Hin & Hm)%find_some.
  apply bool_decide_eq_true in Hm. split; [|done].
  repeat (destruct Hin as [<-|Hin]; [lia|]). done.
Qed.

Lemma month_name_out m : ~ (1 <= m <= 12) -> month_name m = EmptyString.
Proof.
  intros Hm. unfold month_name. destruct m as [|p|p]; [done| |done].
  do 4 (destruct p as [p|p|]; try reflexivity; try lia).
Qed.

Lemma digit_char_not_space d : 0 <= d <= 9 -> is_space (digit_char d) = false.
Proof.
  intros Hd. assert (d = 0 \/ d = 1 \/ d = 2 \/ d = 3 \/ d = 4 \/ d = 5 \/
                     d = 6 \/ d = 7 \/ d = 8 \/ d = 9) as H by lia.
  repeat destruct H as [H|H]; subst; reflexivity.
Qed.

Lemma skip_spaces_year_string y :
  0 <= y <= 9999 -> skip_spaces (year_string y) = year_string y.
Proof.
  intros Hy. unfold year_string. cbn [skip_spaces].
  rewrite digit_char_not_space by (Z.to_euclidean_division_equations; lia). done.
Qed.

Lemma skip_spaces_shorter s : skip_spaces s = s \/ (String.length (skip_spaces s) < String.length s)%nat.
Proof.
  induction s as [|c r IH]; simpl; [by left|].
  destruct (is_space c); [right|by left]. destruct IH as [->|]; simpl; lia.
Qed.

Lemma parse_year4_length s y : parse_year4 s = Some y -> String.length s = 4%nat.
Proof. destruct s as [|a [|b [|c [|d [|]]]]]; simpl; try done; by repeat case_match. Qed.

(** The parser yields month starts of printable years. *)
Lemma to_datetime_B_Y_inv s t :
  to_datetime_B_Y s = Some t ->
  t = month_start t /\ 1 <= month (dt_date t) <= 12 /\ 0 <= year (dt_date t) <= 9999.
Proof.
  unfold to_datetime_B_Y. destruct (split_space s) as [a b].
  destruct (month_of_name a) as [m|] eqn:Em, (parse_year4 (skip_spaces b)) as [y|] eqn:Ey; try done.
  intros [= <-]. apply month_of_name_inv in Em as [Hm _].
  apply parse_year4_inv in Ey as [Hy _]. done.
Qed.

Lemma year_string_length y : String.length (year_string y) = 4%nat.
Proof. reflexivity. Qed.

Lemma split_space_leading_space r : split_space (String " " r) = (EmptyString, r).
Proof. reflexivity. Qed.

Lemma month_of_name_empty : month_of_name EmptyString = None.
Proof. reflexivity. Qed.

(** On a label the printer produced, the parser returns a month whose
    label is that label. *)
Lemma to_datetime_B_Y_label t0 t :
  to_datetime_B_Y (strftime_B_Y t0) = Some t -> strftime_B_Y t = strftime_B_Y t0.
Proof.
  unfold strftime_B_Y at 1, to_datetime_B_Y.
  destruct (decide (1 <= month (dt_date t0) <= 12)) as [Hm|Hm].
  - rewrite split_space_month, month_of_name_month_name by done.
    destruct (parse_year4 _) as [y|] eqn:Ey; [|done]. intros [= <-].
    destruct (skip_spaces_shorter (year_string (year (dt_date t0)))) as [E|E].
    + rewrite E in Ey. apply parse_year4_inv in Ey as [_ Ey].
      unfold strftime_B_Y. cbn [dt_date month year]. by rewrite Ey.
    + apply parse_year4_length in Ey. rewrite year_string_length in E. lia.
  - rewrite month_name_out by done.
    change (EmptyString +:+ " " +:+ year_string (year (dt_date t0)))
      with (String " " (year_string (year (dt_date t0)))).
    rewrite split_space_leading_space, month_of_name_empty. done.
Qed.

(** The day count [toordinal] replaces by closed formulas: the days of
    the years before, of the months before, and of the month so far. *)
Definition days_from_epoch (d : date) : Z :=
  Σ[ k <- seqZ 1 (year d - 1) ] days_in_year k +
  Σ[ k <- seqZ 1 (month d - 1) ] days_in_month (year d) k + day d.

Lemma days_before_year_sum y :
  1 <= y -> days_before_year y = Σ[ k <- seqZ 1 (y - 1) ] days_in_year k.
Proof.
  intros Hy. replace y with (1 + Z.of_nat (Z.to_nat (y - 1))) by lia.
  generalize (Z.to_nat (y - 1)) as n. intros n.
  replace (1 + Z.of_nat n - 1) with (Z.of_nat n) by lia.
  induction n as [|n IH]; [reflexivity|].
  rewrite seqZ_S, sumZ_app, <- IH. cbn [sumZ fold_right].
  replace (1 + Z.of_nat (S n)) with (1 + Z.of_nat n + 1) by lia.
  rewrite days_before_year_succ. lia.
Qed.

Lemma days_before_month_sum y m :
  1 <= m <= 12 -> days_before_month y m = Σ[ k <- seqZ 1 (m - 1) ] days_in_month y k.
Proof.
  intros Hm. month_split m; destruct (is_leap y) eqn:E;
    unfold days_before_month, days_in_month; simpl; rewrite ?E; reflexivity.
Qed.

(** ** Theorems *)

(** Round trip of the month label. For a timestamp whose month is
    valid and whose year has at most four digits, parsing the [%B %Y]
    label it prints gives back the first instant of its month; so the
    load-time rewrite of line 96 never fails and yields [month_start]. *)
Lemma truncate_to_month_roundtrip (t : datetime) :
  1 <= month (dt_date t) <= 12 -> 0 <= year (dt_date t) <= 9999 ->
  truncate_to_month t = Some (month_start t).
Proof.
  intros Hm Hy. unfold truncate_to_month, to_datetime_B_Y, strftime_B_Y.
  rewrite split_space_month by done.
  by rewrite month_of_name_month_name, skip_spaces_year_string, parse_year4_year_string.
Qed.

(** C7: the month label identifies the month: on printable timestamps the
    parser of lines 13 and 96 turns the label line 11 prints back into
    the first instant of its month, and two timestamps print the same
    label exactly when they lie in the same month. *)
Theorem month_label_roundtrip (t t' : datetime) :
  printable t -> printable t' ->
  to_datetime_B_Y (strftime_B_Y t) = Some (month_start t) /\
  (strftime_B_Y t = strftime_B_Y t' <-> month_start t = month_start t').
Proof.
  intros [Hm Hy] [Hm' Hy'].
  pose proof (truncate_to_month_roundtrip t Hm Hy) as R.
  pose proof (truncate_to_month_roundtrip t' Hm' Hy') as R'.
  unfold truncate_to_month in R, R'. split; [exact R|]. split.
  - intros E. rewrite E, R' in R. congruence.
  - intros E. unfold month_start in E. injection E as Ey Em.
    unfold strftime_B_Y. by rewrite Ey, Em.
Qed.

Lemma month_label_roundtrip_witness :
  printable (mk_datetime (mk_date 2023 7 20) 10 0 0) /\
  printable (mk_datetime (mk_date 2023 7 1) 0 0 0) /\
  to_datetime_B_Y (strftime_B_Y (mk_datetime (mk_date 2023 7 20) 10 0 0)) =
    Some (month_start (mk_datetime (mk_date 2023 7 20) 10 0 0)) /\
  (strftime_B_Y (mk_datetime (mk_date 2023 7 20) 10 0 0) =
     strftime_B_Y (mk_datetime (mk_date 2023 7 1) 0 0 0) <->
   month_start (mk_datetime (mk_date 2023 7 20) 10 0 0) =
     month_start (mk_datetime (mk_date 2023 7 1) 0 0 0)).
Proof.
  assert (H1 : printable (mk_datetime (mk_date 2023 7 20) 10 0 0)) by (unfold printable; cbn; lia).
  assert (H2 : printable (mk_datetime (mk_date 2023 7 1) 0 0 0)) by (unfold printable; cbn; lia).
  split; [exact H1|]. split; [exact H2|]. exact (month_label_roundtrip _ _ H1 H2).
Defined.

(** The parser ignores the case of the month name and accepts a run of
    white space, as [pd.to_datetime(..., format="%B %Y")] does. *)
Lemma to_datetime_B_Y_lenient :
  to_datetime_B_Y "JULY 2023" = Some (mk_datetime (mk_date 2023 7 1) 0 0 0) /\
  to_datetime_B_Y "july 	 2023" = Some (mk_datetime (mk_date 2023 7 1) 0 0 0) /\
  to_datetime_B_Y "July 23" = None /\ to_datetime_B_Y " July 2023" = None.
Proof. split_and!; reflexivity. Qed.

(** C31: [toordinal], CPython's closed formula with [y // 4 - y // 100 +
    y // 400] and a table of month offsets, counts the days from
    0001-01-01: the days of every year before, of every month before, and
    the day of the month. *)
Theorem toordinal_counts_days (d : date) :
  1 <= year d -> 1 <= month d <= 12 -> toordinal d = days_from_epoch d.
Proof.
  intros Hy Hm. unfold toordinal, days_from_epoch.
  rewrite days_before_year_sum, days_before_month_sum by done. reflexivity.
Qed.

Lemma toordinal_counts_days_witness :
  1 <= year (mk_date 2024 3 15) /\ 1 <= month (mk_date 2024 3 15) <= 12 /\
  toordinal (mk_date 2024 3 15) = days_from_epoch (mk_date 2024 3 15).
Proof.
  assert (H1 : 1 <= year (mk_date 2024 3 15)) by (cbn; lia).
  assert (H2 : 1 <= month (mk_date 2024 3 15) <= 12) by (cbn; lia).
  split; [exact H1|]. split; [exact H2|]. exact (toordinal_counts_days _ H1 H2).
Defined.

End Calendar.
