(* ===== verification/Frame.v ===== *)
(** Frame: the pandas table operations that [src/dashboard.py] composes.

    A DataFrame is a list of row records; a column is a projection.
    - [merge] is [pd.merge(left, right, on=key)] with the default
      [how='inner']: for every left row, in order, every right row with an
      equal key, in order (pandas keeps the order of the left keys).
      Keys are compared with Leibniz equality; a missing key ([None]) is
      equal to another missing key, as in pandas, which joins NaN to NaN.
    - [left_merge] is [how='left'] (line 97): a left row without a
      partner is kept once, with the right columns missing.
    - [drop_duplicates] is [DataFrame.drop_duplicates()] (line 58): the
      first occurrence of each full row is kept. *)

From S2P Require Import Prelude.

Module Frame.

Section Merge.
Context {A B C K : Type} `{EqDecision K}.
Context (ka : A -> K) (kb : B -> K).

(** The right rows that join with the left row [a]. *)
Definition partners (r : list B) (a : A) : list B :=
  filter (fun b => kb b = ka a) r.

Definition merge (comb : A -> B -> C) (l : list A) (r : list B) : list C :=
  flat_map (fun a => map (comb a) (partners r a)) l.

Definition left_merge (comb : A -> option B -> C) (l : list A) (r : list B) : list C :=
  flat_map (fun a => match partners r a with
                     | [] => [comb a None]
                     | bs => map (fun b => comb a (Some b)) bs
                     end) l.

Lemma elem_of_merge (comb : A -> B -> C) l r c :
  c ∈ merge comb l r <-> exists a b, a ∈ l /\ b ∈ r /\ kb b = ka a /\ c = comb a b.
Proof.
  unfold merge, partners. rewrite list_elem_of_In, in_flat_map. split.
  - intros (a & Ha%list_elem_of_In & Hc%list_elem_of_In).
    apply list_elem_of_fmap in Hc as (b & -> & Hb%list_elem_of_filter).
    naive_solver.
  - intros (a & b & Ha & Hb & Hk & ->). exists a.
    rewrite <- !list_elem_of_In. split; [done|].
    apply list_elem_of_fmap. exists b. split; [done|].
    by apply list_elem_of_filter.
Qed.

(** Summing a column of a merge, row by row of the left table. *)
Lemma merge_sum (f : C -> Z) comb l r :
  sumZ f (merge comb l r) = Σ[ a <- l ] Σ[ b <- partners r a ] f (comb a b).
Proof.
  unfold merge. rewrite sumZ_flat_map. apply sumZ_ext. intros a _.
  apply sumZ_map.
Qed.

Lemma length_merge comb l r :
  Z.of_nat (length (merge comb l r)) = Σ[ a <- l ] Z.of_nat (length (partners r a)).
Proof.
  rewrite <- sumZ_const_1, merge_sum. apply sumZ_ext. intros a _.
  by rewrite sumZ_const_1.
Qed.

(** The number of left rows with a given key. *)
Definition key_count (l : list A) (k : K) : Z :=
  Σ[ a <- l ] (if decide (ka a = k) then 1 else 0).

Lemma key_count_unique l k :
  NoDup (map ka l) -> key_count l k = if decide (k ∈ map ka l) then 1 else 0.
Proof.
  unfold key_count. induction l as [|a l IH]; intros Hnd; simpl; [done|].
  apply NoDup_cons in Hnd as [Hnin Hnd]. rewrite IH by done.
  repeat case_decide; subst; try set_solver; lia.
Qed.

(** When each right row contributes a value [g b] whatever its partner, the
    sum over the merge counts each right row once per partner. *)
Lemma merge_sum_right (f : C -> Z) (g : B -> Z) comb l r :
  (forall a b, f (comb a b) = g b) ->
  sumZ f (merge comb l r) = Σ[ b <- r ] (key_count l (kb b) * g b).
Proof.
  intros Hfg. rewrite merge_sum. unfold partners, key_count.
  induction l as [|a l IH]; simpl.
  - induction r; simpl; lia.
  - rewrite IH, sumZ_filter, <- sumZ_add. apply sumZ_ext. intros b _.
    rewrite Hfg. repeat case_decide; simpl; subst; try done; lia.
Qed.

(** With unique left keys (an [order_id] column, say), the sum over the
    merge is the sum over the right rows that have a partner. *)
Lemma merge_sum_unique (f : C -> Z) (g : B -> Z) comb l r :
  NoDup (map ka l) -> (forall a b, f (comb a b) = g b) ->
  sumZ f (merge comb l r) = sumZ g (filter (fun b => kb b ∈ map ka l) r).
Proof.
  intros Hnd Hfg. rewrite (merge_sum_right f g) by done.
  rewrite sumZ_filter. apply sumZ_ext. intros b _.
  rewrite key_count_unique by done. case_decide; lia.
Qed.

Lemma length_merge_unique comb l r :
  NoDup (map ka l) ->
  length (merge comb l r) = length (filter (fun b => kb b ∈ map ka l) r).
Proof.
  intros Hnd. apply Nat2Z.inj. rewrite <- !sumZ_const_1.
  by apply (merge_sum_unique (fun _ => 1) (fun _ => 1)).
Qed.

Lemma merge_nil_l comb r : merge comb [] r = [].
Proof. reflexivity. Qed.

Lemma merge_nil_r comb l : merge comb l [] = [].
Proof. by induction l. Qed.

Lemma merge_singleton (comb : A -> B -> C) a b :
  merge comb [a] [b] = if decide (kb b = ka a) then [comb a b] else [].
Proof. unfold merge, partners. simpl. rewrite filter_cons, filter_nil. by case_decide. Qed.

(** A left merge keeps every left row: it yields at least one row per
    left row, and exactly one when no key matches twice. *)
Lemma length_left_merge comb l r :
  (forall a, a ∈ l -> length (partners r a) <= 1)%nat ->
  length (left_merge comb l r) = length l.
Proof.
  unfold left_merge. induction l as [|a l IH]; intros H1; [done|].
  cbn [flat_map]. rewrite length_app, IH by (intros; apply H1; set_solver).
  pose proof (H1 a ltac:(set_solver)).
  destruct (partners r a) as [|b [|b' bs]]; simpl in *; lia.
Qed.

(** The first right row whose key is [k]. *)
Definition find_key (r : list B) (k : K) : option B :=
  find (fun b => bool_decide (kb b = k)) r.

Lemma partners_unique r a :
  NoDup (map kb r) ->
  partners r a = match find_key r (ka a) with Some b => [b] | None => [] end.
Proof.
  unfold partners, find_key. induction r as [|b r IH]; intros Hnd; simpl; [done|].
  apply NoDup_cons in Hnd as [Hnin Hnd]. rewrite filter_cons.
  case_bool_decide as Hb.
  - rewrite decide_True, IH by done.
    destruct (find _ r) as [b'|] eqn:E; [|done].
    apply find_some in E as [Hin Hk%bool_decide_eq_true].
    destruct Hnin. rewrite Hb, <- Hk. apply list_elem_of_fmap_2.
    by apply list_elem_of_In.
  - by rewrite decide_False, IH.
Qed.

(** With unique right keys a left merge is a map over the left rows. *)
Lemma left_merge_unique (comb : A -> option B -> C) l r :
  NoDup (map kb r) -> left_merge comb l r = map (fun a => comb a (find_key r (ka a))) l.
Proof.
  intros Hnd. unfold left_merge. induction l as [|a l IH]; [done|].
  simpl. rewrite partners_unique by done.
  destruct (find_key r (ka a)); simpl; f_equal; exact IH.
Qed.

Lemma find_key_is_Some r k : is_Some (find_key r k) <-> k ∈ map kb r.
Proof.
  unfold find_key. induction r as [|b r IH]; simpl; [split; [by intros []|set_solver]|].
  case_bool_decide as Hb; rewrite elem_of_cons, <- IH; [subst; naive_solver|].
  split; [by right|]. intros [|]; [done|done].
Qed.

(** With unique right keys (a [product_id] column, say), each left row
    has at most one partner: a column of the left rows sums over the
    left rows that have one. *)
Lemma merge_sum_unique_right (f : C -> Z) (g : A -> Z) comb l r :
  NoDup (map kb r) -> (forall a b, f (comb a b) = g a) ->
  sumZ f (merge comb l r) = sumZ g (filter (fun a => ka a ∈ map kb r) l).
Proof.
  intros Hnd Hfg. rewrite merge_sum, sumZ_filter.
  apply sumZ_ext. intros a _. rewrite partners_unique by done.
  pose proof (find_key_is_Some r (ka a)) as Hf.
  destruct (find_key r (ka a)); case_decide as Hin; simpl; rewrite ?Hfg; try lia.
  - destruct Hin. apply Hf. by eexists.
  - apply Hf in Hin as [? ?]. done.
Qed.

Lemma length_merge_unique_right comb l r :
  NoDup (map kb r) ->
  length (merge comb l r) = length (filter (fun a => ka a ∈ map kb r) l).
Proof.
  intros Hnd. apply Nat2Z.inj. rewrite <- !sumZ_const_1.
  by apply (merge_sum_unique_right (fun _ => 1) (fun _ => 1)).
Qed.
(** A merge of two tables without duplicate rows has none, when the
    rows it builds determine the rows they come from. *)
Lemma NoDup_merge (comb : A -> B -> C) l r :
  (forall a b a' b', comb a b = comb a' b' -> a = a' /\ b = b') ->
  NoDup l -> NoDup r -> NoDup (merge comb l r).
Proof.
  intros Hinj Hl Hr. induction l as [|a l IH]; simpl; [constructor|].
  apply NoDup_cons in Hl as [Ha Hl]. apply NoDup_app. split_and!.
  - apply NoDup_fmap_2_strong; [|by apply NoDup_filter].
    intros b b' _ _ Hb. by apply (Hinj a b a b').
  - intros c (b & -> & _)%list_elem_of_fmap
      (a' & b' & Ha' & _ & _ & Hc)%(elem_of_merge comb l r).
    apply Hinj in Hc as [-> _]. done.
  - by apply IH.
Qed.
(** With unique right keys, the keys of a merge are a sublist of the
    keys of its left table, in its order. *)
Lemma merge_keys_sublist {K'} (key : C -> K') (g : A -> K') comb l r :
  NoDup (map kb r) -> (forall a b, key (comb a b) = g a) ->
  map key (merge comb l r) `sublist_of` map g l.
Proof.
  intros Hnd Hk. induction l as [|a l IH]; simpl; [constructor|].
  rewrite map_app, partners_unique by done.
  destruct (find_key r (ka a)); simpl; [rewrite Hk; by apply sublist_skip|].
  by apply sublist_cons.
Qed.

(** A merge that keeps the left key has the keys common to both tables. *)
Lemma elem_of_merge_key (key : C -> K) comb l r k :
  (forall a b, key (comb a b) = ka a) ->
  k ∈ map key (merge comb l r) <-> k ∈ map ka l /\ k ∈ map kb r.
Proof.
  intros Hk. rewrite !list_elem_of_fmap. setoid_rewrite elem_of_merge. split.
  - intros (? & -> & a & b & Ha & Hb & Hab & ->). rewrite Hk. split; eauto.
  - intros [(a & -> & Ha) (b & Hab & Hb)]. exists (comb a b). split; [by rewrite Hk|].
    exists a, b. auto.
Qed.
End Merge.

Lemma NoDup_map_filter {B K} (h : B -> K) (P : B -> Prop) `{!forall x, Decision (P x)} r :
  NoDup (map h r) -> NoDup (map h (filter P r)).
Proof.
  induction r as [|b r IH]; simpl; intros Hnd; [constructor|].
  apply NoDup_cons in Hnd as [Hn Hnd]. rewrite filter_cons.
  case_decide; simpl; [|by apply IH]. constructor; [|by apply IH].
  intros (b' & Hb & Hin%list_elem_of_filter)%list_elem_of_fmap. apply Hn.
  rewrite Hb. apply list_elem_of_fmap_2. by destruct Hin.
Qed.

Section NestedMerge.
Context {A B K K' : Type} `{EqDecision K, EqDecision K'}.
Context (ka : A -> K) (kb : B -> K) (h : B -> K').

(** The rows of a merge whose right part has key [h b = k], counted
    through the multiplicity of their left partners. *)
Lemma key_count_merge l r k :
  key_count (fun x : A * B => h x.2) (merge ka kb pair l r) k =
  Σ[ b <- r ] (key_count ka l (kb b) * (if decide (h b = k) then 1 else 0)).
Proof.
  unfold key_count at 1.
  apply (merge_sum_right ka kb (fun x : A * B => if decide (h x.2 = k) then 1 else 0)
    (fun b => if decide (h b = k) then 1 else 0)). done.
Qed.

Lemma key_count_merge_unique l r k :
  NoDup (map ka l) -> NoDup (map h r) ->
  key_count (fun x : A * B => h x.2) (merge ka kb pair l r) k =
  if decide (k ∈ map h (filter (fun b => kb b ∈ map ka l) r)) then 1 else 0.
Proof.
  intros Hl Hr. rewrite key_count_merge.
  rewrite <- (key_count_unique h) by (by apply NoDup_map_filter).
  transitivity (Σ[ b <- r ] ((if decide (kb b ∈ map ka l) then 1 else 0) *
                             (if decide (h b = k) then 1 else 0))).
  { apply sumZ_ext. intros b _. by rewrite key_count_unique. }
  unfold key_count. rewrite sumZ_filter. apply sumZ_ext. intros b _.
  repeat case_decide; lia.
Qed.
End NestedMerge.

Section DropDuplicates.
Context {A : Type} `{EqDecision A}.

Fixpoint drop_duplicates_go (seen : list A) (l : list A) : list A :=
  match l with
  | [] => []
  | x :: l' => if decide (x ∈ seen) then drop_duplicates_go seen l'
               else x :: drop_duplicates_go (x :: seen) l'
  end.

Definition drop_duplicates (l : list A) : list A := drop_duplicates_go [] l.

Lemma drop_duplicates_go_id seen l :
  NoDup l -> (forall x, x ∈ l -> x ∉ seen) -> drop_duplicates_go seen l = l.
Proof.
  revert seen. induction l as [|x l IH]; intros seen Hnd Hdis; simpl; [done|].
  apply NoDup_cons in Hnd as [Hx Hnd].
  rewrite decide_False by (apply Hdis; set_solver).
  f_equal. apply IH; [done|]. intros y Hy. rewrite elem_of_cons.
  intros [->|]; [done|]. by apply (Hdis y); [set_solver|].
Qed.

(** On a table whose rows are already distinct, [drop_duplicates] is the
    identity. *)
Lemma drop_duplicates_id l : NoDup l -> drop_duplicates l = l.
Proof. intros Hnd. apply drop_duplicates_go_id; set_solver. Qed.

Lemma elem_of_drop_duplicates_go seen l x :
  x ∈ drop_duplicates_go seen l <-> x ∈ l /\ x ∉ seen.
Proof.
  revert seen. induction l as [|y l IH]; intros seen; simpl.
  - set_solver.
  - case_decide as Hy.
    + rewrite IH, elem_of_cons. split; [naive_solver|].
      intros [[->|?] ?]; naive_solver.
    + rewrite elem_of_cons, IH, !elem_of_cons. split.
      * intros [->|[? ?]]; split; auto; naive_solver.
      * intros [[->|?] ?]; [by left|]. destruct (decide (x = y)); [by left|].
        right. split; [done|]. intros [|]; auto.
Qed.

Lemma NoDup_drop_duplicates_go seen l : NoDup (drop_duplicates_go seen l).
Proof.
  revert seen. induction l as [|y l IH]; intros seen; simpl; [constructor|].
  case_decide; [done|]. constructor; [|done].
  rewrite elem_of_drop_duplicates_go. set_solver.
Qed.

Lemma elem_of_drop_duplicates l x : x ∈ drop_duplicates l <-> x ∈ l.
Proof. unfold drop_duplicates. rewrite elem_of_drop_duplicates_go. set_solver. Qed.
End DropDuplicates.

End Frame.
