(* ===== verification/GroupBy.v ===== *)
(** GroupBy: [df.groupby(by=key)[col].agg()] with pandas' defaults
    ([sort=True]): one output row per distinct key, the keys in ascending
    order of Python strings, each value the aggregate of its group's
    values in row order.

    [groupby_agg op] aggregates with a binary operation folded from the
    left over the group ([sum]: [Z.add]; [max]: a maximum; [count]:
    [Z.add] over ones). It is written as the insertion of each row into
    a sorted association list, which is how the result can be computed
    in one pass; [groupby_spec] is the contract pandas documents (sorted
    distinct keys, each key's value the fold of its group), and
    [groupby_spec_unique] shows that the contract determines the output,
    so that the clients' theorems, stated against the contract, hold of
    any implementation of it. *)

From S2P Require Import Prelude.

Module GroupBy.

#[local] Set Default Proof Using "Type".

Section Lookup.
Context {V : Type}.

(** The value of the output row of key [k]. *)
Fixpoint lookup_key (k : string) (out : list (string * V)) : option V :=
  match out with
  | [] => None
  | (k', v) :: t => if decide (k = k') then Some v else lookup_key k t
  end.

Definition group_values (k : string) (rows : list (string * V)) : list V :=
  map snd (filter (fun kv => kv.1 = k) rows).

Lemma lookup_key_elem_of k out : is_Some (lookup_key k out) <-> k ∈ map fst out.
Proof.
  induction out as [|[k' v] t IH]; simpl.
  - split; [by intros []|set_solver].
  - rewrite elem_of_cons, <- IH. case_decide as Hk.
    + split; [by left|by eexists].
    + split; [by right|]. by intros [|].
Qed.

Lemma lookup_key_sorted_head k (v : V) (t : list (string * V)) k' :
  StronglySorted str_lt (map fst ((k, v) :: t)) -> k' ∈ map fst t -> str_lt k k'.
Proof.
  intros S Hk. simpl in S. apply StronglySorted_inv in S as [_ Hf].
  rewrite Forall_forall in Hf.
  by apply Hf.
Qed.

(** A key below the smallest key of a sorted list is absent from it. *)
Lemma lookup_key_below k k' (v : V) (t : list (string * V)) :
  StronglySorted str_lt (map fst ((k', v) :: t)) -> str_lt k k' ->
  lookup_key k ((k', v) :: t) = None.
Proof.
  intros S Hlt. destruct (lookup_key k _) eqn:E; [|done].
  assert (k ∈ map fst ((k', v) :: t)) as Hin by (apply lookup_key_elem_of; by rewrite E).
  simpl in Hin. apply elem_of_cons in Hin as [Heq|Hin].
  - subst. by destruct (irreflexivity str_lt k').
  - destruct (irreflexivity str_lt k). eapply str_lt_trans; [done|].
    by eapply lookup_key_sorted_head.
Qed.

Lemma group_values_nil k rows : group_values k rows = [] <-> k ∉ map fst rows.
Proof.
  unfold group_values. induction rows as [|[k' v] rows IH]; simpl; [set_solver|].
  rewrite filter_cons. simpl. case_decide; simpl; [subst; set_solver|].
  rewrite IH. set_solver.
Qed.

(** Two sorted association lists with the same lookups are equal. *)
Lemma sorted_lookup_unique out1 out2 :
  StronglySorted str_lt (map fst out1) -> StronglySorted str_lt (map fst out2) ->
  (forall k, lookup_key k out1 = lookup_key k out2) -> out1 = out2.
Proof.
  revert out2. induction out1 as [|[k1 v1] t1 IH]; intros [|[k2 v2] t2] S1 S2 H.
  - done.
  - specialize (H k2). simpl in H. by rewrite decide_True in H.
  - specialize (H k1). simpl in H. by rewrite decide_True in H.
  - assert (k1 = k2) as <-.
    { destruct (decide (k1 = k2)) as [|Hne]; [done|]. exfalso.
      pose proof (H k1) as H1. pose proof (H k2) as H2. simpl in H1, H2.
      rewrite decide_True, decide_False in H1 by done.
      rewrite decide_False, decide_True in H2 by congruence.
      assert (str_lt k1 k2) as Hl1.
      { eapply (lookup_key_sorted_head k1 v1 t1); [done|].
        apply lookup_key_elem_of. by rewrite H2. }
      assert (str_lt k2 k1) as Hl2.
      { eapply (lookup_key_sorted_head k2 v2 t2); [done|].
        apply lookup_key_elem_of. by rewrite <- H1. }
      apply (irreflexivity str_lt k1). by eapply str_lt_trans. }
    pose proof (H k1) as Hv. simpl in Hv. rewrite !decide_True in Hv by done.
    injection Hv as ->. f_equal. simpl in S1, S2.
    apply StronglySorted_inv in S1 as [S1 F1], S2 as [S2 F2].
    apply IH; [done..|]. intros k. specialize (H k). simpl in H.
    case_decide; [subst|done].
    assert (forall t v, StronglySorted str_lt (map fst ((k1, v) :: t)) ->
                        lookup_key k1 t = None) as Hnone.
    { intros t v S. destruct (lookup_key k1 t) eqn:E; [|done].
      assert (k1 ∈ map fst t) as Hin by (apply lookup_key_elem_of; by rewrite E).
      destruct (irreflexivity str_lt k1). by eapply lookup_key_sorted_head. }
    rewrite (Hnone t1 v2), (Hnone t2 v2); [done| |]; simpl; by constructor.
Qed.
End Lookup.

Section GroupBy.
Context {V : Type} (op : V -> V -> V).

Fixpoint gb_insert (k : string) (v : V) (acc : list (string * V)) : list (string * V) :=
  match acc with
  | [] => [(k, v)]
  | (k', v') :: t =>
      match String.compare k k' with
      | Eq => (k', op v' v) :: t
      | Lt => (k, v) :: acc
      | Gt => (k', v') :: gb_insert k v t
      end
  end.

Definition groupby_agg (rows : list (string * V)) : list (string * V) :=
  fold_left (fun acc kv => gb_insert kv.1 kv.2 acc) rows [].

(** The aggregate of a group, folded from the left in row order;
    [None] for an empty group (no output row). *)
Definition agg_step (o : option V) (v : V) : option V :=
  Some (match o with None => v | Some w => op w v end).

Definition aggregate (vs : list V) : option V := fold_left agg_step vs None.

(** The contract of [groupby]. *)
Definition groupby_spec (rows out : list (string * V)) : Prop :=
  StronglySorted str_lt (map fst out) /\
  forall k, lookup_key k out = aggregate (group_values k rows).

(** *** Lemmas on the insertion *)

Lemma lookup_key_gb_insert k k' v acc :
  StronglySorted str_lt (map fst acc) ->
  lookup_key k (gb_insert k' v acc) =
  if decide (k = k') then agg_step (lookup_key k acc) v else lookup_key k acc.
Proof.
  induction acc as [|[k'' v''] t IH]; intros S.
  - simpl. by repeat case_decide.
  - cbn [gb_insert]. destruct (String.compare k' k'') eqn:Hc.
    + apply str_compare_eq in Hc. subst. simpl. by repeat case_decide.
    + case_decide as Hk; [subst|].
      * rewrite (lookup_key_below k' k'' v'' t) by done.
        simpl. by rewrite decide_True.
      * cbn [lookup_key]. by rewrite decide_False.
    + simpl in S. apply StronglySorted_inv in S as [S _].
      cbn [lookup_key]. rewrite IH by done.
      repeat case_decide; subst; try done.
      by rewrite str_compare_refl in Hc.
Qed.

Lemma elem_of_keys_gb_insert k k' v acc :
  k ∈ map fst (gb_insert k' v acc) <-> k = k' \/ k ∈ map fst acc.
Proof.
  induction acc as [|[k'' v''] t IH]; simpl.
  - set_solver.
  - destruct (String.compare k' k'') eqn:Hc; simpl.
    + apply str_compare_eq in Hc. subst. set_solver.
    + set_solver.
    + rewrite !elem_of_cons, IH. naive_solver.
Qed.

Lemma sorted_gb_insert k v acc :
  StronglySorted str_lt (map fst acc) -> StronglySorted str_lt (map fst (gb_insert k v acc)).
Proof.
  induction acc as [|[k' v'] t IH]; simpl; intros Hs.
  - repeat constructor.
  - apply StronglySorted_inv in Hs as [Hs Hf].
    destruct (String.compare k k') eqn:Hc; simpl.
    + apply str_compare_eq in Hc. subst. by constructor.
    + constructor; [by constructor|]. constructor; [done|].
      eapply Forall_impl; [done|]. intros x. by apply str_lt_trans.
    + apply str_compare_gt in Hc. constructor; [by apply IH|].
      apply Forall_forall. intros x Hx.
      apply elem_of_keys_gb_insert in Hx as [->|Hx]; [done|].
      rewrite Forall_forall in Hf. by apply Hf.
Qed.

Lemma sorted_groupby_fold rows acc :
  StronglySorted str_lt (map fst acc) ->
  StronglySorted str_lt (map fst (fold_left (fun acc kv => gb_insert kv.1 kv.2 acc) rows acc)).
Proof.
  revert acc. induction rows as [|[k v] rows IH]; intros acc Hs; simpl; [done|].
  apply IH. by apply sorted_gb_insert.
Qed.

Lemma groupby_agg_fold rows acc k :
  StronglySorted str_lt (map fst acc) ->
  lookup_key k (fold_left (fun acc kv => gb_insert kv.1 kv.2 acc) rows acc) =
  fold_left agg_step (group_values k rows) (lookup_key k acc).
Proof.
  revert acc. induction rows as [|[k' v] rows IH]; intros acc S; simpl; [done|].
  rewrite IH by (by apply sorted_gb_insert).
  rewrite lookup_key_gb_insert by done. unfold group_values. rewrite filter_cons.
  simpl. case_decide; subst; simpl; by case_decide.
Qed.

(** *** The implementation meets the contract *)

Lemma groupby_agg_lookup rows k :
  lookup_key k (groupby_agg rows) = aggregate (group_values k rows).
Proof. apply groupby_agg_fold. constructor. Qed.

Lemma groupby_agg_sorted rows : StronglySorted str_lt (map fst (groupby_agg rows)).
Proof. apply sorted_groupby_fold. constructor. Qed.

Lemma groupby_agg_spec rows : groupby_spec rows (groupby_agg rows).
Proof. split; [apply groupby_agg_sorted|apply groupby_agg_lookup]. Qed.

(** *** Consequences of the contract *)

Lemma aggregate_Some vs : is_Some (aggregate vs) <-> vs <> [].
Proof.
  unfold aggregate. assert (forall o vs, is_Some o -> is_Some (fold_left agg_step vs o)) as Hs.
  { intros o vs'. revert o. induction vs'; intros o Ho; simpl; [done|]. by apply IHvs'. }
  destruct vs as [|v vs]; simpl; [split; [by intros []|done]|].
  split; [done|]. intros _. by apply Hs.
Qed.

(** The output has one row per distinct key of the input. *)
Lemma groupby_spec_keys rows out k :
  groupby_spec rows out -> k ∈ map fst out <-> k ∈ map fst rows.
Proof.
  intros [_ Hl]. rewrite <- lookup_key_elem_of, Hl, aggregate_Some.
  split.
  - intros Hne. destruct (decide (k ∈ map fst rows)) as [|Hn]; [done|].
    by apply group_values_nil in Hn.
  - intros Hin Heq. by apply group_values_nil in Heq.
Qed.

(** A table whose rows all have one key groups into one row, the fold of
    its values. *)
Lemma groupby_agg_one_key k v rows :
  Forall (fun kv => kv.1 = k) rows ->
  groupby_agg ((k, v) :: rows) = [(k, fold_left op (map snd rows) v)].
Proof.
  unfold groupby_agg. cbn [fold_left gb_insert]. revert v.
  induction rows as [|[k' w] rows IH]; intros u Hall; [done|].
  apply Forall_cons in Hall as [Hk Hall]. simpl in Hk. subst k'. cbn [fold_left map gb_insert fst snd].
  rewrite str_compare_refl. by apply IH.
Qed.

End GroupBy.

(** C30: [groupby] meets its contract and the contract determines the
    output: a table with strictly increasing keys whose row for each key
    is the aggregate of that key's values, in the order of the input, is
    the table [groupby_agg] computes. *)
Theorem groupby_spec_unique {V} (op : V -> V -> V) rows out :
  groupby_spec op rows out -> out = groupby_agg op rows.
Proof.
  intros [S L]. apply sorted_lookup_unique.
  - exact S.
  - apply (groupby_agg_sorted op).
  - intros k. by rewrite L, groupby_agg_lookup.
Qed.

(** A table written by hand meets the contract of
    [groupby(...).sum()] on three rows. *)
Lemma groupby_spec_unique_witness :
  groupby_spec Z.add [("b", 2); ("a", 1); ("a", 5)] [("a", 6); ("b", 2)] /\
  [("a", 6); ("b", 2)] = groupby_agg Z.add [("b", 2); ("a", 1); ("a", 5)].
Proof.
  assert (H : groupby_spec Z.add [("b", 2); ("a", 1); ("a", 5)] [("a", 6); ("b", 2)]).
  { split; [decide_by_eval|]. intros k. cbn.
    destruct (decide (k = "a")) as [->|Ha]; [reflexivity|].
    destruct (decide (k = "b")) as [->|Hb]; [reflexivity|].
    rewrite !decide_False by congruence. reflexivity. }
  split; [exact H|]. exact (groupby_spec_unique Z.add _ _ H).
Defined.

(** ** Sums *)

Definition groupby_sum (rows : list (string * Z)) : list (string * Z) :=
  groupby_agg Z.add rows.

(** [groupby(...).count()] of a column that is never missing: the size of
    each group. *)
Definition groupby_count (keys : list string) : list (string * Z) :=
  groupby_agg Z.add (map (fun k => (k, 1)) keys).

Lemma sumZ_gb_insert (g : string -> Z) k v acc :
  Σ[ t <- gb_insert Z.add k v acc ] (g t.1 * t.2) = Σ[ t <- acc ] (g t.1 * t.2) + g k * v.
Proof.
  induction acc as [|[k' v'] t IH]; simpl; [lia|].
  destruct (String.compare k k') eqn:E; simpl; rewrite ?IH; try lia.
  apply str_compare_eq in E as ->. lia.
Qed.

Lemma sumZ_groupby_fold (g : string -> Z) rows acc :
  Σ[ t <- fold_left (fun acc kv => gb_insert Z.add kv.1 kv.2 acc) rows acc ] (g t.1 * t.2) =
  Σ[ t <- acc ] (g t.1 * t.2) + Σ[ r <- rows ] (g r.1 * r.2).
Proof.
  revert acc. induction rows as [|[k v] rows IH]; intros acc; simpl; [lia|].
  rewrite IH, sumZ_gb_insert. lia.
Qed.

(** Regrouping conserves every sum of the values weighted by their key:
    the total, or the total over a set of keys. *)
Lemma groupby_sum_weighted (g : string -> Z) rows :
  Σ[ t <- groupby_sum rows ] (g t.1 * t.2) = Σ[ r <- rows ] (g r.1 * r.2).
Proof. unfold groupby_sum, groupby_agg. rewrite sumZ_groupby_fold. done. Qed.

Lemma groupby_sum_total rows : sumZ snd (groupby_sum rows) = sumZ snd rows.
Proof.
  rewrite (sumZ_ext snd (fun t => 1 * t.2)) by (intros; lia).
  rewrite (groupby_sum_weighted (fun _ => 1)). apply sumZ_ext. intros; lia.
Qed.

Lemma groupby_count_total keys :
  sumZ snd (groupby_count keys) = Z.of_nat (length keys).
Proof.
  unfold groupby_count. rewrite (groupby_sum_total (map _ keys)), sumZ_map.
  apply sumZ_const_1.
Qed.

Lemma fold_agg_sum vs w :
  fold_left (agg_step Z.add) vs (Some w) = Some (w + sumZ id vs).
Proof.
  revert w. induction vs as [|v vs IH]; intros w; cbn [fold_left]; [simpl; f_equal; lia|].
  change (agg_step Z.add (Some w) v) with (Some (w + v)).
  rewrite IH. simpl. f_equal. unfold id. lia.
Qed.

Lemma fold_left_add vs w : fold_left Z.add vs w = w + sumZ id vs.
Proof. revert w. induction vs as [|v vs IH]; intros w; simpl; [lia|]. rewrite IH. unfold id. lia. Qed.

Lemma aggregate_sum vs : vs <> [] -> aggregate Z.add vs = Some (sumZ id vs).
Proof.
  destruct vs as [|v vs]; [done|]. intros _. unfold aggregate. cbn [fold_left].
  change (agg_step Z.add None v) with (Some v). rewrite fold_agg_sum. done.
Qed.

Lemma sorted_keys_NoDup {V} (out : list (string * V)) :
  StronglySorted str_lt (map fst out) -> NoDup (map fst out).
Proof.
  induction out as [|[k v] t IH]; simpl; intros S; [constructor|].
  apply StronglySorted_inv in S as [S F]. constructor; [|by apply IH].
  intros Hin. rewrite Forall_forall in F. apply (irreflexivity str_lt k). by apply F.
Qed.

(** The keys of a [groupby] output are distinct. *)
Lemma groupby_agg_keys_NoDup {V} (op : V -> V -> V) rows : NoDup (map fst (groupby_agg op rows)).
Proof. apply sorted_keys_NoDup, groupby_agg_sorted. Qed.

#[export] Hint Resolve groupby_agg_keys_NoDup : dash.

Lemma elem_of_lookup_key {V} (out : list (string * V)) k v :
  NoDup (map fst out) -> (k, v) ∈ out <-> lookup_key k out = Some v.
Proof.
  induction out as [|[k' v'] t IH]; simpl; intros Hnd; [set_solver|].
  apply NoDup_cons in Hnd as [Hn Hnd]. rewrite elem_of_cons.
  case_decide; subst.
  - split.
    + intros [[= ->]|Hin]; [done|]. destruct Hn. by apply (list_elem_of_fmap_2 fst) in Hin.
    + intros [= ->]. by left.
  - rewrite <- IH by done. split.
    + intros [[= -> ->]|Hin]; done.
    + intros Hin. by right.
Qed.

(** An aggregate whose operation returns one of its arguments ([max],
    [min]) is one of the aggregated values. *)
Lemma aggregate_selective {V} (op : V -> V -> V) vs v :
  (forall a b, op a b = a \/ op a b = b) -> aggregate op vs = Some v -> v ∈ vs.
Proof.
  intros Hsel. unfold aggregate.
  assert (forall o, fold_left (agg_step op) vs o = Some v -> o = Some v \/ v ∈ vs) as H.
  { induction vs as [|w vs IH]; intros o Hf; simpl in *; [by left|].
    destruct (IH _ Hf) as [Hs|Hin]; [|right; set_solver].
    injection Hs as Hs. destruct o as [u|]; [|subst; right; set_solver].
    destruct (Hsel u w) as [E|E]; rewrite E in Hs; subst; [by left|right; set_solver]. }
  intros Hf. by destruct (H None Hf).
Qed.

(** A row of such a [groupby] is a row of its input. *)
Lemma groupby_agg_selective {V} (op : V -> V -> V) rows k v :
  (forall a b, op a b = a \/ op a b = b) -> (k, v) ∈ groupby_agg op rows -> (k, v) ∈ rows.
Proof.
  intros Hsel Hin. apply elem_of_lookup_key in Hin; [|auto with dash].
  rewrite groupby_agg_lookup in Hin. apply aggregate_selective in Hin; [|done].
  apply list_elem_of_fmap in Hin as ([k' v'] & -> & [Hk Hf]%list_elem_of_filter).
  simpl in *. by subst.
Qed.

(** A row of [groupby(...).sum()]: a key of the input, with the sum of
    the values of its rows. *)
Lemma groupby_sum_elem rows k s :
  (k, s) ∈ groupby_sum rows <->
  k ∈ map fst rows /\ s = Σ[ r <- filter (fun r => r.1 = k) rows ] r.2.
Proof.
  unfold groupby_sum.
  rewrite elem_of_lookup_key by auto with dash.
  rewrite groupby_agg_lookup.
  destruct (decide (k ∈ map fst rows)) as [Hin|Hin].
  - rewrite aggregate_sum.
    + unfold group_values. rewrite sumZ_map. unfold id.
      split; [intros [= <-]; by split|intros [_ ->]; done].
    + intros Hnil. by apply group_values_nil in Hnil.
  - apply group_values_nil in Hin as Hnil. rewrite Hnil.
    split; [done|by intros [? _]].
Qed.

(** ** Missing keys

    [groupby] drops the rows whose key is missing ([dropna=True]). *)

Fixpoint dropna_keys {V} (rows : list (option string * V)) : list (string * V) :=
  match rows with
  | [] => []
  | (Some k, v) :: t => (k, v) :: dropna_keys t
  | (None, _) :: t => dropna_keys t
  end.

Lemma elem_of_dropna_keys {V} (rows : list (option string * V)) k v :
  (k, v) ∈ dropna_keys rows <-> (Some k, v) ∈ rows.
Proof.
  induction rows as [|[[k'|] v'] t IH]; simpl; rewrite ?elem_of_cons, ?IH; [set_solver| |].
  - split; [intros [[= -> ->]|?]; auto|intros [[= -> ->]|?]; auto].
  - split; [auto|intros [[=]|?]; auto].
Qed.

Lemma sumZ_dropna_keys (rows : list (option string * Z)) :
  Forall (fun r => is_Some r.1) rows -> sumZ snd (dropna_keys rows) = sumZ snd rows.
Proof.
  induction 1 as [|[[k|] v] t [? Hk] _ IH]; simpl in *; [done| |done].
  by rewrite IH.
Qed.

Lemma sumZ_filter_dropna_keys (rows : list (option string * Z)) k :
  Σ[ r <- filter (fun r => r.1 = k) (dropna_keys rows) ] r.2 =
  Σ[ r <- filter (fun r => r.1 = Some k) rows ] r.2.
Proof.
  induction rows as [|[[k'|] v] t IH]; simpl; [done| |].
  - rewrite !filter_cons. simpl. destruct (decide (k' = k)) as [->|Hne].
    + rewrite !decide_True by done. simpl. by rewrite IH.
    + rewrite !decide_False by congruence. done.
  - rewrite filter_cons, decide_False by done. done.
Qed.

#[export] Hint Resolve groupby_agg_sorted groupby_agg_spec : dash.

(** A row of [groupby(...).count()]. *)
Lemma groupby_count_elem keys k n :
  (k, n) ∈ groupby_count keys <->
  k ∈ keys /\ n = Z.of_nat (length (filter (fun k' => k' = k) keys)).
Proof.
  unfold groupby_count. rewrite (groupby_sum_elem (map _ keys)), map_map, map_id.
  assert (forall l : list string,
    Σ[ r <- filter (fun r => r.1 = k) (map (fun k' => (k', 1)) l) ] r.2 =
    Z.of_nat (length (filter (fun k' => k' = k) l))) as Hc.
  { induction l as [|x l IH]; [done|]. simpl. rewrite !filter_cons.
    simpl. case_decide; simpl; rewrite IH; lia. }
  by rewrite Hc.
Qed.

End GroupBy.
