(* ===== verification/SortValues.v ===== *)
(** SortValues: [df.sort_values(by=col, ascending=...)] (lines 14, 27).

    pandas' default algorithm for a single column is an unstable
    quicksort, so the order of rows with equal keys is not part of its
    contract. [sort_values] is a stable merge sort (stdpp's
    [merge_sort]); [sort_values_spec] is the contract every admissible
    implementation meets (a permutation, sorted by the key), and the
    theorems below show what the contract alone fixes: the sequence of
    keys always, and the whole output when the keys are distinct. A
    property of the output proved from the contract therefore holds of
    pandas' result too. *)

From S2P Require Import Prelude.

Module SortValues.

Section SortValues.
Context {A K : Type} (key : A -> K) (le : relation K).
Context `{!RelDecision le, !Total le, !PreOrder le, !AntiSymm (=) le}.

(** The order of the keys in the output. *)
Definition key_rel (ascending : bool) : relation K :=
  if ascending then le else flip le.

Definition sort_rel (ascending : bool) (a b : A) : Prop :=
  key_rel ascending (key a) (key b).

#[global] Instance sort_rel_dec asc : RelDecision (sort_rel asc).
Proof. intros a b. unfold sort_rel, key_rel. destruct asc; apply _. Defined.

#[global] Instance key_rel_total asc : Total (key_rel asc).
Proof.
  intros x y. unfold key_rel. destruct asc; [apply total; apply _|].
  unfold flip. destruct (total le x y); auto.
Qed.

#[global] Instance key_rel_trans asc : Transitive (key_rel asc).
Proof. unfold key_rel. destruct asc; [apply _|]. intros x y z H1 H2. by trans y. Qed.

#[global] Instance key_rel_antisym asc : AntiSymm (=) (key_rel asc).
Proof.
  unfold key_rel. destruct asc; [apply _|]. intros x y H1 H2. by apply (anti_symm le).
Qed.

#[global] Instance sort_rel_total asc : Total (sort_rel asc).
Proof. intros a b. apply (key_rel_total asc). Qed.

#[global] Instance sort_rel_trans asc : Transitive (sort_rel asc).
Proof. intros a b c. unfold sort_rel. apply (key_rel_trans asc). Qed.

Definition sort_values (ascending : bool) (l : list A) : list A :=
  merge_sort (sort_rel ascending) l.

Definition sort_values_spec (ascending : bool) (l out : list A) : Prop :=
  out ≡ₚ l /\ Sorted (sort_rel ascending) out.

Lemma sort_values_meets_spec asc l : sort_values_spec asc l (sort_values asc l).
Proof.
  split; [apply merge_sort_Permutation|]. apply (Sorted_merge_sort _).
Qed.

Lemma sorted_keys asc out :
  Sorted (sort_rel asc) out -> Sorted (key_rel asc) (map key out).
Proof.
  intros S. change (map key out) with (key <$> out).
  eapply Sorted_fmap; [|exact S]. by intros x y.
Qed.

(** Any two outputs allowed by the contract have the same key column. *)
Lemma sort_values_spec_keys asc l out1 out2 :
  sort_values_spec asc l out1 -> sort_values_spec asc l out2 ->
  map key out1 = map key out2.
Proof.
  intros [P1 S1] [P2 S2]. apply (Sorted_unique (key_rel asc)).
  - by apply sorted_keys.
  - by apply sorted_keys.
  - change (key <$> out1 ≡ₚ key <$> out2). apply fmap_Permutation. by rewrite P1, P2.
Qed.

Lemma NoDup_map_inj (l : list A) x y :
  NoDup (map key l) -> x ∈ l -> y ∈ l -> key x = key y -> x = y.
Proof.
  induction l as [|z l IH]; simpl; intros Hnd Hx Hy Hk; [set_solver|].
  apply NoDup_cons in Hnd as [Hz Hnd].
  apply elem_of_cons in Hx as [->|Hx], Hy as [->|Hy]; try done.
  - destruct Hz. rewrite Hk. by apply list_elem_of_fmap_2.
  - destruct Hz. rewrite <- Hk. by apply list_elem_of_fmap_2.
  - by apply IH.
Qed.

(** With distinct keys the contract determines the output. *)
Lemma sort_values_spec_unique asc l out :
  NoDup (map key l) -> sort_values_spec asc l out -> out = sort_values asc l.
Proof.
  intros Hnd [P S]. destruct (sort_values_meets_spec asc l) as [P' S'].
  apply (Sorted_unique_strong (sort_rel asc)); [|done|done|by rewrite P, P'].
  intros x1 x2 H1 H2 R1 R2. apply (NoDup_map_inj l); [done| | |].
  - by rewrite <- P.
  - by rewrite <- P'.
  - by apply (anti_symm (key_rel asc)).
Qed.
End SortValues.

(** ** The interface the views use

    What lines 14 and 27 need of [sort_values]: a sort for every key
    column and direction ([SortImpl]), and the law that its output meets
    the contract ([SortImplLaws]). The views are defined over any
    instance, so their theorems hold of pandas' own sort whatever order it
    gives to ties; [merge_sort_impl] is the instance the examples run. *)
Class SortImpl := sort_impl :
  forall {A K : Type} (key : A -> K) (le : relation K) `{!RelDecision le},
  bool -> list A -> list A.

Class SortImplLaws `{SortImpl} := sort_impl_spec :
  forall {A K : Type} (key : A -> K) (le : relation K)
    `{!RelDecision le, !Total le, !PreOrder le, !AntiSymm (=) le} asc (l : list A),
  sort_values_spec key le asc l (sort_impl key le asc l).

#[export] Instance merge_sort_impl : SortImpl := fun A K key le _ asc l => sort_values key le asc l.

#[export] Instance merge_sort_impl_laws : SortImplLaws.
Proof. intros A K key le ? ? ? ? asc l. apply sort_values_meets_spec; apply _. Qed.

(** A lawful sort permutes the table. *)
Lemma sort_impl_perm `{SortImplLaws} {A K : Type} (key : A -> K) (le : relation K)
    `{!RelDecision le, !Total le, !PreOrder le, !AntiSymm (=) le} asc (l : list A) :
  sort_impl key le asc l ≡ₚ l.
Proof. by destruct (sort_impl_spec key le asc l). Qed.

(** A lawful sort of the empty table is the empty table. *)
Lemma sort_impl_nil `{SortImplLaws} {A K : Type} (key : A -> K) (le : relation K)
    `{!RelDecision le, !Total le, !PreOrder le, !AntiSymm (=) le} asc :
  sort_impl key le asc [] = [].
Proof. apply Permutation_nil_r, sort_impl_perm; apply _. Qed.

(** [head(k)] of a lawful sort: every row it keeps comes, in the order of
    the sort, before every row it leaves out. *)
Lemma sort_impl_take_drop `{SortImplLaws} {A K : Type} (key : A -> K) (le : relation K)
    `{!RelDecision le, !Total le, !PreOrder le, !AntiSymm (=) le} asc (l : list A) k x y :
  x ∈ take k (sort_impl key le asc l) -> y ∈ drop k (sort_impl key le asc l) ->
  key_rel le asc (key x) (key y).
Proof.
  destruct (sort_impl_spec key le asc l) as [_ S].
  apply Sorted_StronglySorted in S; [|apply _].
  rewrite <- (take_drop k (sort_impl key le asc l)) in S.
  exact (StronglySorted_app_rel _ _ _ _ _ S).
Qed.

(** The first row of a lawful sort comes, in its order, before every row
    of the table. *)
Lemma sort_impl_head `{SortImplLaws} {A K : Type} (key : A -> K) (le : relation K)
    `{!RelDecision le, !Total le, !PreOrder le, !AntiSymm (=) le} asc (l : list A) x rest y :
  sort_impl key le asc l = x :: rest -> y ∈ l -> key_rel le asc (key x) (key y).
Proof.
  intros E Hy. destruct (sort_impl_spec key le asc l) as [P S]. rewrite E in P, S.
  rewrite <- P in Hy. apply elem_of_cons in Hy as [->|Hy].
  - unfold key_rel. destruct asc; [done|]. unfold flip. done.
  - apply (sort_impl_take_drop key le asc l 1 x y); rewrite E; simpl; set_solver.
Qed.

End SortValues.
