(* ===== verification/Tables.v ===== *)
(** Tables: the six relations [src/dashboard.py] reads (lines 89-94),
    as row records with the columns the program uses.

    Money columns ([price], [payment_value]) are integers of centavos: the
    CSV files carry two decimals, and the model sums them exactly where
    pandas sums float64 values (the rounding of float sums is not
    modelled). A column that pandas may read as NaN is an [option]. The
    columns the program never reads (order status, delivery dates,
    product dimensions, zip codes, ...) are left out; they only make rows
    more distinct, which the one place that compares whole rows
    ([drop_duplicates], line 58) cannot observe because its rows already
    differ in [order_id]. *)

From S2P Require Import Prelude Calendar.
Import Calendar.

Module Tables.

(** [orders_dataset.csv] *)
Record order := mk_order {
  order_id : string;
  customer_id : string;
  order_purchase_timestamp : datetime }.

(** [order_items_dataset.csv] *)
Record order_item := mk_item {
  item_order_id : string;
  item_product_id : string;
  price : Z }.

(** [customers_dataset.csv] *)
Record customer := mk_customer {
  cust_customer_id : string;
  customer_unique_id : string;
  customer_city : string }.

(** [products_dataset.csv]; the category is missing for some products. *)
Record product := mk_product {
  product_id : string;
  product_category_name : option string }.

(** [product_category_name_translation.csv] *)
Record translation := mk_translation {
  tr_category_name : option string;
  product_category_name_english : option string }.

(** [order_payments_dataset.csv] *)
Record payment := mk_payment {
  pay_order_id : string;
  payment_value : Z }.

#[export] Instance order_eq_dec : EqDecision order.
Proof. solve_decision. Defined.
#[export] Instance item_eq_dec : EqDecision order_item.
Proof. solve_decision. Defined.
#[export] Instance customer_eq_dec : EqDecision customer.
Proof. solve_decision. Defined.
#[export] Instance product_eq_dec : EqDecision product.
Proof. solve_decision. Defined.

(** The loaded data set. *)
Record dataset := mk_dataset {
  orders : list order;
  items : list order_item;
  customers : list customer;
  products : list product;
  translations : list translation;
  payments : list payment }.

(** The orders whose customer is in the customer table. *)
Definition orders_with_customer (order_df : list order) (customer_df : list customer)
  : list order :=
  filter (fun o => customer_id o ∈ map cust_customer_id customer_df) order_df.

End Tables.
