(* ===== verification/Normalizer.v ===== *)
(** Normalizer: the category normalisation of [src/dashboard.py],
    lines 81-87 ([translate_category]) and 97-98 (the left merge of the
    products with the translation table, then [apply] of
    [translate_category] to every row).

    [resolve_category] is the contract of the spec (section 4.1): the
    sentinel ["Unknown Category"] for a missing category, the English
    name when a translation exists, the raw name otherwise.
    [normalize_products_spec] proves that the code implements it when the
    translation table has one row per category. With a category
    translated twice the left merge duplicates the product row, which
    [normalize_duplicate_translation] shows on a concrete table. *)

From S2P Require Import Prelude Calendar Frame Tables.
Import Frame Tables.

Module Normalizer.

(** A row of [product_df] after the merge of line 97: the product and
    the [product_category_name_english] column, missing when the category
    has no translation (or the translation itself is missing). *)
Record product_row := mk_product_row {
  pr_product : product;
  pr_english : option string }.

(** Line 97: [pd.merge(product_df, translation_df,
    on='product_category_name', how='left')]. *)
Definition merge_translations (ps : list product) (ts : list translation) : list product_row :=
  left_merge product_category_name tr_category_name
    (fun p ot => mk_product_row p (ot ≫= product_category_name_english)) ps ts.

Definition unknown_category : string := "Unknown Category".

(** Lines 81-87. *)
Definition translate_category (row : product_row) : string :=
  match product_category_name (pr_product row) with
  | None => unknown_category
  | Some c => match pr_english row with
              | None => c
              | Some e => e
              end
  end.

(** Line 98: the category column is replaced by [translate_category] of
    each row. The English column, which no later computation reads, is
    dropped. *)
Definition normalize_products (ps : list product) (ts : list translation) : list product :=
  map (fun row => mk_product (product_id (pr_product row)) (Some (translate_category row)))
      (merge_translations ps ts).

(** The contract of the spec, written with a lookup in the table. *)
Definition resolve_category (ts : list translation) (p : product) : string :=
  match product_category_name p with
  | None => unknown_category
  | Some c =>
      match find_key tr_category_name ts (Some c) ≫= product_category_name_english with
      | Some e => e
      | None => c
      end
  end.

(** ** Theorems *)

(** C8: with one translation row per category the normaliser keeps every
    product once, in order, with its identifier, and gives it the
    category [resolve_category] prescribes. *)
Theorem normalize_products_spec ps ts :
  NoDup (map tr_category_name ts) ->
  normalize_products ps ts =
  map (fun p => mk_product (product_id p) (Some (resolve_category ts p))) ps.
Proof.
  intros Hnd. unfold normalize_products, merge_translations.
  rewrite left_merge_unique by done. rewrite map_map. apply map_ext. intros p.
  unfold translate_category, resolve_category; simpl.
  destruct (product_category_name p); simpl; [|done].
  by destruct (find_key _ _ _ ≫= _).
Qed.

(** The normalised table has no missing category, whatever the tables. *)
Lemma normalize_products_category ps ts p :
  p ∈ normalize_products ps ts -> is_Some (product_category_name p).
Proof.
  unfold normalize_products. intros (row & -> & _)%list_elem_of_fmap. by eexists.
Qed.

(** ** Witnesses *)

Definition sample_translations : list translation :=
  [mk_translation (Some "beleza_saude") (Some "health_beauty");
   mk_translation (Some "pcs") (Some "computers")].

Definition sample_products : list product :=
  [mk_product "p1" None;
   mk_product "p2" (Some "brinquedos");
   mk_product "p3" (Some "beleza_saude")].

(** The three cases of the spec on one table: a missing category becomes
    the sentinel, an untranslated one is kept, a translated one becomes
    its English name. *)
Lemma normalize_products_spec_witness :
  NoDup (map tr_category_name sample_translations) /\
  normalize_products sample_products sample_translations =
  [mk_product "p1" (Some "Unknown Category");
   mk_product "p2" (Some "brinquedos");
   mk_product "p3" (Some "health_beauty")].
Proof.
  assert (Hnd : NoDup (map tr_category_name sample_translations)) by decide_by_eval.
  split; [exact Hnd|]. rewrite (normalize_products_spec sample_products sample_translations Hnd).
  reflexivity.
Defined.

(** A category translated twice duplicates its products. *)
Lemma normalize_duplicate_translation :
  normalize_products [mk_product "p1" (Some "pcs")]
    [mk_translation (Some "pcs") (Some "computers");
     mk_translation (Some "pcs") (Some "pc")] =
  [mk_product "p1" (Some "computers"); mk_product "p1" (Some "pc")].
Proof. reflexivity. Qed.

End Normalizer.
