(* ===== verification/DateFilter.v ===== *)
(** DateFilter: the load-time truncation of the purchase timestamps
    (line 96), the date range picked in the sidebar (lines 100-111) and
    the filter of the orders by that range (line 113).

    [load_orders] maps [truncate_to_month] over the orders; the parse can
    fail, so it returns an option, and [load_orders_month_start] proves it
    never does on timestamps of the calendar. [filter_orders] keeps the
    orders whose (truncated) timestamp [t] satisfies
    [midnight start <= t <= midnight end]: pandas converts [str(date)] to
    a Timestamp at midnight. Because [t] is the first instant of its month,
    the filter works at month granularity ([filter_orders_month]): an
    order is kept iff the first day of its month lies in the range.
    [st.date_input] returns a tuple of one date while the user is still
    picking the end of the range; the unpacking of line 106 then raises,
    which [unpack_range] models as [None]. *)

From S2P Require Import Prelude Calendar Tables.
Import Calendar Tables.

Module DateFilter.

Definition with_timestamp (o : order) (t : datetime) : order :=
  mk_order (order_id o) (customer_id o) t.

(** Line 96. *)
Definition load_orders (raw : list order) : option (list order) :=
  mapM (fun o => with_timestamp o <$> truncate_to_month (order_purchase_timestamp o)) raw.

(** Lines 100-101: [min_date] and [max_date], [None] (NaT) on no order. *)
Definition min_timestamp (os : list order) : option datetime :=
  foldr (fun o acc => match acc with
                      | None => Some (order_purchase_timestamp o)
                      | Some t => Some (if decide (datetime_le t (order_purchase_timestamp o))
                                        then t else order_purchase_timestamp o)
                      end) None os.

Definition max_timestamp (os : list order) : option datetime :=
  foldr (fun o acc => match acc with
                      | None => Some (order_purchase_timestamp o)
                      | Some t => Some (if decide (datetime_le (order_purchase_timestamp o) t)
                                        then t else order_purchase_timestamp o)
                      end) None os.

(** Line 106: [start_date, end_date = st.date_input(...)]. *)
Definition unpack_range (selection : list date) : option (date * date) :=
  match selection with
  | [s; e] => Some (s, e)
  | _ => None
  end.

(** Line 113. *)
Definition in_range (start end_ : date) (o : order) : Prop :=
  datetime_le (midnight start) (order_purchase_timestamp o) /\
  datetime_le (order_purchase_timestamp o) (midnight end_).

#[export] Instance in_range_dec start end_ o : Decision (in_range start end_ o).
Proof. unfold in_range. apply _. Defined.

Definition filter_orders (os : list order) (start end_ : date) : list order :=
  filter (in_range start end_) os.

(** The first day of the month of a timestamp. *)
Definition first_of_month (t : datetime) : date := mk_date (year (dt_date t)) (month (dt_date t)) 1.

(** ** Lemmas *)

Lemma lex_compare_app_same_length l1 l2 m1 m2 :
  length l1 = length l2 ->
  lex_compare (l1 ++ m1) (l2 ++ m2) =
  match lex_compare l1 l2 with Eq => lex_compare m1 m2 | c => c end.
Proof.
  revert l2. induction l1 as [|x l1 IH]; intros [|y l2] Hlen; simpl in *; try lia; [done|].
  destruct (x ?= y); auto.
Qed.

Lemma datetime_le_midnight a b : datetime_le (midnight a) (midnight b) <-> date_le a b.
Proof.
  unfold datetime_le, date_le, lex_le, datetime_fields, midnight.
  cbn [dt_date dt_hour dt_minute dt_second].
  rewrite lex_compare_app_same_length by done.
  destruct (lex_compare (date_fields a) (date_fields b)); simpl; tauto.
Qed.

Lemma month_start_midnight t : month_start t = midnight (first_of_month t).
Proof. reflexivity. Qed.

Lemma load_orders_spec raw :
  Forall (fun o => printable (order_purchase_timestamp o)) raw ->
  load_orders raw =
  Some (map (fun o => with_timestamp o (month_start (order_purchase_timestamp o))) raw).
Proof.
  induction 1 as [|o raw [Hm Hy] _ IH]; [done|]. unfold load_orders in *; simpl.
  rewrite truncate_to_month_roundtrip by done. simpl. by rewrite IH.
Qed.

(** The orders [load_orders] returns: as many as it read, each at the
    first instant of a month of the calendar. *)
Lemma load_orders_inv raw os :
  load_orders raw = Some os ->
  length os = length raw /\
  Forall (fun o => printable (order_purchase_timestamp o) /\
                   order_purchase_timestamp o = month_start (order_purchase_timestamp o)) os.
Proof.
  unfold load_orders. intros H%mapM_Some_1. split; [symmetry; by eapply Forall2_length|].
  induction H as [|x y raw os Hxy _ IH]; constructor; [|exact IH].
  apply fmap_Some in Hxy as (t & Ht & ->). cbn.
  apply to_datetime_B_Y_inv in Ht as (Hm & Hmo & Hy). split; [split|]; done.
Qed.

(** [min()] of the timestamp column (line 100): one of the timestamps,
    at most every other. *)
Lemma min_timestamp_spec os m :
  min_timestamp os = Some m ->
  m ∈ map order_purchase_timestamp os /\
  forall o, o ∈ os -> datetime_le m (order_purchase_timestamp o).
Proof.
  revert m. induction os as [|a os IH]; intros m; [done|]. cbn [min_timestamp foldr].
  fold (min_timestamp os). destruct (min_timestamp os) as [t|] eqn:E; intros [= <-].
  - destruct (IH t eq_refl) as [Hin Hle]. case_decide as Hta.
    + split; [set_solver|]. intros o [->|Ho]%elem_of_cons; [done|by apply Hle].
    + split; [set_solver|]. intros o [->|Ho]%elem_of_cons; [reflexivity|].
      etrans; [|by apply Hle]. by destruct (total datetime_le t (order_purchase_timestamp a)).
  - destruct os as [|b os]; [|cbn in E; repeat case_match; discriminate].
    split; [set_solver|]. intros o Ho. assert (o = a) as -> by set_solver. reflexivity.
Qed.

(** [max()] of the timestamp column (line 101). *)
Lemma max_timestamp_spec os m :
  max_timestamp os = Some m ->
  m ∈ map order_purchase_timestamp os /\
  forall o, o ∈ os -> datetime_le (order_purchase_timestamp o) m.
Proof.
  revert m. induction os as [|a os IH]; intros m; [done|]. cbn [max_timestamp foldr].
  fold (max_timestamp os). destruct (max_timestamp os) as [t|] eqn:E; intros [= <-].
  - destruct (IH t eq_refl) as [Hin Hle]. case_decide as Hta.
    + split; [set_solver|]. intros o [->|Ho]%elem_of_cons; [done|by apply Hle].
    + split; [set_solver|]. intros o [->|Ho]%elem_of_cons; [reflexivity|].
      etrans; [by apply Hle|]. by destruct (total datetime_le (order_purchase_timestamp a) t).
  - destruct os as [|b os]; [|cbn in E; repeat case_match; discriminate].
    split; [set_solver|]. intros o Ho. assert (o = a) as -> by set_solver. reflexivity.
Qed.

(** ** Theorems *)

(** C25: loading never fails on timestamps of the calendar: every
    purchase timestamp becomes the first instant of its month. *)
Theorem load_orders_month_start raw :
  Forall (fun o => printable (order_purchase_timestamp o)) raw ->
  exists loaded, load_orders raw = Some loaded /\
    map order_id loaded = map order_id raw /\
    Forall2 (fun o o' => order_purchase_timestamp o' = month_start (order_purchase_timestamp o))
      raw loaded.
Proof.
  intros H. eexists. split; [by apply load_orders_spec|]. split.
  - by rewrite map_map.
  - apply Forall2_fmap_r. apply Forall_Forall2_diag. by apply Forall_true.
Qed.

(** C3: month granularity of the filter. An order whose timestamp was
    truncated by line 96 passes the filter of line 113 exactly when the
    first day of its month lies in the picked range, whatever its day. *)
Theorem filter_orders_month (os : list order) start end_ o :
  order_purchase_timestamp o = month_start (order_purchase_timestamp o) ->
  o ∈ filter_orders os start end_ <->
  o ∈ os /\ date_le start (first_of_month (order_purchase_timestamp o)) /\
            date_le (first_of_month (order_purchase_timestamp o)) end_.
Proof.
  intros Ht. unfold filter_orders. rewrite list_elem_of_filter. unfold in_range.
  rewrite Ht, month_start_midnight, !datetime_le_midnight. naive_solver.
Qed.

(** The filter is idempotent (spec section 4.2): filtering the
    filtered orders by the same range changes nothing. *)
Lemma filter_orders_idempotent (os : list order) start end_ :
  filter_orders (filter_orders os start end_) start end_ = filter_orders os start end_.
Proof.
  unfold filter_orders. apply filter_all. intros o Ho.
  by apply list_elem_of_filter in Ho as [Hr _].
Qed.

(** An inverted range keeps no order (spec, section 6). *)
Theorem filter_orders_inverted (os : list order) start end_ :
  date_compare end_ start = Lt -> filter_orders os start end_ = [].
Proof.
  intros Hlt. unfold filter_orders. induction os as [|o os IH]; [done|].
  rewrite filter_cons, decide_False; [exact IH|]. intros [H1 H2].
  assert (date_le start end_) as Hle.
  { apply (proj1 (datetime_le_midnight start end_)). etrans; [exact H1|exact H2]. }
  unfold date_le, lex_le in Hle. unfold date_compare in Hlt.
  rewrite lex_compare_antisym, Hlt in Hle. by apply Hle.
Qed.

(** ** Witnesses and consequences on concrete orders *)

(** An order placed on 2023-01-20 at 10:56:33. *)
Definition sample_raw_order : order :=
  mk_order "o1" "c1" (mk_datetime (mk_date 2023 1 20) 10 56 33).

Definition sample_loaded_order : order :=
  mk_order "o1" "c1" (mk_datetime (mk_date 2023 1 1) 0 0 0).

Lemma load_orders_month_start_witness :
  Forall (fun o => printable (order_purchase_timestamp o)) [sample_raw_order] /\
  exists loaded, load_orders [sample_raw_order] = Some loaded /\
    map order_id loaded = ["o1"] /\
    Forall2 (fun o o' => order_purchase_timestamp o' = month_start (order_purchase_timestamp o))
      [sample_raw_order] loaded.
Proof.
  assert (H : Forall (fun o => printable (order_purchase_timestamp o)) [sample_raw_order]).
  { repeat constructor; simpl; lia. }
  split; [exact H|]. exact (load_orders_month_start [sample_raw_order] H).
Defined.

Lemma load_orders_sample : load_orders [sample_raw_order] = Some [sample_loaded_order].
Proof. reflexivity. Qed.

Lemma filter_orders_month_witness :
  order_purchase_timestamp sample_loaded_order =
    month_start (order_purchase_timestamp sample_loaded_order) /\
  (sample_loaded_order ∈ filter_orders [sample_loaded_order] (mk_date 2022 12 15) (mk_date 2023 1 1)).
Proof.
  assert (Ht : order_purchase_timestamp sample_loaded_order =
               month_start (order_purchase_timestamp sample_loaded_order)) by reflexivity.
  split; [exact Ht|].
  apply (filter_orders_month [sample_loaded_order] _ _ _ Ht).
  split; [set_solver|]. split; decide_by_eval.
Defined.

(** The order of 2023-01-20 is dropped by the range 2023-01-10 ..
    2023-01-31 that contains its purchase date. *)
Lemma filter_drops_order_inside_range :
  filter_orders [sample_loaded_order] (mk_date 2023 1 10) (mk_date 2023 1 31) = [].
Proof. reflexivity. Qed.

(** The one-day range 2023-01-01 .. 2023-01-01, a day without orders,
    keeps the order of 2023-01-20. *)
Lemma filter_keeps_order_outside_range :
  filter_orders [sample_loaded_order] (mk_date 2023 1 1) (mk_date 2023 1 1) =
  [sample_loaded_order].
Proof. reflexivity. Qed.

(** While only the start of the range is picked, the unpacking of
    line 106 fails. *)
Lemma unpack_range_single_date d : unpack_range [d] = None.
Proof. reflexivity. Qed.

End DateFilter.
