(* ===== verification/MonthlyRevenue.v ===== *)
(** MonthlyRevenue: [monthly_revenue_df] of [src/dashboard.py],
    lines 9-19, called at line 115 with the filtered orders.

    Each step of the function is one definition: the merge of the orders
    with their items (line 10), the [%B %Y] label of the purchase month
    (line 11), the [groupby(...).price.sum()] by label (line 12), the
    parse of the labels back to timestamps (line 13, which raises on a
    label it cannot parse: [None]), the chronological [sort_values]
    (line 14), and the print of the timestamps to labels (line 15; the
    rename of line 16 only changes a column name).

    The theorems show that the function never fails on the labels it
    prints itself, that it conserves the revenue of the items of the
    orders in the range (spec, section 8), that each row holds the sum of
    its month, and that the rows are strictly chronological. *)

From S2P Require Import Prelude Calendar Frame GroupBy SortValues Tables.
Import Calendar Frame GroupBy SortValues Tables.

Module MonthlyRevenue.

(** Line 10: [pd.merge(order_df, detail_df, on='order_id')]. *)
Definition merge_details (order_df : list order) (detail_df : list order_item)
  : list (order * order_item) :=
  merge order_id item_order_id pair order_df detail_df.

(** Line 11: the [month_year] column. *)
Definition month_year (r : order * order_item) : string :=
  strftime_B_Y (order_purchase_timestamp r.1).

(** Line 12: [groupby(by='month_year').price.sum().reset_index()]. *)
Definition revenue_by_label (order_df : list order) (detail_df : list order_item)
  : list (string * Z) :=
  groupby_sum (map (fun r => (month_year r, price r.2)) (merge_details order_df detail_df)).

(** Line 13: [pd.to_datetime(revenue_df['month_year'], format="%B %Y")]. *)
Definition parse_labels (rows : list (string * Z)) : option (list (datetime * Z)) :=
  mapM (fun r => (fun t => (t, r.2)) <$> to_datetime_B_Y r.1) rows.

Section Views.
(** The sort of line 14: any implementation of [sort_values]. *)
Context `{sort_inst : SortImpl}.

(** Line 14: [sort_values(by='month_year')]. *)
Definition sort_by_month (rows : list (datetime * Z)) : list (datetime * Z) :=
  sort_impl fst datetime_le true rows.

(** Lines 9-19. *)
Definition monthly_revenue_df (order_df : list order) (detail_df : list order_item)
  : option (list (string * Z)) :=
  parsed ← parse_labels (revenue_by_label order_df detail_df);
  Some (map (fun r => (strftime_B_Y r.1, r.2)) (sort_by_month parsed)).

(** [a] is a month label strictly before the month label [b]. *)
Definition label_before (a b : string) : Prop :=
  match to_datetime_B_Y a, to_datetime_B_Y b with
  | Some ta, Some tb => lex_compare (datetime_fields ta) (datetime_fields tb) = Lt
  | _, _ => False
  end.

(** ** Lemmas *)

(** The lemmas and theorems hold for every sort that meets the contract. *)
Context `{sort_laws : !SortImplLaws}.

(** The labels of [revenue_by_label] are labels line 11 printed. *)
Lemma revenue_by_label_printed order_df detail_df :
  Forall (fun r => exists t, r.1 = strftime_B_Y t) (revenue_by_label order_df detail_df).
Proof.
  apply Forall_forall. intros [l v] Hin. unfold revenue_by_label in Hin.
  apply groupby_sum_elem in Hin as [Hl _].
  apply list_elem_of_fmap in Hl as ([l' v'] & -> & Hr).
  apply list_elem_of_fmap in Hr as (r & [= -> _] & _). by exists (order_purchase_timestamp r.1).
Qed.

(** Printing back the parsed labels gives the labels. *)
Lemma parse_labels_print rows parsed :
  Forall (fun r => exists t, r.1 = strftime_B_Y t) rows ->
  parse_labels rows = Some parsed ->
  map (fun r => (strftime_B_Y r.1, r.2)) parsed = rows.
Proof.
  unfold parse_labels. intros Hl H%mapM_Some_1. revert Hl.
  induction H as [|[l v] [t v'] rows parsed Hp _ IH]; intros Hl; [done|].
  apply Forall_cons in Hl as [(t0 & Ht0) Hl]. simpl. rewrite IH by done.
  simpl in *. subst l.
  destruct (to_datetime_B_Y (strftime_B_Y t0)) as [t'|] eqn:E; [|done]. injection Hp as -> ->.
  by rewrite (to_datetime_B_Y_label _ _ E).
Qed.

Lemma sort_by_month_perm rows : sort_by_month rows ≡ₚ rows.
Proof. unfold sort_by_month. apply sort_impl_perm; apply _. Qed.

(** On success the output is a reordering of the grouped rows. *)
Lemma monthly_revenue_perm order_df detail_df out :
  monthly_revenue_df order_df detail_df = Some out ->
  out ≡ₚ revenue_by_label order_df detail_df.
Proof.
  unfold monthly_revenue_df.
  destruct (parse_labels _) as [parsed|] eqn:E; [|done]. intros [= <-].
  rewrite <- (parse_labels_print _ _ (revenue_by_label_printed _ _) E).
  apply Permutation_map, sort_by_month_perm.
Qed.

Lemma revenue_by_label_total order_df detail_df :
  NoDup (map order_id order_df) ->
  sumZ snd (revenue_by_label order_df detail_df) =
  Σ[ it <- filter (fun it => item_order_id it ∈ map order_id order_df) detail_df ] price it.
Proof.
  intros Hnd. unfold revenue_by_label. rewrite groupby_sum_total, sumZ_map.
  unfold merge_details. by apply (merge_sum_unique order_id item_order_id _ price).
Qed.

(** The labels line 11 prints are parsed back by line 13. *)
Lemma parse_labels_revenue order_df detail_df :
  Forall (fun o => printable (order_purchase_timestamp o)) order_df ->
  is_Some (parse_labels (revenue_by_label order_df detail_df)).
Proof.
  intros Hp. apply mapM_is_Some_2, Forall_forall. intros [l v] Hin.
  apply groupby_sum_elem in Hin as [Hl _].
  apply list_elem_of_fmap in Hl as ([l' v'] & -> & Hr).
  apply list_elem_of_fmap in Hr as ([o it] & [= -> ->] & Hr).
  apply elem_of_merge in Hr as (o' & it' & Ho & _ & _ & [= -> ->]).
  rewrite Forall_forall in Hp. destruct (Hp o' Ho) as [Hm Hy].
  simpl. unfold month_year. simpl.
  pose proof (truncate_to_month_roundtrip _ Hm Hy) as Ht.
  unfold truncate_to_month in Ht. rewrite Ht. by eexists.
Qed.

Lemma parse_labels_month_start rows parsed p :
  parse_labels rows = Some parsed -> p ∈ parsed ->
  to_datetime_B_Y (strftime_B_Y p.1) = Some p.1.
Proof.
  unfold parse_labels. intros H%mapM_Some_1 Hp.
  induction H as [|[l v] [t v'] rows parsed Hr _ IH]; [set_solver|].
  apply elem_of_cons in Hp as [->|Hp]; [|by apply IH]. simpl in *.
  destruct (to_datetime_B_Y l) as [t'|] eqn:E; [|done]. injection Hr as -> ->.
  apply to_datetime_B_Y_inv in E as (Ht & Hm & Hy). simpl.
  pose proof (truncate_to_month_roundtrip t Hm Hy) as R. unfold truncate_to_month in R.
  by rewrite R, <- Ht.
Qed.

Lemma NoDup_map_compose {A B C} (f : A -> B) (g : B -> C) (l : list A) :
  NoDup (map (fun x => g (f x)) l) -> NoDup (map f l).
Proof.
  induction l as [|x l IH]; simpl; intros Hnd; [constructor|].
  apply NoDup_cons in Hnd as [Hn Hnd]. constructor; [|by apply IH].
  intros (y & Hy & Hin)%list_elem_of_fmap. apply Hn. apply list_elem_of_fmap.
  exists y. by rewrite Hy.
Qed.

(** Sorted timestamps that are pairwise distinct print to labels in
    strictly increasing chronological order. *)
Lemma sorted_labels_strict (S : list (datetime * Z)) :
  StronglySorted (sort_rel fst datetime_le true) S -> NoDup (map fst S) ->
  (forall p, p ∈ S -> to_datetime_B_Y (strftime_B_Y p.1) = Some p.1) ->
  StronglySorted label_before (map (fun r => strftime_B_Y r.1) S).
Proof.
  induction 1 as [|p S HS IH HF]; simpl; intros Hnd Hparse; [constructor|].
  apply NoDup_cons in Hnd as [Hn Hnd]. constructor.
  - apply IH; [done|]. intros q Hq. apply Hparse. set_solver.
  - apply Forall_forall. intros l (q & -> & Hq)%list_elem_of_fmap.
    unfold label_before. rewrite !Hparse by set_solver.
    rewrite Forall_forall in HF. specialize (HF q Hq).
    unfold sort_rel, key_rel, datetime_le, lex_le in HF.
    destruct (lex_compare _ _) eqn:E; try done.
    apply lex_compare_eq, datetime_fields_inj in E. destruct Hn. rewrite E.
    by apply list_elem_of_fmap_2.
Qed.

(** The month labels of the table are distinct. *)
Lemma monthly_revenue_labels_NoDup order_df detail_df out :
  monthly_revenue_df order_df detail_df = Some out -> NoDup (map fst out).
Proof.
  unfold monthly_revenue_df.
  destruct (parse_labels _) as [parsed|] eqn:E; [|done]. intros [= <-].
  rewrite map_map. simpl. rewrite sort_by_month_perm.
  pose proof (parse_labels_print _ _ (revenue_by_label_printed _ _) E) as Hprint.
  apply (f_equal (map fst)) in Hprint. rewrite map_map in Hprint. simpl in Hprint.
  rewrite Hprint. apply groupby_agg_keys_NoDup.
Qed.

(** ** Theorems *)

(** On orders with distinct ids and timestamps of the calendar,
    [monthly_revenue_df] returns a table, and the revenues of its rows add
    up to the price of every item whose order is in the range
    (conservation of revenue under regrouping, spec section 8). *)
Theorem monthly_revenue_total order_df detail_df :
  NoDup (map order_id order_df) ->
  Forall (fun o => printable (order_purchase_timestamp o)) order_df ->
  exists out, monthly_revenue_df order_df detail_df = Some out /\
    sumZ snd out =
    Σ[ it <- filter (fun it => item_order_id it ∈ map order_id order_df) detail_df ] price it.
Proof.
  intros Hnd Hp. destruct (parse_labels_revenue order_df detail_df Hp) as [parsed E].
  eexists. split; [unfold monthly_revenue_df; by rewrite E|].
  assert (monthly_revenue_df order_df detail_df =
          Some (map (fun r => (strftime_B_Y r.1, r.2)) (sort_by_month parsed))) as Hm.
  { unfold monthly_revenue_df. by rewrite E. }
  rewrite (monthly_revenue_perm _ _ _ Hm). by apply revenue_by_label_total.
Qed.

(** C17: each row of the table is a month label of the merged rows with the
    sum of the prices of that month's rows, and every such month has a
    row. *)
Theorem monthly_revenue_rows order_df detail_df out lbl rev :
  monthly_revenue_df order_df detail_df = Some out ->
  (lbl, rev) ∈ out <->
  (exists r, r ∈ merge_details order_df detail_df /\ month_year r = lbl) /\
  rev = Σ[ r <- filter (fun r => month_year r = lbl) (merge_details order_df detail_df) ]
          price r.2.
Proof.
  intros Hm. rewrite (monthly_revenue_perm _ _ _ Hm). unfold revenue_by_label.
  rewrite groupby_sum_elem, sumZ_filter_map, map_map. simpl. rewrite list_elem_of_fmap.
  split; intros [(r & Hr & Hin) Hs]; (split; [|done]); exists r; simpl in *; auto.
Qed.

(** C2: the rows of the table are in strictly increasing chronological
    order of their month labels (spec section 8). *)
Theorem monthly_revenue_chronological order_df detail_df out :
  monthly_revenue_df order_df detail_df = Some out ->
  StronglySorted label_before (map fst out).
Proof.
  unfold monthly_revenue_df.
  destruct (parse_labels _) as [parsed|] eqn:E; [|done]. intros [= <-].
  destruct (sort_impl_spec fst datetime_le true parsed) as [P S].
  rewrite map_map. apply sorted_labels_strict.
  - by apply Sorted_StronglySorted; [apply _|].
  - unfold sort_by_month. rewrite P.
    apply (NoDup_map_compose fst strftime_B_Y).
    pose proof (parse_labels_print _ _ (revenue_by_label_printed _ _) E) as Hprint.
    apply (f_equal (map fst)) in Hprint. rewrite map_map in Hprint. simpl in Hprint.
    rewrite Hprint. apply groupby_agg_keys_NoDup.
  - intros p Hp. apply (parse_labels_month_start (revenue_by_label order_df detail_df) parsed); [done|].
    unfold sort_by_month in Hp. by rewrite P in Hp.
Qed.

End Views.

(** ** Witnesses *)

(** Orders of January and February 2023 (timestamps truncated by line 96);
    ["February 2023"] sorts before ["January 2023"] as a string, after it
    as a month. *)
Definition sample_orders : list order :=
  [mk_order "o2" "c2" (mk_datetime (mk_date 2023 2 1) 0 0 0);
   mk_order "o1" "c1" (mk_datetime (mk_date 2023 1 1) 0 0 0)].

Definition sample_items : list order_item :=
  [mk_item "o1" "p1" 5000; mk_item "o2" "p2" 1250; mk_item "o2" "p1" 1750;
   mk_item "o9" "p3" 999].

Lemma monthly_revenue_sample :
  monthly_revenue_df sample_orders sample_items =
  Some [("January 2023", 5000); ("February 2023", 3000)].
Proof. vm_compute. reflexivity. Qed.

Lemma monthly_revenue_rows_witness :
  monthly_revenue_df sample_orders sample_items =
    Some [("January 2023", 5000); ("February 2023", 3000)] /\
  (("February 2023", 3000) ∈ [("January 2023", 5000); ("February 2023", 3000)] <->
   (exists r, r ∈ merge_details sample_orders sample_items /\ month_year r = "February 2023") /\
   3000 = Σ[ r <- filter (fun r => month_year r = "February 2023")
                    (merge_details sample_orders sample_items) ] price r.2).
Proof.
  split; [exact monthly_revenue_sample|].
  exact (monthly_revenue_rows _ _ _ _ _ monthly_revenue_sample).
Defined.

Lemma monthly_revenue_chronological_witness :
  monthly_revenue_df sample_orders sample_items =
    Some [("January 2023", 5000); ("February 2023", 3000)] /\
  StronglySorted label_before ["January 2023"; "February 2023"].
Proof.
  split; [exact monthly_revenue_sample|].
  exact (monthly_revenue_chronological _ _ _ monthly_revenue_sample).
Defined.

End MonthlyRevenue.
