(* ===== verification/ProductCount.v ===== *)
(** ProductCount: [product_order_count_df] of [src/dashboard.py],
    lines 21-28, called at line 116; lines 156 and 167 chart its first
    and last five rows.

    The orders are merged with their items and the items with the
    products (line 22); [groupby('product_id').order_id.count()] counts
    the merged rows of each product (line 23: line items, not distinct
    orders); the rename of lines 24-26 changes a column name; line 27
    sorts by the count, descending.

    The theorems: the counts decrease down the table; any sort pandas may
    use yields the same column of counts, so the counts charted as best
    and worst are determined even where ties leave the product order
    open; each row counts the line items of its product; and the counts
    add up to the items of the range whose product is known. *)

From S2P Require Import Prelude Calendar Frame GroupBy SortValues Tables.
Import Calendar Frame GroupBy SortValues Tables.

Module ProductCount.

(** Line 22: [pd.merge(pd.merge(order_df, detail_df, on='order_id'),
    product_df, on='product_id')]. *)
Definition product_rows (order_df : list order) (detail_df : list order_item)
    (product_df : list product) : list ((order * order_item) * product) :=
  merge (fun r => item_product_id r.2) product_id pair
    (merge order_id item_order_id pair order_df detail_df) product_df.

(** Line 23: the count of each product's rows, by product id. *)
Definition count_by_product (order_df : list order) (detail_df : list order_item)
    (product_df : list product) : list (string * Z) :=
  groupby_count (map (fun r => product_id r.2) (product_rows order_df detail_df product_df)).

Section Views.
(** The sort of line 27: any implementation of [sort_values]. *)
Context `{sort_inst : SortImpl}.

(** Lines 21-28. *)
Definition product_order_count_df (order_df : list order) (detail_df : list order_item)
    (product_df : list product) : list (string * Z) :=
  sort_impl snd Z.le false (count_by_product order_df detail_df product_df).

(** ** Lemmas *)

(** The theorems hold for every sort that meets the contract. *)
Context `{sort_laws : !SortImplLaws}.

Lemma product_order_count_spec o d p :
  sort_values_spec snd Z.le false (count_by_product o d p) (product_order_count_df o d p).
Proof. exact (sort_impl_spec snd Z.le false _). Qed.


(** ** Theorems *)

(** C6: the product ranking is sorted by decreasing count: each row's
    count is at least the next row's (spec section 8). *)
Theorem product_order_count_sorted o d p :
  Sorted (fun a b => b.2 <= a.2) (product_order_count_df o d p).
Proof.
  destruct (sort_impl_spec snd Z.le false (count_by_product o d p)) as [_ S].
  exact S.
Qed.

(** Whichever order pandas' sort gives to products with equal counts,
    the column of counts is the one [product_order_count_df] computes; so
    are the counts of the first and last five rows charted at lines 156
    and 167. *)
Lemma product_order_count_counts_determined o d p out :
  sort_values_spec snd Z.le false (count_by_product o d p) out ->
  map snd out = map snd (product_order_count_df o d p) /\
  map snd (take 5 out) = map snd (take 5 (product_order_count_df o d p)).
Proof.
  intros Hs. pose proof (sort_values_spec_keys snd Z.le false _ _ _ Hs
    (product_order_count_spec o d p)) as Hk.
  split; [done|]. by rewrite <- !firstn_map, Hk.
Qed.

(** C19: each row of the ranking is a product of the merged rows with the
    number of merged rows (line items) of that product. *)
Theorem product_order_count_rows o d p pid n :
  (pid, n) ∈ product_order_count_df o d p <->
  (exists r, r ∈ product_rows o d p /\ product_id r.2 = pid) /\
  n = Z.of_nat (length (filter (fun r => product_id r.2 = pid) (product_rows o d p))).
Proof.
  destruct (product_order_count_spec o d p) as [P _]. rewrite P.
  unfold count_by_product. rewrite groupby_count_elem, list_elem_of_fmap.
  rewrite length_filter_map. split; intros [(r & Hr & Hin) Hn]; split; try done; exists r; auto.
Qed.

(** C20: with unique order and product ids, the counts of the ranking add
    up to the number of line items of the range whose product is in the
    product table: the merge of line 22 loses or duplicates no item. *)
Theorem product_order_count_total o d p :
  NoDup (map order_id o) -> NoDup (map product_id p) ->
  sumZ snd (product_order_count_df o d p) =
  Z.of_nat (length (filter (fun it => item_order_id it ∈ map order_id o /\
                                      item_product_id it ∈ map product_id p) d)).
Proof.
  intros Ho Hp. destruct (product_order_count_spec o d p) as [P _]. rewrite P.
  unfold count_by_product. rewrite groupby_count_total, length_map.
  unfold product_rows. rewrite length_merge_unique_right by done.
  rewrite length_filter_sumZ, <- sumZ_indicator_filter.
  by apply (merge_sum_unique order_id item_order_id _
    (fun b => if decide (item_product_id b ∈ map product_id p) then 1 else 0)).
Qed.

End Views.

(** ** A sample with two products tied *)

Definition sample_orders : list order :=
  [mk_order "o1" "c1" (mk_datetime (mk_date 2023 1 1) 0 0 0);
   mk_order "o2" "c2" (mk_datetime (mk_date 2023 1 1) 0 0 0)].

Definition sample_items : list order_item :=
  [mk_item "o1" "p1" 100; mk_item "o1" "p2" 200; mk_item "o2" "p1" 100; mk_item "o2" "p3" 300].

Definition sample_products : list product :=
  [mk_product "p1" (Some "perfumaria"); mk_product "p2" (Some "esporte_lazer");
   mk_product "p3" None].

Lemma product_order_count_sample :
  product_order_count_df sample_orders sample_items sample_products = [("p1", 2); ("p3", 1); ("p2", 1)].
Proof. vm_compute. reflexivity. Qed.

(** Merge sort meets the contract, and its ranking of the sample is
    sorted by decreasing count. *)
Lemma product_order_count_sorted_witness :
  @SortImplLaws merge_sort_impl /\
  Sorted (fun a b => b.2 <= a.2) (product_order_count_df sample_orders sample_items sample_products).
Proof. split; [apply _|]. apply product_order_count_sorted. Defined.

Lemma product_order_count_rows_witness :
  @SortImplLaws merge_sort_impl /\
  (("p1", 2) ∈ product_order_count_df sample_orders sample_items sample_products <->
   (exists r, r ∈ product_rows sample_orders sample_items sample_products /\ product_id r.2 = "p1") /\
   2 = Z.of_nat (length (filter (fun r => product_id r.2 = "p1")
                          (product_rows sample_orders sample_items sample_products)))).
Proof. split; [apply _|]. apply product_order_count_rows. Defined.

Lemma product_order_count_total_witness :
  NoDup (map order_id sample_orders) /\ NoDup (map product_id sample_products) /\
  sumZ snd (product_order_count_df sample_orders sample_items sample_products) =
  Z.of_nat (length (filter (fun it => item_order_id it ∈ map order_id sample_orders /\
                                      item_product_id it ∈ map product_id sample_products) sample_items)).
Proof.
  assert (Ho : NoDup (map order_id sample_orders)) by decide_by_eval.
  assert (Hp : NoDup (map product_id sample_products)) by decide_by_eval.
  split; [exact Ho|]. split; [exact Hp|].
  exact (product_order_count_total sample_orders sample_items sample_products Ho Hp).
Defined.

End ProductCount.
