(* ===== verification/CitySpending.v ===== *)
(** CitySpending: [total_spent_percity_df] of [src/dashboard.py],
    lines 30-36, called at line 117; line 187 charts its ten largest rows.

    The customers are merged with their orders and the orders with their
    payments (line 31); [groupby('customer_city').payment_value.sum()]
    adds the payments of each city (line 32), every installment row of an
    order included; lines 33-35 rename a column.

    The theorems: each row holds the sum of the payments of its city, and
    with unique customer and order ids the amounts add up to the payments
    of the orders of the range whose customer is known. *)

From S2P Require Import Prelude Calendar Frame GroupBy Tables.
Import Calendar Frame GroupBy Tables.

Module CitySpending.

(** Line 31: [pd.merge(pd.merge(customer_df, order_df, on='customer_id'),
    payment_df, on='order_id')]. *)
Definition city_rows (customer_df : list customer) (order_df : list order)
    (payment_df : list payment) : list ((customer * order) * payment) :=
  merge (fun r => order_id r.2) pay_order_id pair
    (merge cust_customer_id customer_id pair customer_df order_df) payment_df.

(** Lines 30-36. *)
Definition total_spent_percity_df (order_df : list order) (customer_df : list customer)
    (payment_df : list payment) : list (string * Z) :=
  groupby_sum (map (fun r => (customer_city r.1.1, payment_value r.2))
                   (city_rows customer_df order_df payment_df)).

(** ** Theorems *)

(** C22: each row of the table is a city of the merged rows with the sum of
    the payment values of that city's rows. *)
Theorem city_spending_rows o c p city amount :
  (city, amount) ∈ total_spent_percity_df o c p <->
  (exists r, r ∈ city_rows c o p /\ customer_city r.1.1 = city) /\
  amount = Σ[ r <- filter (fun r => customer_city r.1.1 = city) (city_rows c o p) ]
             payment_value r.2.
Proof.
  unfold total_spent_percity_df.
  rewrite groupby_sum_elem, map_map, list_elem_of_fmap. simpl.
  assert (forall l : list ((customer * order) * payment),
    Σ[ r <- filter (fun r => r.1 = city)
            (map (fun r => (customer_city r.1.1, payment_value r.2)) l) ] r.2 =
    Σ[ r <- filter (fun r => customer_city r.1.1 = city) l ] payment_value r.2) as Hs.
  { induction l as [|x l IH]; [done|]. simpl. rewrite !filter_cons.
    simpl. case_decide; simpl; by rewrite IH. }
  rewrite Hs. split; intros [(r & Hr & Hin) Ha]; split; try done; exists r; auto.
Qed.

(** C21: with unique customer ids and unique order ids, the amounts add up
    to the payments, installments included, of the orders of the range
    whose customer is in the customer table. *)
Theorem city_spending_total o c p :
  NoDup (map cust_customer_id c) -> NoDup (map order_id o) ->
  sumZ snd (total_spent_percity_df o c p) =
  Σ[ pay <- filter (fun pay => pay_order_id pay ∈ map order_id (orders_with_customer o c)) p ]
    payment_value pay.
Proof.
  intros Hc Ho. unfold total_spent_percity_df, city_rows.
  rewrite groupby_sum_total, sumZ_map. simpl.
  rewrite (merge_sum_right (fun r : customer * order => order_id r.2) pay_order_id
             (fun r => payment_value r.2) payment_value) by done.
  rewrite sumZ_filter. apply sumZ_ext. intros pay _.
  rewrite (key_count_merge_unique cust_customer_id customer_id order_id) by done.
  unfold orders_with_customer. case_decide; lia.
Qed.

(** ** A sample with an order paid in two installments *)

Definition sample_customers : list customer :=
  [mk_customer "c1" "u1" "sao paulo"; mk_customer "c2" "u2" "curitiba"].

Definition sample_orders : list order :=
  [mk_order "o1" "c1" (mk_datetime (mk_date 2023 1 1) 0 0 0);
   mk_order "o2" "c2" (mk_datetime (mk_date 2023 1 2) 0 0 0);
   mk_order "o3" "c9" (mk_datetime (mk_date 2023 1 3) 0 0 0)].

Definition sample_payments : list payment :=
  [mk_payment "o1" 3000; mk_payment "o1" 2000; mk_payment "o2" 700; mk_payment "o3" 900].

Lemma city_spending_sample :
  total_spent_percity_df sample_orders sample_customers sample_payments =
    [("curitiba", 700); ("sao paulo", 5000)].
Proof. vm_compute. reflexivity. Qed.

Lemma city_spending_total_witness :
  NoDup (map cust_customer_id sample_customers) /\ NoDup (map order_id sample_orders) /\
  sumZ snd (total_spent_percity_df sample_orders sample_customers sample_payments) =
  Σ[ pay <- filter (fun pay => pay_order_id pay ∈
                      map order_id (orders_with_customer sample_orders sample_customers))
              sample_payments ] payment_value pay.
Proof.
  assert (Hc : NoDup (map cust_customer_id sample_customers)) by decide_by_eval.
  assert (Ho : NoDup (map order_id sample_orders)) by decide_by_eval.
  split; [exact Hc|]. split; [exact Ho|].
  exact (city_spending_total sample_orders sample_customers sample_payments Hc Ho).
Defined.

End CitySpending.
