(* ===== verification/CategoryRevenue.v ===== *)
(** CategoryRevenue: [revenue_bycategory_df] of [src/dashboard.py],
    lines 38-44, called at line 118 with the normalised products; line 207
    charts its fifteen largest rows.

    The orders are merged with their items and the items with the
    products (line 39); [groupby('product_category_name').price.sum()]
    adds the prices of each category (line 40). pandas' [groupby] drops
    the rows whose key is missing ([dropna=True]), which the model writes
    as [dropna_keys] over the optional category. The normalisation of lines
    97-98 leaves no category missing, so no revenue is dropped
    ([category_revenue_total]); on products that were not normalised the
    revenue of uncategorised products would vanish
    ([category_revenue_drops_missing]). *)

From S2P Require Import Prelude Calendar Frame GroupBy Tables.
Import Calendar Frame GroupBy Tables.

Module CategoryRevenue.

(** Line 39. *)
Definition category_rows (order_df : list order) (detail_df : list order_item)
    (product_df : list product) : list ((order * order_item) * product) :=
  merge (fun r => item_product_id r.2) product_id pair
    (merge order_id item_order_id pair order_df detail_df) product_df.

(** The grouping column and the summed column of a merged row. *)
Definition category_price (r : (order * order_item) * product) : option string * Z :=
  (product_category_name r.2, price r.1.2).

(** Lines 38-44. *)
Definition revenue_bycategory_df (order_df : list order) (detail_df : list order_item)
    (product_df : list product) : list (string * Z) :=
  groupby_sum (dropna_keys (map category_price (category_rows order_df detail_df product_df))).

(** ** Theorems *)

(** C23: when every product has a category (as after the normalisation of
    line 98) and order and product ids are unique, the category revenues
    add up to the prices of the items of the range whose product is
    known. *)
Theorem category_revenue_total o d p :
  NoDup (map order_id o) -> NoDup (map product_id p) ->
  (forall pr, pr ∈ p -> is_Some (product_category_name pr)) ->
  sumZ snd (revenue_bycategory_df o d p) =
  Σ[ it <- filter (fun it => item_order_id it ∈ map order_id o /\
                             item_product_id it ∈ map product_id p) d ] price it.
Proof.
  intros Ho Hp Hc. unfold revenue_bycategory_df.
  rewrite groupby_sum_total, sumZ_dropna_keys, sumZ_map.
  - unfold category_rows, category_price. simpl.
    rewrite (merge_sum_unique_right _ _ (fun r : (order * order_item) * product => price r.1.2)
               (fun a => price a.2)) by done.
    rewrite sumZ_filter, <- sumZ_filter_filter.
    by apply (merge_sum_unique order_id item_order_id _
      (fun b => if decide (item_product_id b ∈ map product_id p) then price b else 0)).
  - apply Forall_forall. intros [k v] ((a & b) & [= -> ->] & Hr)%list_elem_of_fmap.
    apply elem_of_merge in Hr as (a' & b' & _ & Hb & _ & [= -> ->]). simpl. by apply Hc.
Qed.

(** C24: each row of the table is a category of the merged rows with the
    sum of the prices of that category's rows; rows without a category
    are in no group. *)
Theorem category_revenue_rows o d p cat rev :
  (cat, rev) ∈ revenue_bycategory_df o d p <->
  (exists r, r ∈ category_rows o d p /\ product_category_name r.2 = Some cat) /\
  rev = Σ[ r <- filter (fun r => product_category_name r.2 = Some cat) (category_rows o d p) ]
          price r.1.2.
Proof.
  unfold revenue_bycategory_df.
  rewrite groupby_sum_elem, sumZ_filter_dropna_keys, sumZ_filter_map.
  unfold category_price. simpl. split; intros [Hin Hr]; split; try done.
  - apply list_elem_of_fmap in Hin as ([c v] & -> & Hin).
    apply elem_of_dropna_keys, list_elem_of_fmap in Hin as (r & [= Hc _] & Hr').
    by exists r.
  - destruct Hin as (r & Hr' & Hc). apply list_elem_of_fmap.
    exists (cat, price r.1.2). split; [done|]. apply elem_of_dropna_keys.
    apply list_elem_of_fmap. exists r. by rewrite Hc.
Qed.

(** ** Samples *)

Definition sample_orders : list order :=
  [mk_order "o1" "c1" (mk_datetime (mk_date 2023 1 1) 0 0 0)].

Definition sample_items : list order_item :=
  [mk_item "o1" "p1" 100; mk_item "o1" "p2" 250].

Definition sample_products : list product :=
  [mk_product "p1" (Some "perfumaria"); mk_product "p2" (Some "unknown")].

Lemma category_revenue_total_witness :
  NoDup (map order_id sample_orders) /\ NoDup (map product_id sample_products) /\
  (forall pr, pr ∈ sample_products -> is_Some (product_category_name pr)) /\
  sumZ snd (revenue_bycategory_df sample_orders sample_items sample_products) =
  Σ[ it <- filter (fun it => item_order_id it ∈ map order_id sample_orders /\
                             item_product_id it ∈ map product_id sample_products) sample_items ]
    price it.
Proof.
  assert (Ho : NoDup (map order_id sample_orders)) by decide_by_eval.
  assert (Hp : NoDup (map product_id sample_products)) by decide_by_eval.
  assert (Hc : forall pr, pr ∈ sample_products -> is_Some (product_category_name pr))
    by (apply Forall_forall; decide_by_eval).
  split; [exact Ho|]. split; [exact Hp|]. split; [exact Hc|].
  exact (category_revenue_total sample_orders sample_items sample_products Ho Hp Hc).
Defined.

(** Without the normalisation of line 98, the revenue of a product with
    no category is dropped by the [groupby] of line 40: 250 of the 350
    sold. *)
Lemma category_revenue_drops_missing :
  let p := [mk_product "p1" (Some "perfumaria"); mk_product "p2" None] in
  revenue_bycategory_df sample_orders sample_items p = [("perfumaria", 100)] /\
  Σ[ it <- sample_items ] price it = 350.
Proof. split; vm_compute; reflexivity. Qed.

End CategoryRevenue.
