(* ===== verification/Rank.v ===== *)
(** Rank: [Series.rank(ascending=...)] with pandas' default
    [method='average'] (lines 67-69), and the normalisation of a rank by
    the largest rank of its column (lines 71-73).

    The average rank of [x] in the column [xs] is the mean of the
    positions its ties occupy: [#{y < x} + (#{y = x} + 1) / 2] when
    ascending, with [>] when descending. [rank2] is twice the rank, an
    integer; [rank] is the float pandas stores, here a rational.
    [rank_max] is [col.max()] of the rank column, [normalize] is
    [(rank / max) * 100].

    The lemmas: a rank lies between 1 and the size of the column, it is
    strictly monotone in the value, ties share a rank, the ranks add up to
    [n (n + 1) / 2], and a normalised rank lies in [(0, 100]]. *)

From S2P Require Import Prelude.

Module Rank.

Definition count_lt (xs : list Z) (x : Z) : Z := Σ[ y <- xs ] (if decide (y < x) then 1 else 0).
Definition count_eq (xs : list Z) (x : Z) : Z := Σ[ y <- xs ] (if decide (y = x) then 1 else 0).
Definition count_gt (xs : list Z) (x : Z) : Z := Σ[ y <- xs ] (if decide (x < y) then 1 else 0).

(** Twice the average rank. *)
Definition rank2 (ascending : bool) (xs : list Z) (x : Z) : Z :=
  2 * (if ascending then count_lt xs x else count_gt xs x) + count_eq xs x + 1.

(** [col.rank(ascending=...)] at a value of the column. *)
Definition rank (ascending : bool) (xs : list Z) (x : Z) : Q :=
  inject_Z (rank2 ascending xs x) / 2.

(** [col.rank(...).max()] on a non-empty column (every rank is positive,
    so starting the maximum at 0 changes nothing). *)
Definition rank_max (ascending : bool) (xs : list Z) : Q :=
  inject_Z (fold_right Z.max 0 (map (rank2 ascending xs) xs)) / 2.

(** [(r / m) * 100]. *)
Definition normalize (r m : Q) : Q := r / m * 100.

(** ** Lemmas *)

(** Write the sums of the three counts with their functions eta-reduced,
    so that [lia] sees one atom for each. *)
Ltac eta_sums :=
  repeat match goal with
  | |- context [sumZ (fun x => ?f ?a x) ?l] => change (sumZ (fun x => f a x) l) with (sumZ (f a) l)
  | H : context [sumZ (fun x => ?f ?a x) ?l] |- _ =>
      change (sumZ (fun x => f a x) l) with (sumZ (f a) l) in H
  end.

Lemma sumZ_le {A} (f g : A -> Z) (l : list A) :
  (forall x, x ∈ l -> f x <= g x) -> sumZ f l <= sumZ g l.
Proof.
  induction l as [|x l IH]; intros H; simpl; [lia|].
  assert (f x <= g x) by (apply H; set_solver).
  assert (sumZ f l <= sumZ g l) by (apply IH; intros; apply H; set_solver). lia.
Qed.

Lemma count_split xs x : count_lt xs x + count_eq xs x + count_gt xs x = Z.of_nat (length xs).
Proof.
  unfold count_lt, count_eq, count_gt. rewrite <- sumZ_const_1, <- !sumZ_add.
  apply sumZ_ext. intros y _. repeat case_decide; lia.
Qed.

Lemma count_eq_pos xs x : x ∈ xs -> 1 <= count_eq xs x.
Proof.
  unfold count_eq. induction xs as [|y xs IH]; intros Hin; [set_solver|]. simpl.
  assert (0 <= Σ[ z <- xs ] (if decide (z = x) then 1 else 0))
    by (apply sumZ_nonneg; intros; case_decide; lia).
  apply elem_of_cons in Hin as [->|Hin]; [rewrite decide_True by done; lia|].
  specialize (IH Hin). case_decide; lia.
Qed.

Lemma counts_nonneg xs x : 0 <= count_lt xs x /\ 0 <= count_gt xs x.
Proof.
  split; apply sumZ_nonneg; intros; case_decide; lia.
Qed.

(** Every rank of a value of the column lies in [1, n]. *)
Lemma rank2_bounds asc xs x :
  x ∈ xs -> 2 <= rank2 asc xs x <= 2 * Z.of_nat (length xs).
Proof.
  intros Hin. pose proof (count_eq_pos xs x Hin). pose proof (count_split xs x).
  pose proof (counts_nonneg xs x). unfold rank2. destruct asc; lia.
Qed.

Lemma count_lt_mono xs x y :
  x < y -> count_lt xs x + count_eq xs x <= count_lt xs y.
Proof.
  intros Hxy. unfold count_lt, count_eq. rewrite <- sumZ_add.
  apply sumZ_le. intros z _. repeat case_decide; lia.
Qed.

Lemma count_gt_mono xs x y :
  x < y -> count_gt xs y + count_eq xs y <= count_gt xs x.
Proof.
  intros Hxy. unfold count_gt, count_eq. rewrite <- sumZ_add.
  apply sumZ_le. intros z _. repeat case_decide; lia.
Qed.

Lemma fold_max_ge (l : list Z) x : x ∈ l -> x <= fold_right Z.max 0 l.
Proof.
  induction l as [|y l IH]; simpl; [set_solver|].
  intros [->|Hin]%elem_of_cons; [lia|]. specialize (IH Hin). lia.
Qed.

Lemma fold_max_in (l : list Z) : l <> [] -> 0 <= fold_right Z.max 0 l ->
  (forall y, y ∈ l -> 0 < y) -> fold_right Z.max 0 l ∈ l.
Proof.
  induction l as [|y l IH]; [done|]. intros _ _ Hpos. simpl.
  destruct l as [|z l'].
  - simpl. assert (0 < y) by (apply Hpos; set_solver). rewrite Z.max_l by lia. set_solver.
  - destruct (Z.max_spec y (fold_right Z.max 0 (z :: l'))) as [[_ ->]|[_ ->]];
      [|set_solver]. apply elem_of_cons; right. apply IH; [done| |].
    + apply Z.le_trans with 1; [lia|]. assert (0 < z) by (apply Hpos; set_solver).
      pose proof (fold_max_ge (z :: l') z ltac:(set_solver)). lia.
    + intros w Hw. apply Hpos. set_solver.
Qed.

(** The largest rank of a non-empty column bounds every rank and is
    positive. *)
Lemma rank2_le_max asc xs x :
  x ∈ xs -> rank2 asc xs x <= fold_right Z.max 0 (map (rank2 asc xs) xs).
Proof. intros Hin. apply fold_max_ge. by apply list_elem_of_fmap_2. Qed.

Lemma sum_count_lt_gt xs :
  Σ[ x <- xs ] count_lt xs x = Σ[ x <- xs ] count_gt xs x.
Proof.
  unfold count_lt, count_gt. rewrite (sumZ_swap (fun x y => if decide (x < y) then 1 else 0)).
  done.
Qed.

Lemma sum_counts xs :
  Σ[ x <- xs ] (count_lt xs x + count_eq xs x + count_gt xs x) =
  Z.of_nat (length xs) * Z.of_nat (length xs).
Proof.
  rewrite (sumZ_ext _ (fun _ => Z.of_nat (length xs))) by (intros; apply count_split).
  assert (forall c (l : list Z), Σ[ _ <- l ] c = Z.of_nat (length l) * c) as Hc.
  { intros c l. induction l; simpl; lia. }
  apply Hc.
Qed.

(** A normalised rank, on integers: [(r2 / 2) / (m2 / 2) * 100 = 100 r2 / m2]. *)
Lemma normalize_rank2 r2 m2 :
  m2 <> 0 -> normalize (inject_Z r2 / 2) (inject_Z m2 / 2) == inject_Z (100 * r2) / inject_Z m2.
Proof.
  intros Hm. unfold normalize. rewrite inject_Z_mult.
  assert (~ inject_Z m2 == 0) as Hq.
  { intros H. apply Hm. apply inject_Z_injective. exact H. }
  field. exact Hq.
Qed.

Lemma inject_Z_pos m : 0 < m -> (0 < inject_Z m)%Q.
Proof. intros H. change 0%Q with (inject_Z 0). rewrite <- Zlt_Qlt. lia. Qed.

Lemma ratio_bounds r2 m2 :
  0 < r2 <= m2 -> (0 < inject_Z (100 * r2) / inject_Z m2 <= 100)%Q.
Proof.
  intros H. pose proof (inject_Z_pos m2 ltac:(lia)) as Hm. split.
  - apply Qlt_shift_div_l; [done|]. rewrite Qmult_0_l. apply inject_Z_pos. lia.
  - apply Qle_shift_div_r; [done|].
    change 100%Q with (inject_Z 100). rewrite <- inject_Z_mult, <- Zle_Qle. lia.
Qed.

Lemma ratio_lt r2 m2 b :
  0 < m2 -> r2 < b * m2 -> (inject_Z (100 * r2) / inject_Z m2 < inject_Z (100 * b))%Q.
Proof.
  intros H1 H2. apply Qlt_shift_div_r; [by apply inject_Z_pos|].
  rewrite <- inject_Z_mult, <- Zlt_Qlt. lia.
Qed.

Lemma ratio_pos r2 m2 :
  0 < r2 -> 0 < m2 -> (0 < inject_Z (100 * r2) / inject_Z m2)%Q.
Proof.
  intros H1 H2. apply Qlt_shift_div_l; [by apply inject_Z_pos|].
  rewrite Qmult_0_l. apply inject_Z_pos. lia.
Qed.

(** A ratio normalised by a positive maximum exceeds 100 exactly when
    the ratio's numerator exceeds the maximum. *)
Lemma normalize_gt_100 r m : (0 < m)%Q -> (100 < normalize r m <-> m < r)%Q.
Proof.
  intros Hm. unfold normalize. assert (r == (r / m) * m)%Q as Hr by (field; lra).
  set (t := (r / m)%Q) in *. rewrite Hr. clearbody t. split; intros H.
  - assert (1 < t)%Q by lra. nra.
  - assert (1 < t)%Q; [|lra]. destruct (Qlt_le_dec 1 t) as [|Hle]; [done|]. nra.
Qed.

Lemma list_has_max (xs : list Z) :
  xs <> [] -> exists x, x ∈ xs /\ forall y, y ∈ xs -> y <= x.
Proof.
  induction xs as [|z xs IH]; [done|]. intros _.
  destruct xs as [|w xs'].
  - exists z. split; [set_solver|]. intros y Hy. assert (y = z) by set_solver. lia.
  - destruct IH as (x & Hx & Hmax); [done|].
    exists (Z.max z x). split.
    + destruct (Z.max_spec z x) as [[_ ->]|[_ ->]]; set_solver.
    + intros y [->|Hy]%elem_of_cons; [lia|]. specialize (Hmax y Hy). lia.
Qed.

(** The largest ascending rank of a column of [n] values is at least
    [(n + 1) / 2]: the largest value has no value above it. *)
Lemma rank2_max_ge (xs : list Z) :
  xs <> [] -> Z.of_nat (length xs) + 1 <= fold_right Z.max 0 (map (rank2 true xs) xs).
Proof.
  intros Hne. destruct (list_has_max xs Hne) as (x & Hx & Hmax).
  assert (count_gt xs x = 0) as Hgt.
  { unfold count_gt. rewrite (sumZ_ext _ (fun _ => 0)); [|intros y Hy; specialize (Hmax y Hy); case_decide; lia].
    clear. induction xs; simpl; lia. }
  pose proof (count_split xs x). pose proof (counts_nonneg xs x).
  pose proof (rank2_le_max true xs x Hx). unfold rank2 in *. lia.
Qed.

(** ** Theorems *)

(** The average ranks of a column add up to [n (n + 1) / 2], in either
    direction: ties share their positions without losing any. *)
Lemma rank_sum asc xs :
  Σ[ x <- xs ] rank2 asc xs x = Z.of_nat (length xs) * (Z.of_nat (length xs) + 1).
Proof.
  pose proof (sum_counts xs) as Hs. pose proof (sum_count_lt_gt xs) as Hlg.
  rewrite !sumZ_add in Hs.
  unfold rank2. destruct asc; cbv beta iota; rewrite !sumZ_add, sumZ_mul_l, sumZ_const_1;
    eta_sums; nia.
Qed.

(** C28: a rank is strictly monotone in the value (increasing when
    ascending, decreasing when descending), ties sharing a rank. *)
Theorem rank_strict_mono (asc : bool) (xs : list Z) (x y : Z) :
  x ∈ xs -> x < y ->
  if asc then rank2 asc xs x < rank2 asc xs y else rank2 asc xs y < rank2 asc xs x.
Proof.
  intros Hx Hxy. pose proof (count_eq_pos xs x Hx).
  pose proof (count_lt_mono xs x y Hxy). pose proof (count_gt_mono xs x y Hxy).
  assert (0 <= count_eq xs y) by (apply sumZ_nonneg; intros; case_decide; lia).
  unfold rank2. destruct asc; lia.
Qed.

Lemma rank_max_pos (asc : bool) (xs : list Z) (x : Z) : x ∈ xs -> 2 <= fold_right Z.max 0 (map (rank2 asc xs) xs).
Proof.
  intros Hx. pose proof (rank2_bounds asc xs x Hx). pose proof (rank2_le_max asc xs x Hx). lia.
Qed.

Lemma rank_max_Qpos asc xs x : x ∈ xs -> (0 < rank_max asc xs)%Q.
Proof.
  intros Hx. pose proof (rank_max_pos asc xs x Hx). unfold rank_max.
  apply Qlt_shift_div_l; [lra|]. rewrite Qmult_0_l. apply inject_Z_pos. lia.
Qed.

(** A normalised rank of a value of the column lies in [(0, 100]]. *)
Theorem normalize_rank_bounds (asc : bool) (xs : list Z) (x : Z) :
  x ∈ xs -> (0 < normalize (rank asc xs x) (rank_max asc xs) <= 100)%Q.
Proof.
  intros Hx. pose proof (rank2_bounds asc xs x Hx) as Hb.
  pose proof (rank2_le_max asc xs x Hx) as Hm. pose proof (rank_max_pos asc xs x Hx).
  unfold rank, rank_max. rewrite normalize_rank2 by lia. apply ratio_bounds. lia.
Qed.

Lemma rank_strict_mono_witness :
  (1 ∈ [1; 2; 2; 5]) /\ 1 < 2 /\
  rank2 true [1; 2; 2; 5] 1 < rank2 true [1; 2; 2; 5] 2.
Proof.
  assert (Hx : (1 : Z) ∈ [1; 2; 2; 5]) by decide_by_eval.
  split; [exact Hx|]. split; [lia|].
  exact (rank_strict_mono true [1; 2; 2; 5] 1 2 Hx ltac:(lia)).
Defined.

End Rank.
