(* ===== verification/RFM.v ===== *)
(** RFM: [create_rfm_df] of [src/dashboard.py], lines 46-79, called at
    line 119 with the filtered orders; lines 223-232 average its columns
    and lines 237-257 chart its five best customers by each metric.

    The steps, one definition each: the item prices summed per order
    (line 47); the merge with the orders and then with the customers
    (lines 49-50); the purchase date of each row (line 52); the latest
    date of each [customer_unique_id] (line 54), the latest date of all
    (line 55) and the days from a customer's latest date to it (line 56);
    the count of each customer's rows after [drop_duplicates] (line 58);
    the sum of each customer's prices (line 61); the merges of the three
    tables on the customer (lines 64-65, the [order_date] column dropped);
    the three average ranks (lines 67-69), their normalisation by the
    largest rank (lines 71-73), and the weighted score (line 77; the
    float constants [0.15], [0.28], [0.57] are the rationals they
    denote). Line 73 divides the {e frequency} rank by the largest
    monetary rank, as the code does.

    The theorems: with unique order and customer ids, a customer's
    Frequency is the number of its orders with items and its Monetary
    value the price of their items; a customer's Recency is the number of
    days from the latest date of all rows to the customer's latest date
    ([is_latest] states what [max] returns), and is not negative; the
    table has one row per customer; the normalised ranks and the score
    stay within bounds, which line 73 makes (0, 200) and (0, 157) rather
    than (0, 100], and M_rank_norm exceeds 100 exactly when the
    customer's frequency rank exceeds every monetary rank, the only way
    a score exceeds 100; one order of one customer, whatever its data,
    gives the row of the spec's scenario (Recency 0, Frequency 1, the
    ranks and the score at 100). [customer_has] names the customer row an
    order merges with. *)

From S2P Require Import Prelude Calendar Frame GroupBy Tables Rank.
Import Calendar Frame GroupBy Tables Rank.

Module RFM.

(** Line 47: [order_detail.groupby('order_id')['price'].sum()]. *)
Definition order_totals (order_detail : list order_item) : list (string * Z) :=
  groupby_sum (map (fun it => (item_order_id it, price it)) order_detail).

(** A row of [RFM_data] after line 52. *)
Record rfm_data_row := mk_rfm_data_row {
  rd_order_id : string;
  rd_price : Z;
  rd_order : order;
  rd_customer : customer;
  rd_order_date : date }.

#[export] Instance rfm_data_row_eq_dec : EqDecision rfm_data_row.
Proof. solve_decision. Defined.

(** Line 49: [pd.merge(order_detail_kelompok, order_data, on='order_id')]. *)
Definition merge_totals (totals : list (string * Z)) (order_data : list order)
  : list ((string * Z) * order) :=
  merge fst order_id pair totals order_data.

(** Lines 50 and 52: the merge with the customers, and the [order_date]
    column ([.dt.date] of the purchase timestamp). *)
Definition rfm_data (order_data : list order) (order_detail : list order_item)
    (customer_data : list customer) : list rfm_data_row :=
  merge (fun r => customer_id r.2) cust_customer_id
    (fun r c => mk_rfm_data_row r.1.1 r.1.2 r.2 c (dt_date (order_purchase_timestamp r.2)))
    (merge_totals (order_totals order_detail) order_data) customer_data.

Definition uid (r : rfm_data_row) : string := customer_unique_id (rd_customer r).

(** Line 54: [groupby(by='customer_unique_id')['order_date'].max()]. *)
Definition df_recency (rd : list rfm_data_row) : list (string * date) :=
  groupby_agg date_max (map (fun r => (uid r, rd_order_date r)) rd).

(** Line 55: [df_recency['order_date'].max()]; NaT on no customer. *)
Definition recent_order (rec : list (string * date)) : option date :=
  match rec with
  | [] => None
  | (_, d) :: t => Some (fold_left date_max (map snd t) d)
  end.

(** Line 56: [(recent_order - x).days] for each customer. *)
Definition recency_df (rec : list (string * date)) : list (string * Z) :=
  match recent_order rec with
  | None => []
  | Some m => map (fun r => (r.1, days_between m r.2)) rec
  end.

(** Line 58: [RFM_data.drop_duplicates().groupby(...)['order_date'].count()]. *)
Definition frequency_df (rd : list rfm_data_row) : list (string * Z) :=
  groupby_count (map uid (drop_duplicates rd)).

(** Line 61: [groupby(by='customer_unique_id')['price'].sum()]. *)
Definition monetary_df (rd : list rfm_data_row) : list (string * Z) :=
  groupby_sum (map (fun r => (uid r, rd_price r)) rd).

(** A row of [rfm_df] after line 65. *)
Record rfm := mk_rfm {
  rfm_uid : string;
  recency : Z;
  frequency : Z;
  monetary : Z }.

(** Lines 64-65: the merges on [customer_unique_id]. *)
Definition rfm_base (rd : list rfm_data_row) : list rfm :=
  merge (fun r => r.1.1) fst (fun r m => mk_rfm r.1.1 r.1.2 r.2.2 m.2)
    (merge fst fst pair (recency_df (df_recency rd)) (frequency_df rd)) (monetary_df rd).

(** A row of the result. *)
Record rfm_out := mk_rfm_out {
  out_uid : string;
  out_recency : Z;
  out_frequency : Z;
  out_monetary : Z;
  r_rank_norm : Q;
  f_rank_norm : Q;
  m_rank_norm : Q;
  rfm_score : Q }.

(** Line 77. *)
Definition score (rn fn mn : Q) : Q := (15 # 100) * rn + (28 # 100) * fn + (57 # 100) * mn.

(** Lines 67-77 on the merged table. *)
Definition rfm_scores (rows : list rfm) : list rfm_out :=
  let R := map recency rows in
  let F := map frequency rows in
  let M := map monetary rows in
  map (fun r =>
         let rn := normalize (rank false R (recency r)) (rank_max false R) in
         let fn := normalize (rank true F (frequency r)) (rank_max true F) in
         let mn := normalize (rank true F (frequency r)) (rank_max true M) in
         mk_rfm_out (rfm_uid r) (recency r) (frequency r) (monetary r) rn fn mn (score rn fn mn))
      rows.

(** Lines 46-79. *)
Definition create_rfm_df (order_data : list order) (order_detail : list order_item)
    (customer_data : list customer) : list rfm_out :=
  rfm_scores (rfm_base (rfm_data order_data order_detail customer_data)).

(** The customer row of an order, on a customer table with unique
    [customer_id]s, satisfies [Q]. *)
Definition customer_has (c : list customer) (Q : customer -> Prop) (ord : order) : Prop :=
  match find_key cust_customer_id c (customer_id ord) with
  | Some cu => Q cu
  | None => False
  end.

#[export] Instance customer_has_dec c Q `{!forall x, Decision (Q x)} ord :
  Decision (customer_has c Q ord).
Proof. unfold customer_has. destruct (find_key _ _ _); apply _. Defined.

(** [m] is [Series.max()] of a non-empty date column [ds]: one of its
    dates, and no date of it is later. *)
Definition is_latest (ds : list date) (m : date) : Prop :=
  m ∈ ds /\ Forall (fun x => date_le x m) ds.

(** ** Lemmas *)

Lemma is_latest_unique ds a b : is_latest ds a -> is_latest ds b -> a = b.
Proof.
  intros [Ha Fa] [Hb Fb]. rewrite Forall_forall in Fa, Fb. apply date_le_antisym; auto.
Qed.

(** The fold of [max] from the first date is the latest date. *)
Lemma fold_date_max_latest w vs m : fold_left date_max vs w = m <-> is_latest (w :: vs) m.
Proof.
  assert (is_latest (w :: vs) (fold_left date_max vs w)) as Hl.
  { split; [apply fold_date_max_in|]. apply Forall_forall. intros x Hx. by apply fold_date_max_ub. }
  split; [by intros <-|]. intros H. by eapply is_latest_unique.
Qed.

Lemma aggregate_date_max vs m : aggregate date_max vs = Some m <-> is_latest vs m.
Proof.
  destruct vs as [|w vs]; [split; [done|]; intros [H _]; set_solver|].
  unfold aggregate. cbn [fold_left]. change (agg_step date_max None w) with (Some w).
  rewrite <- fold_date_max_latest.
  assert (forall vs w, fold_left (agg_step date_max) vs (Some w) = Some (fold_left date_max vs w)) as ->.
  { clear. intros vs. induction vs as [|v vs IH]; intros w; [done|]. apply IH. }
  split; [by intros [=]|by intros ->].
Qed.

Lemma recent_order_latest rec m : recent_order rec = Some m <-> is_latest (map snd rec) m.
Proof.
  destruct rec as [|[u d] t]; simpl; [split; [done|]; intros [H _]; set_solver|].
  rewrite <- fold_date_max_latest. split; [by intros [=]|by intros ->].
Qed.

(** Line 54: a customer's row of [df_recency] holds the latest date of
    its rows. *)
Lemma df_recency_latest rd u du :
  (u, du) ∈ df_recency rd <-> is_latest (map rd_order_date (filter (fun r => uid r = u) rd)) du.
Proof.
  unfold df_recency. rewrite elem_of_lookup_key by apply groupby_agg_keys_NoDup.
  rewrite groupby_agg_lookup, aggregate_date_max. unfold group_values.
  by rewrite filter_map_comm, map_map.
Qed.

Lemma df_recency_row_date rd u du : (u, du) ∈ df_recency rd -> du ∈ map rd_order_date rd.
Proof.
  intros [Hin _]%df_recency_latest. apply list_elem_of_fmap in Hin as (r & -> & [_ Hr]%list_elem_of_filter).
  by apply list_elem_of_fmap_2.
Qed.

(** Every row has a customer row of [df_recency], at least as late. *)
Lemma df_recency_covers rd r :
  r ∈ rd -> exists du, (uid r, du) ∈ df_recency rd /\ date_le (rd_order_date r) du.
Proof.
  intros Hr. unfold df_recency.
  destruct (proj2 (aggregate_Some date_max (group_values (uid r)
     (map (fun r => (uid r, rd_order_date r)) rd)))) as [du Hdu].
  { intros Hn%group_values_nil. apply Hn.
    rewrite map_map. by apply (list_elem_of_fmap_2 (fun r => uid r)). }
  exists du. rewrite <- groupby_agg_lookup, <- elem_of_lookup_key in Hdu by apply groupby_agg_keys_NoDup.
  split; [done|]. apply df_recency_latest in Hdu as [_ Hall]. rewrite Forall_forall in Hall.
  apply Hall, list_elem_of_fmap_2, list_elem_of_filter. by split.
Qed.

(** Line 55: the latest of the customers' latest dates is the latest
    date of all rows. *)
Lemma df_recency_latest_all rd m :
  is_latest (map snd (df_recency rd)) m <-> is_latest (map rd_order_date rd) m.
Proof.
  unfold is_latest. rewrite !Forall_forall. split.
  - intros [([u x] & -> & Hin)%list_elem_of_fmap Hall]. split; [by eapply df_recency_row_date|].
    intros y (r & -> & Hr)%list_elem_of_fmap. destruct (df_recency_covers rd r Hr) as (du & Hdu & Hle).
    etrans; [exact Hle|]. apply Hall, (list_elem_of_fmap_2 snd _ (uid r, du)), Hdu.
  - intros [(r & -> & Hr)%list_elem_of_fmap Hall]. destruct (df_recency_covers rd r Hr) as (du & Hdu & Hle).
    assert (du = rd_order_date r) as Heq.
    { apply date_le_antisym; [|done]. apply Hall. by eapply df_recency_row_date. }
    rewrite Heq in Hdu.
    split; [apply (list_elem_of_fmap_2 snd _ (uid r, rd_order_date r)), Hdu|].
    intros x ([u x'] & -> & Hin)%list_elem_of_fmap. apply Hall. by eapply df_recency_row_date.
Qed.

Lemma elem_of_recency_df rec u x :
  (u, x) ∈ recency_df rec <->
  exists du m, (u, du) ∈ rec /\ recent_order rec = Some m /\ x = days_between m du.
Proof.
  unfold recency_df. destruct (recent_order rec) as [m|].
  - rewrite list_elem_of_fmap. split.
    + intros ([u' du] & [= -> ->] & Hin). by exists du, m.
    + intros (du & m' & Hin & [= <-] & ->). by exists (u, du).
  - split; [set_solver|]. by intros (? & ? & _ & ? & _).
Qed.

(** The tables of lines 54-65 for one row of [RFM_data]. *)
Lemma rfm_base_single r : rfm_base [r] = [mk_rfm (uid r) 0 1 (rd_price r)].
Proof.
  unfold rfm_base, recency_df, df_recency, frequency_df, monetary_df, drop_duplicates,
    groupby_count, groupby_sum, groupby_agg.
  cbn [map fold_left gb_insert drop_duplicates_go fst snd recent_order].
  rewrite decide_False by set_solver. cbn [map fold_left gb_insert fst snd].
  rewrite merge_singleton, decide_True by done. cbn [fst snd].
  rewrite merge_singleton, decide_True by done. unfold days_between. by rewrite Z.sub_diag.
Qed.

(** A Recency is the day count between two dates of [RFM_data]. *)
Lemma recency_df_dates rd u x :
  (u, x) ∈ recency_df (df_recency rd) ->
  exists m du, m ∈ map rd_order_date rd /\ du ∈ map rd_order_date rd /\ x = days_between m du.
Proof.
  intros (du & m & Hdu & [Hm _]%recent_order_latest%df_recency_latest_all & ->)%elem_of_recency_df.
  exists m, du. split; [done|]. split; [by eapply df_recency_row_date|done].
Qed.

(** A row of the merged table of lines 64-65 has its customer's Recency. *)
Lemma rfm_base_recency rd r : r ∈ rfm_base rd -> (rfm_uid r, recency r) ∈ recency_df (df_recency rd).
Proof.
  unfold rfm_base. intros (a & m & (x & f & Hx & _ & _ & ->)%elem_of_merge & _ & _ & ->)%elem_of_merge.
  by destruct x.
Qed.

Lemma rank2_singleton asc x : rank2 asc [x] x = 2.
Proof.
  unfold rank2, count_lt, count_eq, count_gt. simpl.
  destruct asc; repeat case_decide; lia.
Qed.

(** A rank of one column normalised by the largest rank of another column
    of the same length (line 73) lies in [(0, 200)]: the rank is at most
    [n], the other column's largest rank at least [(n + 1) / 2]. *)
Lemma normalize_cross_bounds (F M : list Z) f :
  f ∈ F -> length F = length M ->
  (0 < normalize (rank true F f) (rank_max true M) < 200)%Q.
Proof.
  intros Hf Hl. pose proof (rank2_bounds true F f Hf).
  assert (M <> []) as Hne by (intros ->; destruct F; [set_solver|done]).
  pose proof (rank2_max_ge M Hne). unfold rank, rank_max.
  rewrite normalize_rank2 by lia. split; [apply ratio_pos; lia|].
  change 200%Q with (inject_Z (100 * 2)). apply ratio_lt; lia.
Qed.

Lemma NoDup_order_totals d : NoDup (order_totals d).
Proof.
  apply (NoDup_fmap_1 fst), groupby_agg_keys_NoDup.
Qed.

(** With no duplicate order or customer rows, [RFM_data] has no duplicate
    row: each is an order total, its order and its customer. *)
Lemma NoDup_rfm_data o d c : NoDup o -> NoDup c -> NoDup (rfm_data o d c).
Proof.
  intros Ho Hc. unfold rfm_data, merge_totals. apply NoDup_merge; [|apply NoDup_merge|done].
  - intros [[? ?] ?] ? [[? ?] ?] ? H. injection H. intros. by simplify_eq.
  - intros ? ? ? ? H. by injection H as -> ->.
  - apply NoDup_order_totals.
  - done.
Qed.

Lemma frequency_df_no_duplicates o d c :
  NoDup o -> NoDup c -> frequency_df (rfm_data o d c) = groupby_count (map uid (rfm_data o d c)).
Proof. intros Ho Hc. unfold frequency_df. by rewrite drop_duplicates_id by (by apply NoDup_rfm_data). Qed.

Lemma recent_order_spec rec m :
  recent_order rec = Some m -> m ∈ map snd rec /\ forall x, x ∈ map snd rec -> date_le x m.
Proof.
  destruct rec as [|[u d] t]; simpl; [done|]. intros [= <-].
  split; [apply fold_date_max_in|]. intros x Hx. by apply fold_date_max_ub.
Qed.

(** Every [order_date] of [RFM_data] is the date of an order of the range. *)
Lemma rfm_data_dates o d c r :
  r ∈ rfm_data o d c -> exists ord, ord ∈ o /\ rd_order_date r = dt_date (order_purchase_timestamp ord).
Proof.
  unfold rfm_data, merge_totals.
  intros (a & cu & (t & ord & _ & Hord & _ & ->)%elem_of_merge & _ & _ & ->)%elem_of_merge.
  by exists ord.
Qed.

(** With valid purchase timestamps, every date of [RFM_data] is valid. *)
Lemma rfm_data_valid_dates o d c :
  Forall (fun ord => valid_date (dt_date (order_purchase_timestamp ord)) = true) o ->
  forall y, y ∈ map rd_order_date (rfm_data o d c) -> valid_date y = true.
Proof.
  intros Hv y (r & -> & Hr)%list_elem_of_fmap. destruct (rfm_data_dates _ _ _ _ Hr) as (ord & Ho & ->).
  rewrite Forall_forall in Hv. by apply Hv.
Qed.

(** A value [v] of an order total, once per order of [o] with its id that
    satisfies [P]: with unique order ids, at most once. *)
Lemma sum_partners_orders (P : order -> Prop) `{!forall x, Decision (P x)} o (t : string * Z) v :
  NoDup (map order_id o) ->
  Σ[ ord <- partners fst order_id o t ] (if decide (P ord) then v else 0) =
  (if decide (t.1 ∈ map order_id (filter P o)) then 1 else 0) * v.
Proof.
  intros Hnd. rewrite <- (key_count_unique order_id) by (by apply NoDup_map_filter).
  unfold partners, key_count. rewrite sumZ_filter, sumZ_filter, Z.mul_comm, <- sumZ_mul_l.
  apply sumZ_ext. intros ord _. repeat case_decide; lia.
Qed.

(** A column of [RFM_data], summed over the rows whose customer satisfies
    [Q], is a sum over the order totals of line 47: each total counts
    once when its order has such a customer. *)
Lemma rfm_data_weighted (Q : customer -> Prop) `{!forall x, Decision (Q x)}
    (g : string * Z -> Z) o d c :
  NoDup (map order_id o) -> NoDup (map cust_customer_id c) ->
  Σ[ r <- rfm_data o d c ] (if decide (Q (rd_customer r)) then g (rd_order_id r, rd_price r) else 0) =
  Σ[ t <- order_totals d ] ((if decide (t.1 ∈ map order_id (filter (customer_has c Q) o)) then 1 else 0) * g t).
Proof.
  intros Ho Hc. unfold rfm_data, merge_totals.
  rewrite (merge_sum (fun r => customer_id r.2) cust_customer_id), (merge_sum fst order_id).
  apply sumZ_ext. intros [k v] _. rewrite <- (sum_partners_orders _ _ _ _ Ho).
  apply sumZ_ext. intros ord _. cbn [fst snd].
  rewrite partners_unique by done. cbn [fst snd].
  destruct (find_key cust_customer_id c (customer_id ord)) as [cu|] eqn:E; cbn.
  - assert (customer_has c Q ord <-> Q cu) as HQ by (unfold customer_has; by rewrite E).
    destruct (decide (Q cu)), (decide (customer_has c Q ord)); tauto || lia.
  - assert (~ customer_has c Q ord) as HQ by (unfold customer_has; rewrite E; tauto).
    by rewrite decide_False by exact HQ.
Qed.

(** The prices summed over [RFM_data] are the item prices of the orders
    whose customer is in the customer table. *)
Lemma rfm_data_price_total o d c :
  NoDup (map order_id o) -> NoDup (map cust_customer_id c) ->
  sumZ rd_price (rfm_data o d c) =
  Σ[ it <- filter (fun it => item_order_id it ∈ map order_id (orders_with_customer o c)) d ] price it.
Proof.
  intros Ho Hc. unfold rfm_data, merge_totals.
  rewrite (merge_sum_unique_right _ _ rd_price (fun r => r.1.2)) by done.
  rewrite sumZ_filter, (merge_sum fst order_id _ pair). cbn [fst snd].
  rewrite (sumZ_ext _ (fun t => (if decide (t.1 ∈ map order_id (orders_with_customer o c)) then 1 else 0) * t.2))
    by (intros t _; by apply sum_partners_orders).
  unfold order_totals.
  etrans; [exact (groupby_sum_weighted
    (fun k => if decide (k ∈ map order_id (orders_with_customer o c)) then 1 else 0) _)|].
  rewrite sumZ_map, sumZ_filter.
  apply sumZ_ext. intros it _. cbn. case_decide; lia.
Qed.

Lemma keys_recency_df rec : map fst (recency_df rec) = map fst rec.
Proof.
  unfold recency_df. destruct (recent_order rec) eqn:E.
  - by rewrite map_map.
  - by destruct rec as [|[? ?] ?].
Qed.

Lemma elem_of_groupby_keys {V} (op : V -> V -> V) rows k :
  k ∈ map fst (groupby_agg op rows) <-> k ∈ map fst rows.
Proof. apply (groupby_spec_keys op), groupby_agg_spec. Qed.

(** The customers of each of the three tables merged at lines 64-65 are
    the customers of [RFM_data]. *)
Lemma rfm_tables_keys rd u :
  (u ∈ map fst (recency_df (df_recency rd)) <-> u ∈ map uid rd) /\
  (u ∈ map fst (frequency_df rd) <-> u ∈ map uid rd) /\
  (u ∈ map fst (monetary_df rd) <-> u ∈ map uid rd).
Proof.
  unfold df_recency, frequency_df, monetary_df, groupby_count, groupby_sum.
  rewrite keys_recency_df, !elem_of_groupby_keys, !map_map. cbn.
  split_and!; [done| |done]. rewrite !list_elem_of_fmap.
  setoid_rewrite elem_of_drop_duplicates. done.
Qed.

(** The rows of [RFM_data] of customer [u] are its orders that have
    items: one per such order, when order and customer ids are unique. *)
Lemma rfm_data_count_customer o d c u :
  NoDup (map order_id o) -> NoDup (map cust_customer_id c) ->
  length (filter (fun r => uid r = u) (rfm_data o d c)) =
  length (filter (fun ord => customer_has c (fun cu => customer_unique_id cu = u) ord /\
                             order_id ord ∈ map item_order_id d) o).
Proof.
  intros Ho Hc. apply Nat2Z.inj. rewrite length_filter_sumZ.
  etrans; [exact (rfm_data_weighted (fun cu => customer_unique_id cu = u) (fun _ => 1) o d c Ho Hc)|].
  transitivity (Σ[ k <- map fst (order_totals d) ]
    (if decide (k ∈ map order_id (filter (customer_has c (fun cu => customer_unique_id cu = u)) o))
     then 1 else 0)).
  { rewrite sumZ_map. apply sumZ_ext. intros t _. lia. }
  rewrite sum_mem_swap by (apply groupby_agg_keys_NoDup || by apply NoDup_map_filter).
  rewrite sumZ_map, sumZ_indicator_filter. do 2 f_equal.
  apply list_filter_iff. intros ord. unfold order_totals, groupby_sum.
  rewrite elem_of_groupby_keys, map_map. done.
Qed.

(** A customer is in [RFM_data] exactly when one of its orders has items. *)
Lemma uid_in_rfm_data o d c u :
  NoDup (map order_id o) -> NoDup (map cust_customer_id c) ->
  u ∈ map uid (rfm_data o d c) <->
  exists ord, ord ∈ o /\ customer_has c (fun cu => customer_unique_id cu = u) ord /\
              order_id ord ∈ map item_order_id d.
Proof.
  intros Ho Hc. rewrite list_elem_of_fmap.
  transitivity (exists r, r ∈ rfm_data o d c /\ uid r = u); [naive_solver|].
  rewrite <- !length_filter_pos, rfm_data_count_customer by done.
  rewrite length_filter_pos. naive_solver.
Qed.

(** The customers of the RFM table are in strictly increasing order of
    [customer_unique_id]. *)
Lemma rfm_base_sorted rd : StronglySorted str_lt (map rfm_uid (rfm_base rd)).
Proof.
  pose proof (groupby_agg_keys_NoDup Z.add (map (fun r => (uid r, rd_price r)) rd)) as HM.
  pose proof (groupby_agg_keys_NoDup Z.add (map (fun k => (k, 1)) (map uid (drop_duplicates rd)))) as HF.
  unfold rfm_base.
  eapply StronglySorted_sublist; [apply (merge_keys_sublist _ _ _ (fun r => r.1.1)); [exact HM|done]|].
  eapply StronglySorted_sublist; [apply (merge_keys_sublist _ _ _ fst); [exact HF|done]|].
  rewrite keys_recency_df. apply groupby_agg_sorted.
Qed.

(** The scores keep the customers, in order. *)
Lemma rfm_scores_uids rows : map out_uid (rfm_scores rows) = map rfm_uid rows.
Proof. unfold rfm_scores. by rewrite map_map. Qed.

(** ** Theorems *)

(** A population of one customer gets the normalised ranks 100, 100,
    100 and the score 100 (spec sections 4.7 and 8). *)
Lemma rfm_single_customer r :
  exists o, rfm_scores [r] = [o] /\ out_uid o = rfm_uid r /\ out_recency o = recency r /\
    out_frequency o = frequency r /\ out_monetary o = monetary r /\
    r_rank_norm o == 100 /\ f_rank_norm o == 100 /\ m_rank_norm o == 100 /\
    rfm_score o == 100.
Proof.
  eexists. split; [reflexivity|]. cbn [out_uid r_rank_norm f_rank_norm m_rank_norm rfm_score].
  unfold rank, rank_max. cbn [map].
  rewrite !rank2_singleton. do 4 (split; [done|]). cbn. repeat split; reflexivity.
Qed.

(** C4: every row of the RFM table has its recency and frequency ranks
    normalised into [(0, 100]], but its monetary rank normalised only into
    [(0, 200)] (line 73 divides the frequency rank by the largest monetary
    rank), so the score lies in [(0, 157)], not in [(0, 100]]. *)
Theorem rfm_scores_bounds rows o :
  o ∈ rfm_scores rows ->
  (0 < r_rank_norm o <= 100)%Q /\ (0 < f_rank_norm o <= 100)%Q /\
  (0 < m_rank_norm o < 200)%Q /\ (0 < rfm_score o < 157)%Q.
Proof.
  unfold rfm_scores. intros (r & -> & Hr)%list_elem_of_fmap.
  cbn [r_rank_norm f_rank_norm m_rank_norm rfm_score].
  pose proof (normalize_rank_bounds false (map recency rows) (recency r)
                (list_elem_of_fmap_2 _ _ _ Hr)).
  pose proof (normalize_rank_bounds true (map frequency rows) (frequency r)
                (list_elem_of_fmap_2 _ _ _ Hr)).
  pose proof (normalize_cross_bounds (map frequency rows) (map monetary rows) (frequency r)
                (list_elem_of_fmap_2 _ _ _ Hr) ltac:(by rewrite !length_map)).
  unfold score. repeat split; lra.
Qed.

(** C5: line 73 divides a customer's Frequency rank by the largest
    Monetary rank, so its M_rank_norm exceeds 100 exactly when its
    Frequency rank is above every Monetary rank; and a score above 100
    (out of the range the spec gives) happens only then. *)
Theorem rfm_score_above_100 rows o :
  o ∈ rfm_scores rows ->
  ((100 < m_rank_norm o)%Q <->
   (rank_max true (map monetary rows) < rank true (map frequency rows) (out_frequency o))%Q) /\
  ((100 < rfm_score o)%Q -> (100 < m_rank_norm o)%Q).
Proof.
  unfold rfm_scores. intros (r & -> & Hr)%list_elem_of_fmap.
  cbn [m_rank_norm rfm_score out_frequency]. split.
  - apply normalize_gt_100, (rank_max_Qpos true _ (monetary r)), list_elem_of_fmap_2, Hr.
  - pose proof (normalize_rank_bounds false (map recency rows) (recency r)
                  (list_elem_of_fmap_2 _ _ _ Hr)).
    pose proof (normalize_rank_bounds true (map frequency rows) (frequency r)
                  (list_elem_of_fmap_2 _ _ _ Hr)).
    unfold score. lra.
Qed.

(** C9: the scenario of the spec (section 8) for any data: one order of
    one customer, with items. Its RFM row has Recency 0, Frequency 1,
    Monetary the price of the order's items, the normalised ranks 100
    and the score 100. *)
Theorem create_rfm_df_one_order ord its cu :
  its <> [] -> Forall (fun it => item_order_id it = order_id ord) its ->
  customer_id ord = cust_customer_id cu ->
  exists o, create_rfm_df [ord] its [cu] = [o] /\ out_uid o = customer_unique_id cu /\
    out_recency o = 0 /\ out_frequency o = 1 /\ out_monetary o = Σ[ it <- its ] price it /\
    r_rank_norm o == 100 /\ f_rank_norm o == 100 /\ m_rank_norm o == 100 /\ rfm_score o == 100.
Proof.
  destruct its as [|it its]; [done|]. intros _ Hall Hc.
  apply Forall_cons in Hall as [Hit Hall].
  assert (order_totals (it :: its) = [(order_id ord, Σ[ it <- it :: its ] price it)]) as Ht.
  { unfold order_totals, groupby_sum. cbn [map]. rewrite Hit, groupby_agg_one_key, fold_left_add.
    - rewrite map_map. cbn. f_equal. f_equal. unfold id. rewrite sumZ_map. done.
    - rewrite Forall_map. by eapply Forall_impl; [exact Hall|]. }
  unfold create_rfm_df, rfm_data, merge_totals. rewrite Ht, !merge_singleton.
  rewrite decide_True by done. cbn [fst snd]. rewrite merge_singleton, decide_True by done.
  rewrite rfm_base_single.
  match goal with |- context [rfm_scores [?r]] =>
    destruct (rfm_single_customer r) as (o & -> & Hu & Hr & Hf & Hm & Hn) end.
  exists o. rewrite Hu, Hr, Hf, Hm. by split.
Qed.

(** C14: the RFM table has exactly one row per customer of [RFM_data], in
    increasing order of [customer_unique_id]: none is lost or repeated by
    the merges of lines 64-65. *)
Theorem rfm_one_row_per_customer rd :
  StronglySorted str_lt (map rfm_uid (rfm_base rd)) /\
  forall u, u ∈ map rfm_uid (rfm_base rd) <-> u ∈ map uid rd.
Proof.
  pose proof (groupby_agg_keys_NoDup Z.add (map (fun r => (uid r, rd_price r)) rd)) as HM.
  pose proof (groupby_agg_keys_NoDup Z.add (map (fun k => (k, 1)) (map uid (drop_duplicates rd)))) as HF.
  split; [apply rfm_base_sorted|]. unfold rfm_base.
  intros u. rewrite elem_of_merge_key by done.
  rewrite (elem_of_merge_key fst fst (fun r : (string * Z) * (string * Z) => r.1.1)) by done.
  destruct (rfm_tables_keys rd u) as (-> & -> & ->). tauto.
Qed.

(** C13: with valid purchase dates, a customer's Recency (lines 54-56)
    is the number of days from the latest purchase date of the range to
    the latest purchase date of the customer's own orders, and it is not
    negative. *)
Theorem rfm_recency_days o d c u x :
  Forall (fun ord => valid_date (dt_date (order_purchase_timestamp ord)) = true) o ->
  ((u, x) ∈ recency_df (df_recency (rfm_data o d c)) <->
   exists du m, is_latest (map rd_order_date (filter (fun r => uid r = u) (rfm_data o d c))) du /\
     is_latest (map rd_order_date (rfm_data o d c)) m /\ x = days_between m du) /\
  ((u, x) ∈ recency_df (df_recency (rfm_data o d c)) -> 0 <= x).
Proof.
  intros Hv. rewrite elem_of_recency_df.
  setoid_rewrite df_recency_latest. setoid_rewrite recent_order_latest.
  setoid_rewrite df_recency_latest_all. split; [done|].
  intros (du & m & [Hdu _] & [Hm Hall] & ->). rewrite Forall_forall in Hall.
  assert (du ∈ map rd_order_date (rfm_data o d c)) as Hdu'.
  { apply list_elem_of_fmap in Hdu as (r & -> & [_ Hr]%list_elem_of_filter). by apply list_elem_of_fmap_2. }
  pose proof (toordinal_le du m (rfm_data_valid_dates _ _ _ Hv _ Hdu')
                (rfm_data_valid_dates _ _ _ Hv _ Hm) (Hall _ Hdu')).
  unfold days_between. lia.
Qed.

(** C12: with unique order and customer ids, the [drop_duplicates] of
    line 58 removes nothing, and a customer's Frequency is the number of
    its orders that have items, not the number of its distinct order
    dates (spec section 4.7); the customers of the table are those with
    such an order. *)
Theorem rfm_frequency_orders o d c u n :
  NoDup (map order_id o) -> NoDup (map cust_customer_id c) ->
  (u, n) ∈ frequency_df (rfm_data o d c) <->
  (exists ord, ord ∈ o /\ customer_has c (fun cu => customer_unique_id cu = u) ord /\
               order_id ord ∈ map item_order_id d) /\
  n = Z.of_nat (length (filter (fun ord => customer_has c (fun cu => customer_unique_id cu = u) ord /\
                                           order_id ord ∈ map item_order_id d) o)).
Proof.
  intros Ho Hc. rewrite frequency_df_no_duplicates by (eapply NoDup_fmap_1; eauto).
  rewrite groupby_count_elem, uid_in_rfm_data, length_filter_map by done.
  by rewrite rfm_data_count_customer.
Qed.

(** The Monetary sum of customer [u]: the prices of the items of its
    orders. *)
Lemma rfm_monetary_sum o d c u :
  NoDup (map order_id o) -> NoDup (map cust_customer_id c) ->
  Σ[ r <- filter (fun r => uid r = u) (rfm_data o d c) ] rd_price r =
  Σ[ it <- filter (fun it => item_order_id it ∈
              map order_id (filter (customer_has c (fun cu => customer_unique_id cu = u)) o)) d ]
    price it.
Proof.
  intros Ho Hc. rewrite sumZ_filter.
  etrans; [exact (rfm_data_weighted (fun cu => customer_unique_id cu = u) snd o d c Ho Hc)|].
  unfold order_totals.
  etrans; [exact (groupby_sum_weighted (fun k => if decide (k ∈ map order_id
    (filter (customer_has c (fun cu => customer_unique_id cu = u)) o)) then 1 else 0) _)|].
  rewrite sumZ_map, sumZ_filter. apply sumZ_ext. intros it _. cbn. case_decide; lia.
Qed.

(** C32: with unique order and customer ids, a customer's Monetary value
    (line 61) is the sum of the prices of the items of its orders, each
    order counted once (spec section 4.7). *)
Theorem rfm_monetary_customer o d c u m :
  NoDup (map order_id o) -> NoDup (map cust_customer_id c) ->
  (u, m) ∈ monetary_df (rfm_data o d c) <->
  (exists ord, ord ∈ o /\ customer_has c (fun cu => customer_unique_id cu = u) ord /\
               order_id ord ∈ map item_order_id d) /\
  m = Σ[ it <- filter (fun it => item_order_id it ∈
              map order_id (filter (customer_has c (fun cu => customer_unique_id cu = u)) o)) d ]
        price it.
Proof.
  intros Ho Hc. unfold monetary_df. rewrite groupby_sum_elem, map_map, sumZ_filter_map.
  cbn. rewrite <- (rfm_monetary_sum o d c u Ho Hc), <- uid_in_rfm_data by done. done.
Qed.

(** C15: with unique order and customer ids, the Monetary column adds up to
    the item prices of the orders of the range whose customer is known:
    the per-order totals of line 47 and the merges of lines 49-50 lose or
    repeat no item. *)
Theorem rfm_monetary_total o d c :
  NoDup (map order_id o) -> NoDup (map cust_customer_id c) ->
  sumZ snd (monetary_df (rfm_data o d c)) =
  Σ[ it <- filter (fun it => item_order_id it ∈ map order_id (orders_with_customer o c)) d ] price it.
Proof.
  intros Ho Hc. unfold monetary_df. rewrite groupby_sum_total, sumZ_map.
  by apply rfm_data_price_total.
Qed.

(** ** A customer with two orders on one day *)

Definition sample_customers : list customer :=
  [mk_customer "c1" "u1" "sao paulo"; mk_customer "c2" "u2" "sao paulo"].

Definition sample_day : date := mk_date 2023 1 5.

Definition sample_orders : list order :=
  [mk_order "o1" "c1" (mk_datetime sample_day 10 0 0);
   mk_order "o2" "c1" (mk_datetime sample_day 12 0 0);
   mk_order "o3" "c2" (mk_datetime sample_day 9 0 0)].

Definition sample_items : list order_item :=
  [mk_item "o1" "p1" 500; mk_item "o2" "p1" 500; mk_item "o3" "p1" 1000].

Lemma rfm_frequency_orders_witness :
  NoDup (map order_id sample_orders) /\ NoDup (map cust_customer_id sample_customers) /\
  (("u1", 2) ∈ frequency_df (rfm_data sample_orders sample_items sample_customers) <->
   (exists ord, ord ∈ sample_orders /\
      customer_has sample_customers (fun cu => customer_unique_id cu = "u1") ord /\
      order_id ord ∈ map item_order_id sample_items) /\
   2 = Z.of_nat (length (filter (fun ord =>
         customer_has sample_customers (fun cu => customer_unique_id cu = "u1") ord /\
         order_id ord ∈ map item_order_id sample_items) sample_orders))).
Proof.
  assert (Ho : NoDup (map order_id sample_orders)) by decide_by_eval.
  assert (Hc : NoDup (map cust_customer_id sample_customers)) by decide_by_eval.
  split; [exact Ho|]. split; [exact Hc|].
  exact (rfm_frequency_orders sample_orders sample_items sample_customers "u1" 2 Ho Hc).
Defined.

Lemma rfm_monetary_customer_witness :
  NoDup (map order_id sample_orders) /\ NoDup (map cust_customer_id sample_customers) /\
  (("u1", 1000) ∈ monetary_df (rfm_data sample_orders sample_items sample_customers) <->
   (exists ord, ord ∈ sample_orders /\
      customer_has sample_customers (fun cu => customer_unique_id cu = "u1") ord /\
      order_id ord ∈ map item_order_id sample_items) /\
   1000 = Σ[ it <- filter (fun it => item_order_id it ∈ map order_id
               (filter (customer_has sample_customers (fun cu => customer_unique_id cu = "u1"))
                  sample_orders)) sample_items ] price it).
Proof.
  assert (Ho : NoDup (map order_id sample_orders)) by decide_by_eval.
  assert (Hc : NoDup (map cust_customer_id sample_customers)) by decide_by_eval.
  split; [exact Ho|]. split; [exact Hc|].
  exact (rfm_monetary_customer sample_orders sample_items sample_customers "u1" 1000 Ho Hc).
Defined.

Lemma rfm_recency_days_witness :
  Forall (fun ord => valid_date (dt_date (order_purchase_timestamp ord)) = true) sample_orders /\
  ((("u1", 0) ∈ recency_df (df_recency (rfm_data sample_orders sample_items sample_customers)) <->
   exists du m, is_latest (map rd_order_date (filter (fun r => uid r = "u1")
                  (rfm_data sample_orders sample_items sample_customers))) du /\
     is_latest (map rd_order_date (rfm_data sample_orders sample_items sample_customers)) m /\
     0 = days_between m du) /\
  (("u1", 0) ∈ recency_df (df_recency (rfm_data sample_orders sample_items sample_customers)) -> 0 <= 0)).
Proof.
  assert (Hv : Forall (fun ord => valid_date (dt_date (order_purchase_timestamp ord)) = true)
                 sample_orders) by decide_by_eval.
  split; [exact Hv|]. exact (rfm_recency_days sample_orders sample_items sample_customers "u1" 0 Hv).
Defined.

Lemma rfm_monetary_total_witness :
  NoDup (map order_id sample_orders) /\ NoDup (map cust_customer_id sample_customers) /\
  sumZ snd (monetary_df (rfm_data sample_orders sample_items sample_customers)) =
  Σ[ it <- filter (fun it => item_order_id it ∈ map order_id (orders_with_customer sample_orders sample_customers))
             sample_items ] price it.
Proof.
  assert (Ho : NoDup (map order_id sample_orders)) by decide_by_eval.
  assert (Hc : NoDup (map cust_customer_id sample_customers)) by decide_by_eval.
  split; [exact Ho|]. split; [exact Hc|].
  exact (rfm_monetary_total sample_orders sample_items sample_customers Ho Hc).
Defined.

(** The table of lines 64-65 on the sample. *)
Definition sample_rfm_rows : list rfm := [mk_rfm "u1" 0 2 1000; mk_rfm "u2" 0 1 1000].

Lemma sample_rfm_base :
  rfm_base (rfm_data sample_orders sample_items sample_customers) = sample_rfm_rows.
Proof. vm_compute. reflexivity. Qed.

Lemma rfm_scores_bounds_witness :
  let o := hd (mk_rfm_out "" 0 0 0 0 0 0 0) (rfm_scores sample_rfm_rows) in
  o ∈ rfm_scores sample_rfm_rows /\
  ((0 < r_rank_norm o <= 100)%Q /\ (0 < f_rank_norm o <= 100)%Q /\
   (0 < m_rank_norm o < 200)%Q /\ (0 < rfm_score o < 157)%Q).
Proof.
  intros o. assert (Hin : o ∈ rfm_scores sample_rfm_rows).
  { unfold o. destruct (rfm_scores sample_rfm_rows) as [|x l] eqn:E;
      [vm_compute in E; discriminate E|left]. }
  split; [exact Hin|]. exact (rfm_scores_bounds sample_rfm_rows o Hin).
Defined.

(** Customer [u1] has one order date and Frequency 2. *)
Lemma sample_frequency_counts_orders :
  frequency_df (rfm_data sample_orders sample_items sample_customers) = [("u1", 2); ("u2", 1)] /\
  remove_dups (map rd_order_date (filter (fun r => uid r = "u1")
     (rfm_data sample_orders sample_items sample_customers))) = [sample_day].
Proof. split; vm_compute; reflexivity. Qed.

(** The score exceeds 100 on a concrete table: customer [u1], with the
    larger frequency and a monetary value tied with [u2]'s, gets a
    monetary normalised rank of 400/3 and a score above 100, where
    dividing its monetary rank by the largest monetary rank would give
    100 and 100. *)
Lemma rfm_monetary_norm_exceeds_100 :
  exists o, create_rfm_df sample_orders sample_items sample_customers !! 0%nat = Some o /\
    out_uid o = "u1" /\ out_frequency o = 2 /\ out_monetary o = 1000 /\
    m_rank_norm o == 400 # 3 /\ (100 < rfm_score o)%Q /\
    normalize (rank true [out_monetary o; 1000] (out_monetary o))
              (rank_max true [out_monetary o; 1000]) == 100.
Proof.
  eexists. split; [vm_compute; reflexivity|]. vm_compute. repeat split; reflexivity.
Qed.

Lemma rfm_score_above_100_witness :
  let o := hd (mk_rfm_out "" 0 0 0 0 0 0 0) (rfm_scores sample_rfm_rows) in
  o ∈ rfm_scores sample_rfm_rows /\
  (((100 < m_rank_norm o)%Q <->
    (rank_max true (map monetary sample_rfm_rows) <
     rank true (map frequency sample_rfm_rows) (out_frequency o))%Q) /\
   ((100 < rfm_score o)%Q -> (100 < m_rank_norm o)%Q)).
Proof.
  intros o. assert (Hin : o ∈ rfm_scores sample_rfm_rows).
  { unfold o. destruct (rfm_scores sample_rfm_rows) as [|x l] eqn:E;
      [vm_compute in E; discriminate E|left]. }
  split; [exact Hin|]. exact (rfm_score_above_100 sample_rfm_rows o Hin).
Defined.

(** One order of customer [u1] with two items. *)
Definition one_order : order := mk_order "o1" "c1" (mk_datetime sample_day 10 0 0).

Definition one_order_items : list order_item := [mk_item "o1" "p1" 500; mk_item "o1" "p2" 250].

Definition one_customer : customer := mk_customer "c1" "u1" "sao paulo".

Lemma create_rfm_df_one_order_witness :
  one_order_items <> [] /\ Forall (fun it => item_order_id it = order_id one_order) one_order_items /\
  customer_id one_order = cust_customer_id one_customer /\
  exists o, create_rfm_df [one_order] one_order_items [one_customer] = [o] /\
    out_uid o = customer_unique_id one_customer /\
    out_recency o = 0 /\ out_frequency o = 1 /\ out_monetary o = Σ[ it <- one_order_items ] price it /\
    r_rank_norm o == 100 /\ f_rank_norm o == 100 /\ m_rank_norm o == 100 /\ rfm_score o == 100.
Proof.
  assert (H1 : one_order_items <> []) by discriminate.
  assert (H2 : Forall (fun it => item_order_id it = order_id one_order) one_order_items) by decide_by_eval.
  assert (H3 : customer_id one_order = cust_customer_id one_customer) by reflexivity.
  split; [exact H1|]. split; [exact H2|]. split; [exact H3|].
  exact (create_rfm_df_one_order one_order one_order_items one_customer H1 H2 H3).
Defined.

End RFM.
