(* ===== verification/Dashboard.v ===== *)
(** Dashboard: the script body of [src/dashboard.py], lines 89-135 and
    221-232, as one function from the six tables and the picked date
    range to the summary the page shows, or to the exception that stops
    the script.

    The steps, in the order of the code: the purchase timestamps are
    truncated to their month (line 96; an unparsable timestamp raises);
    the products get their category names (lines 97-98); the range picked
    in [st.date_input] is unpacked (line 106; a selection that is not two
    dates raises); the orders are filtered by the range (line 113); the
    five views are computed (lines 115-119); the metrics of lines 127,
    131, 223, 227 and 231 are the count of the filtered orders, the sum of
    the monthly revenues, and the means of the three RFM columns.
    How the page shows them ([format_currency], [round]) is in Page.v.

    The theorems compose the components: on orders with distinct ids and
    calendar timestamps and a two-date range the page shows and its
    total revenue is the price of the items of the range; an inverted
    range gives empty views; the default range keeps every order; a
    partial selection raises; every Recency of the page counts the days
    between two first days of months (the month truncation of line 96
    reaches line 52). *)

From S2P Require Import Prelude Calendar Frame GroupBy SortValues Tables Normalizer DateFilter MonthlyRevenue ProductCount CitySpending CategoryRevenue Rank RFM.
Import Calendar Frame GroupBy SortValues Tables Normalizer DateFilter MonthlyRevenue ProductCount
  CitySpending CategoryRevenue RFM.

Module Dashboard.

(** The exceptions that stop the script. *)
Inductive dashboard_error :=
  | InvalidTimestamp      (* line 96: [pd.to_datetime] raises on a timestamp *)
  | IncompleteSelection.  (* line 106: unpacking a selection of one date *)

#[export] Instance dashboard_error_eq_dec : EqDecision dashboard_error.
Proof. solve_decision. Defined.

(** What the page shows. *)
Record summary := mk_summary {
  filtered_orders : list order;
  monthly_revenue : list (string * Z);
  product_order_count : list (string * Z);
  total_spent_percity : list (string * Z);
  revenue_bycategory : list (string * Z);
  rfm_table : list rfm_out;
  total_orders : Z;
  total_revenue : Z;
  avg_recency : option Q;
  avg_frequency : option Q;
  avg_monetary : option Q }.

(** [Series.mean()]: NaN, here [None], on an empty column. *)
Definition mean (xs : list Z) : option Q :=
  match xs with
  | [] => None
  | _ => Some (inject_Z (sumZ id xs) / inject_Z (Z.of_nat (length xs)))%Q
  end.

Section Views.
(** The sort of lines 14 and 27: any implementation of [sort_values]. *)
Context `{sort_inst : SortImpl}.

(** Lines 96-135 and 221-232. [monthly_revenue_df] fails only on a label
    it cannot parse back, which the loaded orders never produce
    ([dashboard_total_revenue]); the model reports it as the timestamp
    error it comes from. *)
Definition dashboard (db : dataset) (selection : list date) : dashboard_error + summary :=
  match load_orders (orders db) with
  | None => inl InvalidTimestamp
  | Some os =>
      let ps := normalize_products (products db) (translations db) in
      match unpack_range selection with
      | None => inl IncompleteSelection
      | Some (s, e) =>
          let fo := filter_orders os s e in
          match monthly_revenue_df fo (items db) with
          | None => inl InvalidTimestamp
          | Some mr =>
              let rfm := create_rfm_df fo (items db) (customers db) in
              inr (mk_summary fo mr
                     (product_order_count_df fo (items db) ps)
                     (total_spent_percity_df fo (customers db) (payments db))
                     (revenue_bycategory_df fo (items db) ps)
                     rfm
                     (Z.of_nat (length fo))
                     (sumZ snd mr)
                     (mean (map out_recency rfm))
                     (mean (map out_frequency rfm))
                     (mean (map out_monetary rfm)))
          end
      end
  end.

(** Lines 100-101 and 108-110: the widget opens on the dates of the
    earliest and the latest timestamp. On no order both are NaT; the
    model gives no date. *)
Definition default_selection (os : list order) : list date :=
  match min_timestamp os, max_timestamp os with
  | Some a, Some b => [dt_date a; dt_date b]
  | _, _ => []
  end.

(** ** Lemmas *)

(** The lemmas and theorems hold for every sort that meets the contract. *)
Context `{sort_laws : !SortImplLaws}.

Lemma printable_month_start t : printable t -> printable (month_start t).
Proof. done. Qed.

(** The loaded orders keep their ids and have printable timestamps. *)
Lemma loaded_orders raw :
  Forall (fun o => printable (order_purchase_timestamp o)) raw ->
  exists os, load_orders raw = Some os /\ map order_id os = map order_id raw /\
    Forall (fun o => printable (order_purchase_timestamp o)) os.
Proof.
  intros Hp. eexists. split; [by apply load_orders_spec|]. split; [by rewrite map_map|].
  apply Forall_fmap. eapply Forall_impl; [exact Hp|]. intros o. apply printable_month_start.
Qed.

Lemma filtered_printable os s e :
  Forall (fun o => printable (order_purchase_timestamp o)) os ->
  Forall (fun o => printable (order_purchase_timestamp o)) (filter_orders os s e).
Proof. intros H. apply Forall_forall. intros o [_ Ho]%list_elem_of_filter. by eapply Forall_forall in H. Qed.

(** On no order, every view is empty. *)
Lemma views_no_orders d c p pay :
  monthly_revenue_df [] d = Some [] /\ product_order_count_df [] d p = [] /\
  total_spent_percity_df [] c pay = [] /\ revenue_bycategory_df [] d p = [] /\
  create_rfm_df [] d c = [].
Proof.
  unfold monthly_revenue_df, product_order_count_df, sort_by_month.
  change (revenue_by_label [] d) with (@nil (string * Z)).
  change (count_by_product [] d p) with (@nil (string * Z)).
  rewrite (sort_impl_nil snd Z.le false). cbn. rewrite (sort_impl_nil fst datetime_le true).
  split_and!; try reflexivity.
  - unfold total_spent_percity_df, city_rows. by rewrite merge_nil_r.
  - unfold create_rfm_df, rfm_data, merge_totals. by rewrite merge_nil_r.
Qed.

(** Line 131 sums the revenue column of the monthly view. *)
Lemma dashboard_total_revenue_monthly db selection v :
  dashboard db selection = inr v -> total_revenue v = sumZ snd (monthly_revenue v).
Proof.
  unfold dashboard. destruct (load_orders (orders db)); [|done].
  destruct (unpack_range selection) as [[s e]|]; [|done].
  destruct (monthly_revenue_df _ _); [|done]. by intros [= <-].
Qed.

Lemma midnight_month_start t :
  t = month_start t -> midnight (dt_date t) = t.
Proof. intros Ht. rewrite Ht. reflexivity. Qed.

Lemma min_max_timestamp_Some os :
  os <> [] -> is_Some (min_timestamp os) /\ is_Some (max_timestamp os).
Proof.
  destruct os as [|o os]; [done|]. intros _. cbn.
  split; repeat case_match; eauto.
Qed.

(** ** Theorems *)

(** C26: a selection of other than two dates (the widget mid-selection)
    stops the script at the unpacking of line 106, once the timestamps
    have loaded (spec gap: the spec does not say what a partial range
    does). *)
Theorem dashboard_incomplete_selection db selection :
  is_Some (load_orders (orders db)) -> length selection <> 2%nat ->
  dashboard db selection = inl IncompleteSelection.
Proof.
  intros [os Hl] Hlen. unfold dashboard. rewrite Hl.
  destruct selection as [|a [|b [|c sel]]]; simpl in *; done.
Qed.

(** On orders with distinct ids and timestamps of the calendar, the
    orders load, and the monthly view of any range is computed, its
    revenues adding up to the items of the orders of the range. *)
Lemma loaded_monthly_revenue db s e :
  NoDup (map order_id (orders db)) ->
  Forall (fun o => printable (order_purchase_timestamp o)) (orders db) ->
  exists os mr, load_orders (orders db) = Some os /\
    monthly_revenue_df (filter_orders os s e) (items db) = Some mr /\
    sumZ snd mr =
      Σ[ it <- filter (fun it => item_order_id it ∈ map order_id (filter_orders os s e)) (items db) ]
        price it.
Proof.
  intros Hnd Hp. destruct (loaded_orders _ Hp) as (os & Hl & Hid & Hpos).
  assert (NoDup (map order_id (filter_orders os s e))) as Hfo.
  { apply NoDup_map_filter. by rewrite Hid. }
  destruct (monthly_revenue_total _ (items db) Hfo (filtered_printable _ _ _ Hpos)) as (mr & Hm & Hs).
  by exists os, mr.
Qed.

(** C1: on orders with distinct ids and timestamps of the calendar and a
    range of two dates, the page is shown: the order count is the number
    of orders of the range, and the total revenue is the price of every
    item of an order of the range, whatever the regrouping by month
    (spec section 8). *)
Theorem dashboard_total_revenue db s e :
  NoDup (map order_id (orders db)) ->
  Forall (fun o => printable (order_purchase_timestamp o)) (orders db) ->
  exists v, dashboard db [s; e] = inr v /\
    total_orders v = Z.of_nat (length (filtered_orders v)) /\
    total_revenue v =
      Σ[ it <- filter (fun it => item_order_id it ∈ map order_id (filtered_orders v)) (items db) ]
        price it.
Proof.
  intros Hnd Hp. destruct (loaded_monthly_revenue db s e Hnd Hp) as (os & mr & Hl & Hm & Hs).
  unfold dashboard. rewrite Hl. cbn [unpack_range]. rewrite Hm.
  eexists. split; [reflexivity|]. done.
Qed.

(** C10: a range that ends before it starts keeps no order, and the page
    shows empty views, an order count and a revenue of 0, and no RFM
    averages (spec section 6). *)
Theorem dashboard_inverted_range db s e :
  Forall (fun o => printable (order_purchase_timestamp o)) (orders db) ->
  date_compare e s = Lt ->
  dashboard db [s; e] =
    inr (mk_summary [] [] [] [] [] [] 0 0 None None None).
Proof.
  intros Hp Hlt. destruct (loaded_orders _ Hp) as (os & Hl & _ & _).
  unfold dashboard. rewrite Hl. cbn [unpack_range].
  rewrite filter_orders_inverted by done.
  destruct (views_no_orders (items db) (customers db)
              (normalize_products (products db) (translations db)) (payments db))
    as (-> & -> & -> & -> & ->).
  reflexivity.
Qed.

(** C11: the range the widget opens on keeps every order: the page first
    shows the whole dataset, every order counted (spec section 6). *)
Theorem dashboard_default_range db os :
  load_orders (orders db) = Some os -> os <> [] ->
  exists v, dashboard db (default_selection os) = inr v /\ filtered_orders v = os /\
    total_orders v = Z.of_nat (length (orders db)).
Proof.
  intros Hl Hne. destruct (load_orders_inv _ _ Hl) as [Hlen Hinv].
  rewrite Forall_forall in Hinv.
  destruct (min_max_timestamp_Some os Hne) as [[a Ea] [b Eb]].
  destruct (min_timestamp_spec _ _ Ea) as [(oa & -> & Ha)%list_elem_of_fmap Hmin].
  destruct (max_timestamp_spec _ _ Eb) as [(ob & -> & Hb)%list_elem_of_fmap Hmax].
  assert (filter_orders os (dt_date (order_purchase_timestamp oa))
            (dt_date (order_purchase_timestamp ob)) = os) as Hf.
  { apply filter_all. intros o Ho. unfold in_range.
    rewrite !midnight_month_start by (by apply Hinv). auto. }
  destruct (parse_labels_revenue os (items db)) as [parsed Hp].
  { apply Forall_forall. intros o Ho. by apply Hinv. }
  unfold dashboard, default_selection. rewrite Hl, Ea, Eb. cbn [unpack_range].
  rewrite Hf. unfold monthly_revenue_df at 1. rewrite Hp.
  eexists. split; [reflexivity|]. cbn. by rewrite Hlen.
Qed.

(** C18: Recency counts days between first days of months (spec section
    4.7 counts days between purchase dates): every Recency of the page is
    the number of days between the first of the month of an order of the
    range and the first of the month of another, since line 96 moved the
    timestamps to month starts before line 52 takes their dates. *)
Theorem dashboard_recency_month_starts db selection v o :
  dashboard db selection = inr v -> o ∈ rfm_table v ->
  exists o1 o2, o1 ∈ filtered_orders v /\ o2 ∈ filtered_orders v /\
    out_recency o = days_between (dt_date (month_start (order_purchase_timestamp o1)))
                                 (dt_date (month_start (order_purchase_timestamp o2))).
Proof.
  unfold dashboard. destruct (load_orders (orders db)) as [os|] eqn:Hl; [|done].
  destruct (unpack_range selection) as [[s e]|]; [|done].
  destruct (monthly_revenue_df _ _); [|done]. intros [= <-]. cbn [rfm_table filtered_orders].
  unfold create_rfm_df, rfm_scores. intros (r & -> & Hr)%list_elem_of_fmap. cbn [out_recency].
  destruct (recency_df_dates _ _ _ (rfm_base_recency _ _ Hr)) as (m & du & Hm & Hdu & ->).
  destruct (load_orders_inv _ _ Hl) as [_ Hinv]. rewrite Forall_forall in Hinv.
  assert (forall x, x ∈ map rd_order_date (rfm_data (filter_orders os s e) (items db) (customers db)) ->
    exists o', o' ∈ filter_orders os s e /\ x = dt_date (month_start (order_purchase_timestamp o'))) as Hd.
  { intros x (row & -> & Hrow)%list_elem_of_fmap. destruct (rfm_data_dates _ _ _ _ Hrow) as (o' & Ho' & ->).
    exists o'. split; [done|]. apply list_elem_of_filter in Ho' as [_ Ho'].
    by rewrite <- (proj2 (Hinv o' Ho')). }
  destruct (Hd _ Hm) as (o1 & H1 & ->), (Hd _ Hdu) as (o2 & H2 & ->). by exists o1, o2.
Qed.

End Views.

(** ** The example scenario of the spec (section 8) *)

(** One order of 2023-01-05 with one item of 50.00 (5000 centavos), paid
    in one installment, by the one customer of ["CityA"]. *)
Definition spec_db : dataset :=
  mk_dataset
    [mk_order "O1" "C1" (mk_datetime (mk_date 2023 1 5) 14 30 0)]
    [mk_item "O1" "P1" 5000]
    [mk_customer "C1" "U1" "CityA"]
    [mk_product "P1" (Some "beleza_saude")]
    [mk_translation (Some "beleza_saude") (Some "health_beauty")]
    [mk_payment "O1" 5000].

Definition january_2023 : list date := [mk_date 2023 1 1; mk_date 2023 1 31].

(** The scenario of the spec: a January range shows the January
    revenue, the product and city rows, and the one customer with
    Recency 0, Frequency 1, Monetary 50.00 and every normalised rank and
    the score at 100. *)
Theorem dashboard_spec_example :
  exists v, dashboard spec_db january_2023 = inr v /\
    monthly_revenue v = [("January 2023", 5000)] /\
    product_order_count v = [("P1", 1)] /\
    total_spent_percity v = [("CityA", 5000)] /\
    revenue_bycategory v = [("health_beauty", 5000)] /\
    map (fun o => (out_uid o, out_recency o, out_frequency o, out_monetary o)) (rfm_table v) =
      [("U1", 0, 1, 5000)] /\
    Forall (fun o => r_rank_norm o == 100 /\ f_rank_norm o == 100 /\ m_rank_norm o == 100 /\
                     rfm_score o == 100) (rfm_table v) /\
    total_orders v = 1 /\ total_revenue v = 5000.
Proof.
  eexists. split; [vm_compute; reflexivity|].
  split_and!; try (vm_compute; reflexivity).
  repeat constructor; vm_compute; reflexivity.
Qed.

Lemma dashboard_total_revenue_witness :
  NoDup (map order_id (orders spec_db)) /\
  Forall (fun o => printable (order_purchase_timestamp o)) (orders spec_db) /\
  exists v, dashboard spec_db [mk_date 2023 1 1; mk_date 2023 1 31] = inr v /\
    total_orders v = Z.of_nat (length (filtered_orders v)) /\
    total_revenue v =
      Σ[ it <- filter (fun it => item_order_id it ∈ map order_id (filtered_orders v)) (items spec_db) ]
        price it.
Proof.
  assert (Hn : NoDup (map order_id (orders spec_db))) by decide_by_eval.
  assert (Hp : Forall (fun o => printable (order_purchase_timestamp o)) (orders spec_db))
    by (repeat constructor; cbn; lia).
  split; [exact Hn|]. split; [exact Hp|].
  exact (dashboard_total_revenue spec_db (mk_date 2023 1 1) (mk_date 2023 1 31) Hn Hp).
Defined.

Lemma dashboard_inverted_range_witness :
  Forall (fun o => printable (order_purchase_timestamp o)) (orders spec_db) /\
  date_compare (mk_date 2023 1 1) (mk_date 2023 1 31) = Lt /\
  dashboard spec_db [mk_date 2023 1 31; mk_date 2023 1 1] =
    inr (mk_summary [] [] [] [] [] [] 0 0 None None None).
Proof.
  assert (Hp : Forall (fun o => printable (order_purchase_timestamp o)) (orders spec_db))
    by (repeat constructor; cbn; lia).
  assert (Hlt : date_compare (mk_date 2023 1 1) (mk_date 2023 1 31) = Lt) by reflexivity.
  split; [exact Hp|]. split; [exact Hlt|].
  exact (dashboard_inverted_range spec_db (mk_date 2023 1 31) (mk_date 2023 1 1) Hp Hlt).
Defined.

Definition spec_db_loaded : list order :=
  [mk_order "O1" "C1" (mk_datetime (mk_date 2023 1 1) 0 0 0)].

Lemma dashboard_default_range_witness :
  load_orders (orders spec_db) = Some spec_db_loaded /\ spec_db_loaded <> [] /\
  exists v, dashboard spec_db (default_selection spec_db_loaded) = inr v /\
    filtered_orders v = spec_db_loaded /\ total_orders v = Z.of_nat (length (orders spec_db)).
Proof.
  assert (Hl : load_orders (orders spec_db) = Some spec_db_loaded) by (vm_compute; reflexivity).
  assert (Hne : spec_db_loaded <> []) by discriminate.
  split; [exact Hl|]. split; [exact Hne|].
  exact (dashboard_default_range spec_db spec_db_loaded Hl Hne).
Defined.

Lemma dashboard_incomplete_selection_witness :
  is_Some (load_orders (orders spec_db)) /\ length [mk_date 2023 1 1] <> 2%nat /\
  dashboard spec_db [mk_date 2023 1 1] = inl IncompleteSelection.
Proof.
  assert (Hl : is_Some (load_orders (orders spec_db))) by (eexists; vm_compute; reflexivity).
  assert (Hlen : length [mk_date 2023 1 1] <> 2%nat) by discriminate.
  split; [exact Hl|]. split; [exact Hlen|].
  exact (dashboard_incomplete_selection spec_db [mk_date 2023 1 1] Hl Hlen).
Defined.

(** Two customers who ordered on 2023-01-31 and on 2023-02-01. *)
Definition month_edge_db : dataset := mk_dataset
  [mk_order "O1" "C1" (mk_datetime (mk_date 2023 1 31) 23 0 0);
   mk_order "O2" "C2" (mk_datetime (mk_date 2023 2 1) 1 0 0)]
  [mk_item "O1" "P1" 5000; mk_item "O2" "P1" 5000]
  [mk_customer "C1" "U1" "CityA"; mk_customer "C2" "U2" "CityA"]
  [] [] [].

Definition month_edge_range : list date := [mk_date 2023 1 1; mk_date 2023 2 28].

(** Recency counts days between month starts: the first customer gets
    Recency 31, not 1, since line 96 moved both orders to the first of
    their month before line 52 takes their dates. *)
Lemma recency_month_granularity :
  match dashboard month_edge_db month_edge_range with
  | inr v => map (fun o => (out_uid o, out_recency o)) (rfm_table v) = [("U1", 31); ("U2", 0)]
  | inl _ => False
  end.
Proof. vm_compute. reflexivity. Qed.

Lemma dashboard_recency_month_starts_witness :
  exists v o, dashboard month_edge_db month_edge_range = inr v /\ o ∈ rfm_table v /\
  exists o1 o2, o1 ∈ filtered_orders v /\ o2 ∈ filtered_orders v /\
    out_recency o = days_between (dt_date (month_start (order_purchase_timestamp o1)))
                                 (dt_date (month_start (order_purchase_timestamp o2))).
Proof.
  destruct (dashboard month_edge_db month_edge_range) as [|v] eqn:E; [vm_compute in E; discriminate E|].
  set (o := hd (mk_rfm_out "" 0 0 0 0 0 0 0) (rfm_table v)).
  assert (Hin : o ∈ rfm_table v) by (vm_compute in E; injection E as <-; vm_compute; left).
  exists v, o. split; [reflexivity|]. split; [exact Hin|].
  exact (dashboard_recency_month_starts month_edge_db month_edge_range v o E Hin).
Defined.

End Dashboard.
