(* ===== verification/Currency.v ===== *)
(** Currency: babel's [format_currency(x, "BRL", locale='es_CO')], lines
    131 and 231 of [src/dashboard.py], and the rounding the page applies
    to numbers (lines 223, 227).

    babel turns the float into a [Decimal] (of its [repr]), quantizes it
    to the two decimals of the real (ROUND_HALF_EVEN), and writes it with
    the standard currency pattern of the locale. For [es_CO] the CLDR data
    babel ships give the pattern [¤ #,##0.00]: the symbol ([R$] for BRL),
    a no-break space (U+00A0, the two bytes 0xC2 0xA0 in UTF-8), the
    integer part in groups of three separated by [.], the decimal
    separator [,] and two digits; a negative amount gets a leading [-].
    The model takes an amount in centavos (the unit of the model's
    prices), exact rather than a float.

    The integer part is written by repeated division by ten. That
    recursion is not structural, so [digits_fuel] carries fuel, and
    [digits_bound] gives enough: one step per binary digit.

    With fuel at least [digits_bound n] the expansion completes, writes
    [n], and more fuel changes nothing (a lemma: the loop is the model's
    own, in place of Python's [str] of the integer part).

    The theorem: the string babel writes, read back by [parse_cents]
    (which checks the grouping of the pattern with [groups_ok_rev]:
    exactly three digits before each separator, one to three in the
    leftmost group), is a whole number of centavos within half a centavo
    of the exact amount and, at a tie, the even one: ROUND_HALF_EVEN
    stated without its implementation. *)

From Stdlib Require Import Qround String Lqa.
From S2P Require Import Prelude Calendar.
Import Calendar.

Module Currency.

(** ** Rounding to even *)

(** [ROUND_HALF_EVEN] to an integer, on the exact value. *)
Definition round_half_even (q : Q) : Z :=
  let f := Qfloor q in
  match Qcompare (q - inject_Z f) (1 # 2) with
  | Lt => f
  | Gt => f + 1
  | Eq => if Z.even f then f else f + 1
  end.

(** ** Decimal digits *)

(** The decimal digits of [n >= 0], most significant first, in front of
    [acc]; [fuel] bounds the number of divisions. *)
Fixpoint digits_fuel (fuel : nat) (n : Z) (acc : list ascii) : list ascii :=
  match fuel with
  | O => acc
  | S f =>
      if n <? 10 then digit_char n :: acc
      else digits_fuel f (n / 10) (digit_char (n mod 10) :: acc)
  end.

(** A division by ten at least halves the number: one step per bit. *)
Definition digits_bound (n : Z) : nat := S (Z.to_nat (Z.log2 n)).

Definition show_digits (n : Z) : list ascii := digits_fuel (digits_bound n) n [].

(** The pattern's [#,##0]: the digits in groups of three from the right.
    [group3_rev] works on the digits least significant first. *)
Fixpoint group3_rev (sep : ascii) (ds : list ascii) : list ascii :=
  match ds with
  | a :: b :: c :: ((_ :: _) as rest) => a :: b :: c :: sep :: group3_rev sep rest
  | _ => ds
  end.

Definition group3 (sep : ascii) (ds : list ascii) : list ascii := rev (group3_rev sep (rev ds)).

(** ** The pattern of a locale *)

Record currency_format := mk_currency_format {
  cf_prefix : list ascii;   (* the symbol and what separates it from the number *)
  cf_group : ascii;
  cf_decimal : ascii }.

(** U+00A0 in UTF-8. *)
Definition nbsp : list ascii := [ascii_of_nat 194; ascii_of_nat 160].

(** [¤ #,##0.00] of [es_CO], with the symbol of BRL. *)
Definition es_CO_BRL : currency_format :=
  mk_currency_format (["R"; "$"]%char ++ nbsp) "."%char ","%char.

(** An amount of [c] centavos written with the pattern. *)
Definition format_cents (cf : currency_format) (c : Z) : list ascii :=
  (if c <? 0 then ["-"%char] else []) ++ cf_prefix cf ++
  group3 (cf_group cf) (show_digits (Z.abs c / 100)) ++
  [cf_decimal cf; digit_char (Z.abs c mod 100 / 10); digit_char (Z.abs c mod 10)].

(** Lines 131 and 231: an amount in centavos, quantized to the centavo,
    then written. *)
Definition format_currency (x : Q) : string :=
  string_of_list_ascii (format_cents es_CO_BRL (round_half_even x)).

(** ** Reading an amount back

    Not part of the program: the inverse the round-trip theorem uses. *)

Fixpoint digits_value_acc (acc : Z) (ds : list ascii) : option Z :=
  match ds with
  | [] => Some acc
  | c :: ds => d ← char_digit c; digits_value_acc (10 * acc + d) ds
  end.

Definition digits_value (ds : list ascii) : option Z :=
  match ds with [] => None | _ => digits_value_acc 0 ds end.

Fixpoint strip_prefix (p s : list ascii) : option (list ascii) :=
  match p, s with
  | [], _ => Some s
  | a :: p, b :: s => if decide (a = b) then strip_prefix p s else None
  | _ :: _, [] => None
  end.

(** The grouping [#,##0], read from the right of the integer part: a
    separator after exactly three characters of a group, and one to
    three characters in the leftmost group. [n] counts the characters of
    the current group. *)
Fixpoint groups_ok_rev (sep : ascii) (n : nat) (l : list ascii) : bool :=
  match l with
  | [] => bool_decide (1 <= n <= 3)%nat
  | c :: t =>
      if decide (c = sep) then bool_decide (n = 3%nat) && groups_ok_rev sep 0 t
      else bool_decide (n < 3)%nat && groups_ok_rev sep (S n) t
  end.

Definition parse_cents (cf : currency_format) (s : list ascii) : option Z :=
  let '(neg, s) := match s with "-"%char :: t => (true, t) | _ => (false, s) end in
  t ← strip_prefix (cf_prefix cf) s;
  match rev t with
  | d2 :: d1 :: dec :: rint =>
      if decide (dec = cf_decimal cf) then
        if groups_ok_rev (cf_group cf) 0 rint then
          ip ← digits_value (filter (fun c => c <> cf_group cf) (rev rint));
          f1 ← char_digit d1; f2 ← char_digit d2;
          let v := 100 * ip + 10 * f1 + f2 in Some (if neg then - v else v)
        else None
      else None
  | _ => None
  end.

(** ** Lemmas *)

(** [lia] after replacing [/] and [mod] by their defining equations. *)
Local Ltac zlia := Z.div_mod_to_equations; lia.

(** The digits stay symbolic in the proofs: unfolding [digit_char] of a
    variable only builds a large term. *)
Local Opaque digit_char.

Lemma round_half_even_bounds q :
  (q - (1 # 2) <= inject_Z (round_half_even q) <= q + (1 # 2))%Q.
Proof.
  unfold round_half_even. set (f := Qfloor q).
  pose proof (Qfloor_le q) as Hl. pose proof (Qlt_floor q) as Hu. fold f in Hl, Hu.
  destruct (Qcompare_spec (q - inject_Z f) (1 # 2)) as [E|E|E]; [destruct (Z.even f)|..];
    rewrite ?inject_Z_plus in *; change (inject_Z 1) with 1%Q in *;
    set (F := inject_Z f) in *; lra.
Qed.

(** At a tie, half a centavo from both neighbours, the even one. *)
Lemma round_half_even_tie q :
  (inject_Z (round_half_even q) - q == 1 # 2 \/ q - inject_Z (round_half_even q) == 1 # 2)%Q ->
  Z.even (round_half_even q) = true.
Proof.
  unfold round_half_even. set (f := Qfloor q).
  pose proof (Qfloor_le q) as Hl. pose proof (Qlt_floor q) as Hu. fold f in Hl, Hu.
  rewrite inject_Z_plus in Hu. change (inject_Z 1) with 1%Q in Hu.
  destruct (Qcompare_spec (q - inject_Z f) (1 # 2)) as [E|E|E].
  - destruct (Z.even f) eqn:Ev; [done|]. intros _. by rewrite Z.even_add, Ev.
  - set (F := inject_Z f) in *. intros [H|H]; exfalso; lra.
  - rewrite inject_Z_plus. change (inject_Z 1) with 1%Q. set (F := inject_Z f) in *.
    intros [H|H]; exfalso; lra.
Qed.

Lemma round_half_even_Z c : round_half_even (inject_Z c) = c.
Proof.
  unfold round_half_even. rewrite Qfloor_Z.
  destruct (Qcompare_spec (inject_Z c - inject_Z c) (1 # 2)) as [E|E|E];
    [exfalso; lra|done|exfalso; lra].
Qed.

Lemma digits_fuel_app f n acc : digits_fuel f n acc = digits_fuel f n [] ++ acc.
Proof.
  revert n acc. induction f as [|f IH]; intros n acc; simpl; [done|].
  destruct (n <? 10); [done|]. rewrite IH, (IH _ [_]). by rewrite <- app_assoc.
Qed.

(** A division by ten takes a bit off the number. *)
Lemma digits_bound_div10 n : 10 <= n -> (digits_bound (n / 10) < digits_bound n)%nat.
Proof.
  intros Hn. unfold digits_bound.
  assert (Z.log2 (n / 10) < Z.log2 n).
  { apply Z.log2_lt_pow2; [apply Z.div_str_pos; lia|].
    destruct (Z.log2_spec n) as [Hlo Hhi]; [lia|].
    rewrite Z.pow_succ_r in Hhi by apply Z.log2_nonneg.
    pose proof (Z.pow_pos_nonneg 2 (Z.log2 n) ltac:(lia) (Z.log2_nonneg n)).
    pose proof (Z.mul_div_le n 10 ltac:(lia)).
    set (p := 2 ^ Z.log2 n) in *. clearbody p. lia. }
  pose proof (Z.log2_nonneg (n / 10)). lia.
Qed.

Lemma digits_bound_pos n : (1 <= digits_bound n)%nat.
Proof. unfold digits_bound. lia. Qed.

Lemma digit_char_neq d c : 0 <= d <= 9 -> char_digit c = None -> digit_char d <> c.
Proof. intros Hd Hc <-. by rewrite char_digit_digit_char in Hc. Qed.

(** Every character of the expansion of [n >= 0] is a decimal digit. *)
Lemma digits_fuel_digits f n acc c :
  0 <= n -> c ∈ digits_fuel f n acc -> c ∈ acc \/ exists d, 0 <= d <= 9 /\ c = digit_char d.
Proof.
  revert n acc. induction f as [|f IH]; intros n acc Hn; simpl; [auto|].
  destruct (Z.ltb_spec n 10).
  - intros [->|]%elem_of_cons; [right; exists n; split; [zlia|done]|auto].
  - intros [Hc|[d Hd]]%IH; [|by right; exists d|zlia].
    apply elem_of_cons in Hc as [->|]; [right; exists (n mod 10); split; [zlia|done]|auto].
Qed.

Lemma digits_value_acc_app a l1 l2 :
  digits_value_acc a (l1 ++ l2) = digits_value_acc a l1 ≫= fun v => digits_value_acc v l2.
Proof.
  revert a. induction l1 as [|c l1 IH]; intros a; simpl; [done|].
  destruct (char_digit c); simpl; [apply IH|done].
Qed.

Lemma digits_value_snoc l c :
  l <> [] -> digits_value (l ++ [c]) = digits_value l ≫= fun v => digits_value_acc v [c].
Proof.
  destruct l as [|a l]; [done|]. intros _. exact (digits_value_acc_app 0 (a :: l) [c]).
Qed.

(** More fuel than [digits_bound] changes nothing. *)
Lemma digits_fuel_stable f1 f2 n :
  0 <= n -> (digits_bound n <= f1)%nat -> (digits_bound n <= f2)%nat ->
  digits_fuel f1 n [] = digits_fuel f2 n [].
Proof.
  revert f2 n. induction f1 as [|f1 IH]; intros [|f2] n Hn H1 H2;
    pose proof (digits_bound_pos n); try lia.
  simpl. destruct (Z.ltb_spec n 10); [done|].
  pose proof (digits_bound_div10 n ltac:(lia)).
  rewrite digits_fuel_app, (digits_fuel_app f2). f_equal.
  apply IH; [zlia|lia|lia].
Qed.

(** With enough fuel the expansion writes [n]. *)
Lemma digits_fuel_value f n :
  0 <= n -> (digits_bound n <= f)%nat -> digits_value (digits_fuel f n []) = Some n.
Proof.
  revert n. induction f as [|f IH]; intros n Hn Hf; pose proof (digits_bound_pos n); [lia|].
  simpl. destruct (Z.ltb_spec n 10).
  - simpl. rewrite char_digit_digit_char by lia. reflexivity.
  - pose proof (digits_bound_div10 n ltac:(lia)).
    rewrite digits_fuel_app.
    specialize (IH (n / 10) ltac:(zlia) ltac:(lia)).
    rewrite digits_value_snoc by (intros E; rewrite E in IH; discriminate).
    rewrite IH. simpl. rewrite char_digit_digit_char by zlia. simpl. f_equal. zlia.
Qed.

Lemma filter_rev_ascii (P : ascii -> Prop) `{!forall x, Decision (P x)} (l : list ascii) :
  filter P (rev l) = rev (filter P l).
Proof.
  induction l as [|a l IH]; [done|]. cbn [rev].
  rewrite filter_app, IH, !filter_cons, filter_nil.
  case_decide; cbn [rev]; [done|by rewrite app_nil_r].
Qed.

(** Taking the separators out of the grouped digits gives the digits. *)
Lemma filter_group3_rev sep ds :
  sep ∉ ds -> filter (fun c => c <> sep) (group3_rev sep ds) = ds.
Proof.
  induction ds as [ds IH] using (induction_ltof1 _ (@length _)); unfold ltof in IH.
  intros Hs. destruct ds as [|a [|b [|c [|d rest]]]];
    [apply filter_all; set_solver..|].
  change (group3_rev sep (a :: b :: c :: d :: rest))
    with (a :: b :: c :: sep :: group3_rev sep (d :: rest)).
  rewrite !filter_cons_True by set_solver. rewrite filter_cons_False by (intros []; reflexivity).
  rewrite IH.
  - reflexivity.
  - simpl. lia.
  - intros Hin. apply Hs. by do 3 right.
Qed.

Lemma filter_group3 sep ds : sep ∉ ds -> filter (fun c => c <> sep) (group3 sep ds) = ds.
Proof.
  intros Hs. unfold group3. rewrite filter_rev_ascii, filter_group3_rev, rev_involutive; [done|].
  intros Hin. apply Hs. by rewrite list_elem_of_In, <- in_rev, <- list_elem_of_In in Hin.
Qed.

(** The grouping written by [group3_rev] is the one the pattern allows. *)
Lemma groups_ok_group3_rev sep ds :
  ds <> [] -> sep ∉ ds -> groups_ok_rev sep 0 (group3_rev sep ds) = true.
Proof.
  induction ds as [ds IH] using (induction_ltof1 _ (@length _)); unfold ltof in IH.
  intros Hne Hs. destruct ds as [|a [|b [|c [|d rest]]]]; [done| | | |].
  1-3: cbn; by repeat rewrite decide_False by set_solver.
  change (group3_rev sep (a :: b :: c :: d :: rest))
    with (a :: b :: c :: sep :: group3_rev sep (d :: rest)).
  cbn [groups_ok_rev]. do 3 rewrite decide_False by set_solver. rewrite decide_True by done.
  repeat rewrite bool_decide_true by lia. cbn [andb].
  apply IH; [simpl; lia|done|]. set_solver.
Qed.

Lemma groups_ok_group3 sep ds :
  ds <> [] -> sep ∉ ds -> groups_ok_rev sep 0 (rev (group3 sep ds)) = true.
Proof.
  intros Hne Hs. unfold group3. rewrite rev_involutive. apply groups_ok_group3_rev.
  - intros E. apply Hne. apply (f_equal (@rev _)) in E. by rewrite rev_involutive in E.
  - intros Hin. apply Hs. by rewrite list_elem_of_In, in_rev, <- list_elem_of_In.
Qed.

Lemma strip_prefix_app p s : strip_prefix p (p ++ s) = Some s.
Proof. induction p as [|a p IH]; simpl; [done|]. by rewrite decide_True. Qed.

(** The expansion has no group separator. *)
Lemma show_digits_no_sep n : 0 <= n -> "."%char ∉ show_digits n.
Proof.
  intros Hn Hin. apply digits_fuel_digits in Hin as [Hin|(d & Hd & Hc)]; [set_solver| |done].
  exact (digit_char_neq d "."%char Hd eq_refl (eq_sym Hc)).
Qed.

(** Reading back the string written for [c] centavos gives [c]. *)
Lemma parse_format_cents c : parse_cents es_CO_BRL (format_cents es_CO_BRL c) = Some c.
Proof.
  unfold format_cents. set (a := Z.abs c).
  assert (Hv : digits_value (show_digits (a / 100)) = Some (a / 100)).
  { apply digits_fuel_value; [zlia|lia]. }
  assert (HG : filter (fun ch => ch <> "."%char) (group3 "."%char (show_digits (a / 100))) =
               show_digits (a / 100)).
  { apply filter_group3, show_digits_no_sep. zlia. }
  assert (HGok : groups_ok_rev "."%char 0 (rev (group3 "."%char (show_digits (a / 100)))) = true).
  { apply groups_ok_group3; [intros E; rewrite E in Hv; discriminate|apply show_digits_no_sep; zlia]. }
  set (G := group3 _ _) in *. clearbody G.
  destruct (Z.ltb_spec c 0); cbn; rewrite !decide_True by done; cbn;
    rewrite rev_app_distr; cbn; rewrite decide_True by done;
    rewrite HGok, rev_involutive, HG, Hv; cbn;
    rewrite !char_digit_digit_char by zlia; cbn; f_equal; zlia.
Qed.

(** The expansion of an amount's integer part terminates within
    [digits_bound n] divisions by ten: with at least that much fuel it
    completes, more fuel changes nothing, and the digits it writes are
    those of [n]. *)
Lemma show_digits_terminates n fuel :
  0 <= n -> (digits_bound n <= fuel)%nat ->
  digits_fuel fuel n [] = show_digits n /\ digits_value (show_digits n) = Some n.
Proof.
  intros Hn Hf. split; [apply digits_fuel_stable; [done|done|lia]|].
  by apply digits_fuel_value.
Qed.

(** ** Theorems *)

(** C16: the amount [format_currency] shows (lines 131, 231), read back
    with the grouping of the pattern checked, is a whole number of
    centavos within half a centavo of the exact amount, and the even one
    when the amount lies half-way between two (ROUND_HALF_EVEN); so two
    amounts of whole centavos are shown alike only when they are equal. *)
Theorem format_currency_roundtrip x c1 c2 :
  (exists c, parse_cents es_CO_BRL (list_ascii_of_string (format_currency x)) = Some c /\
     (x - (1 # 2) <= inject_Z c <= x + (1 # 2))%Q /\
     ((inject_Z c - x == 1 # 2)%Q \/ (x - inject_Z c == 1 # 2)%Q -> Z.even c = true)) /\
  (format_currency (inject_Z c1) = format_currency (inject_Z c2) -> c1 = c2).
Proof.
  split.
  - exists (round_half_even x). unfold format_currency.
    rewrite list_ascii_of_string_of_list_ascii, parse_format_cents.
    split; [done|]. split; [apply round_half_even_bounds|apply round_half_even_tie].
  - intros E%(f_equal (fun s => parse_cents es_CO_BRL (list_ascii_of_string s))).
    unfold format_currency in E.
    rewrite !list_ascii_of_string_of_list_ascii, !parse_format_cents, !round_half_even_Z in E.
    by injection E.
Qed.

(** ** Witness and examples *)

(** R$ 1.234.567,89 for 123456789 centavos. *)
Lemma format_currency_sample :
  list_ascii_of_string (format_currency (123456789 # 1)) =
  ["R"; "$"]%char ++ nbsp ++ list_ascii_of_string "1.234.567,89".
Proof. vm_compute. reflexivity. Qed.

(** Half a centavo goes to the even centavo: 120.5 to 1,20 and 121.5 to
    1,22. *)
Lemma format_currency_half_even :
  list_ascii_of_string (format_currency (241 # 2)) = ["R"; "$"]%char ++ nbsp ++ list_ascii_of_string "1,20" /\
  list_ascii_of_string (format_currency (243 # 2)) = ["R"; "$"]%char ++ nbsp ++ list_ascii_of_string "1,22".
Proof. split; vm_compute; reflexivity. Qed.

End Currency.
