(* ===== verification/Page.v ===== *)
(** Page: what the script of [src/dashboard.py] puts on the page, lines
    103-111 and 121-267, as the sequence of Streamlit elements it emits.

    Streamlit runs the script from the top and draws each element as the
    script reaches it; an exception stops the run and is shown below what
    was drawn. [render] returns the elements and the exception, if any:
    none when line 96 raises; the sidebar of lines 103-111 when the date
    selection raises (line 106); the whole page otherwise.

    A chart is modelled by the data it draws: the points of the line plot
    of lines 136-148 with its colour, and for each [sns.barplot] its title
    and its bars, one per row of the data passed in, in the order of the
    rows, the i-th bar drawn in the i-th colour of the palette. Sizes,
    fonts, tick rotation and axis placement are styling and are not
    modelled. The metrics of lines 131 and 231 show the string of
    [format_currency] (Currency.v). [round] (lines 223, 227) is modelled
    as round half to even on the exact mean (numpy rounds the float
    [x * 10 ^ d]).

    The theorems: the bar charts of the product, city and category
    rankings show the best rows of their table (each row left out is
    below every bar) and highlight a row with the largest value, the
    city and category charts with ten and fifteen bars (fewer on a
    shorter table); the chart of the worst products shows the rows at
    the bottom of the ranking and highlights the best of them; the RFM
    panels show the five customers with the lowest Recency and the
    highest Frequency and Monetary; every bar chart of the page draws one
    bar per row with a colour of its own palette and distinct labels;
    the rounded means are within half a unit of the last digit of the
    exact mean; and, composing Dashboard.v and Currency.v, a run on
    well-formed orders with a two-date range draws the whole page, with
    the number of orders of the range as "Total orders" and a "Total
    Revenue" string that reads back as the revenue of the range, and on
    every page that shows the points of the line plot add up to what
    "Total Revenue" reads back as. What a run that raises draws is a
    lemma ([render_error_paths]). *)

From Stdlib Require Import Qround Qabs Lqa.
From Stdlib Require String.
From S2P Require Import Prelude Calendar Frame GroupBy SortValues Tables Normalizer DateFilter MonthlyRevenue ProductCount CitySpending CategoryRevenue Rank RFM Dashboard Currency.
Import Calendar Frame GroupBy SortValues Tables Normalizer DateFilter MonthlyRevenue ProductCount
  CitySpending CategoryRevenue RFM Dashboard Currency.
#[local] Open Scope Z_scope.


Module Page.

(** ** Elements *)

(** The value of [st.metric]. *)
Inductive metric_value :=
  | MCount (n : Z)             (* line 128: [order_id.count()] *)
  | MNumber (x : option Q)     (* lines 224, 228: a rounded mean; NaN as [None] *)
  | MCurrency (s : option string). (* lines 131-132, 231-232: [format_currency]; NaN as [None] *)

(** A bar of [sns.barplot]: its category, its length and its colour. *)
Record bar := mk_bar { bar_label : string; bar_value : Z; bar_color : string }.

Inductive chart :=
  | LinePlot (xs : list string) (ys : list Z) (color : string)  (* [ax.plot] *)
  | BarPlot (title : string) (bars : list bar).                 (* [sns.barplot] *)

Inductive element :=
  | Image (url : string)                                        (* [st.image] *)
  | DateInput (label : string) (min_value max_value : option datetime)
              (value : list date)                               (* [st.date_input] *)
  | Header (text : string)                                      (* [st.header] *)
  | Subheader (text : string)                                   (* [st.subheader] *)
  | Metric (label : string) (value : metric_value)              (* [st.metric] *)
  | Pyplot (panels : list chart).                               (* [st.pyplot(fig)] *)

Definition chart_bars (c : chart) : list bar :=
  match c with LinePlot _ _ _ => [] | BarPlot _ bs => bs end.

Definition element_charts (e : element) : list chart :=
  match e with Pyplot cs => cs | _ => [] end.

(** ** pandas and seaborn *)

(** [df.head(n)]. *)
Definition df_head {A} (n : nat) (l : list A) : list A := take n l.

(** [df.tail(n)]: the last [n] rows, all of them when there are fewer. *)
Definition df_tail {A} (n : nat) (l : list A) : list A := drop (length l - n) l.

(** [sns.barplot(x=value, y=label, data=rows, palette=colors)]: a bar per
    row, in the order of the rows, the i-th in the i-th colour. *)
Definition barplot (title : string) (palette : list string) (rows : list (string * Z)) : chart :=
  BarPlot title (zip_with (fun r c => mk_bar r.1 r.2 c) rows palette).

(** Python's [round(x, d)] on the exact value: round half to even of
    [x * 10 ^ d], divided back. *)
Definition round_to (digits : nat) (q : Q) : Q :=
  let s := inject_Z (10 ^ Z.of_nat digits) in
  inject_Z (round_half_even (q * s)) / s.

(** The colour of lines 142, 154, 182, 201 and 235. *)
Definition highlight : string := "#90CAF9".

(** [c] draws the rows of [t] with the largest values: a row whose label
    has no bar is below every bar, and the first bar, drawn in the
    highlight colour, is at least every row. *)
Definition shows_top (c : chart) (t : list (string * Z)) : Prop :=
  (forall b r, b ∈ chart_bars c -> r ∈ t -> r.1 ∉ map bar_label (chart_bars c) ->
               r.2 <= bar_value b) /\
  (forall b rest, chart_bars c = b :: rest ->
               bar_color b = highlight /\ forall r, r ∈ t -> r.2 <= bar_value b).

(** [shows_top] depends on the rows of the table, not on their order. *)
#[export] Instance shows_top_proper : Proper (eq ==> (≡ₚ) ==> iff) shows_top.
Proof.
  intros c ? <- t1 t2 P. unfold shows_top.
  by setoid_rewrite P.
Qed.

(** A chart that draws each category once: seaborn would draw the rows
    of a repeated category as one bar, and the line plot would put two
    points at one position of its axis. *)
Definition chart_wf (c : chart) : Prop :=
  match c with
  | LinePlot xs ys _ => length xs = length ys /\ NoDup xs
  | BarPlot _ bs => NoDup (map bar_label bs)
  end.

(** ** The charts *)

(** Lines 154, 182-183, 201-203 and 235. *)
Definition product_palette : list string :=
  ["#90CAF9"; "#D3D3D3"; "#D3D3D3"; "#D3D3D3"; "#D3D3D3"].

Definition city_palette : list string :=
  ["#90CAF9"; "#D3D3D3"; "#D3D3D3"; "#D3D3D3"; "#D3D3D3";
   "#D3D3D3"; "#D3D3D3"; "#D3D3D3"; "#D3D3D3"; "#D3D3D3"].

Definition category_palette : list string :=
  ["#90CAF9"; "#D3D3D3"; "#D3D3D3"; "#D3D3D3"; "#D3D3D3";
   "#D3D3D3"; "#D3D3D3"; "#D3D3D3"; "#D3D3D3"; "#D3D3D3";
   "#D3D3D3"; "#D3D3D3"; "#D3D3D3"; "#D3D3D3"; "#D3D3D3"].

Definition rfm_palette : list string :=
  ["#90CAF9"; "#90CAF9"; "#90CAF9"; "#90CAF9"; "#90CAF9"].

Section Charts.
(** The sorts of lines 187, 207, 237, 247 and 257, with those of the views. *)
Context `{sort_inst : SortImpl}.

(** Lines 136-148. *)
Definition monthly_chart (monthly_revenue : list (string * Z)) : chart :=
  LinePlot (map fst monthly_revenue) (map snd monthly_revenue) "#90CAF9".

(** Lines 152-163. *)
Definition best_product_chart (product_order_count : list (string * Z)) : chart :=
  barplot "Best Performing Product" product_palette (df_head 5 product_order_count).

(** Lines 165-177. *)
Definition worst_product_chart (product_order_count : list (string * Z)) : chart :=
  barplot "Worst Performing Product" product_palette (df_tail 5 product_order_count).

(** Lines 181-196. *)
Definition city_chart (total_spent_percity : list (string * Z)) : chart :=
  barplot "Spending per City" city_palette
    (df_head 10 (sort_impl snd Z.le false total_spent_percity)).

(** Lines 200-216. *)
Definition category_chart (revenue_bycategory : list (string * Z)) : chart :=
  barplot "Revenue per Category" category_palette
    (df_head 15 (sort_impl snd Z.le false revenue_bycategory)).

(** Lines 237, 247 and 257: five customers of the RFM table sorted by a
    column, one bar each. *)
Definition rfm_panel (title : string) (col : rfm_out -> Z) (ascending : bool)
    (rfm_df : list rfm_out) : chart :=
  barplot title rfm_palette
    (map (fun r => (out_uid r, col r)) (df_head 5 (sort_impl col Z.le ascending rfm_df))).

(** Lines 234-267: one figure of three panels. *)
Definition rfm_charts (rfm_df : list rfm_out) : list chart :=
  [rfm_panel "By Recency (days)" out_recency true rfm_df;
   rfm_panel "By Frequency" out_frequency false rfm_df;
   rfm_panel "By Monetary" out_monetary false rfm_df].

(** ** The page *)

(** Lines 103-111. *)
Definition logo : string :=
  "https://anyhub.com.br/wp-content/uploads/2023/10/logo_olist_d7309b5f20.png".

Definition sidebar (os : list order) : list element :=
  [Image logo;
   DateInput "Rentang Waktu" (min_timestamp os) (max_timestamp os) (default_selection os)].

(** Lines 121-267. *)
Definition main_page (v : summary) : list element :=
  [Header "OList Dashboard :sparkles:";
   Subheader "Summary";
   Metric "Total orders" (MCount (total_orders v));
   Metric "Total Revenue" (MCurrency (Some (format_currency (inject_Z (total_revenue v)))));
   Subheader "Monthly Revenue";
   Pyplot [monthly_chart (monthly_revenue v)];
   Subheader "Product Performance";
   Pyplot [best_product_chart (product_order_count v)];
   Pyplot [worst_product_chart (product_order_count v)];
   Subheader "City Spending";
   Pyplot [city_chart (total_spent_percity v)];
   Subheader "Category Revenue";
   Pyplot [category_chart (revenue_bycategory v)];
   Subheader "Best Customer Based on RFM Parameters";
   Metric "Average Recency (days)" (MNumber (round_to 1 <$> avg_recency v));
   Metric "Average Frequency" (MNumber (round_to 2 <$> avg_frequency v));
   Metric "Average Monetary" (MCurrency (format_currency <$> avg_monetary v));
   Pyplot (rfm_charts (rfm_table v))].

(** A run of the script: the elements drawn, and the exception that
    stopped it. Line 96 raises before anything is drawn; the selection
    and the views raise after the sidebar. *)
Definition render (db : dataset) (selection : list date) : list element * option dashboard_error :=
  match load_orders (orders db) with
  | None => ([], Some InvalidTimestamp)
  | Some os =>
      match dashboard db selection with
      | inl e => (sidebar os, Some e)
      | inr v => (sidebar os ++ main_page v, None)
      end
  end.

(** ** Lemmas *)

(** The theorems hold for every sort that meets the contract. *)
Context `{sort_laws : !SortImplLaws}.

(** A bar is a row of the data. *)
Lemma elem_of_barplot title pal rows b :
  b ∈ chart_bars (barplot title pal rows) -> (bar_label b, bar_value b) ∈ rows.
Proof.
  unfold barplot; simpl. revert pal.
  induction rows as [|r rows IH]; intros [|c pal]; simpl; try set_solver.
  intros [->|Hb]%elem_of_cons; [destruct r; set_solver|]. apply elem_of_cons. right. by eapply IH.
Qed.

(** While the palette lasts, seaborn draws one bar per row. *)
Lemma barplot_rows title pal rows :
  (length rows <= length pal)%nat ->
  map (fun b => (bar_label b, bar_value b)) (chart_bars (barplot title pal rows)) = rows.
Proof.
  unfold barplot; simpl. revert pal.
  induction rows as [|[l v] rows IH]; intros [|c pal] Hl; simpl in *; [done|done|lia|].
  f_equal. apply IH. lia.
Qed.

Lemma barplot_labels title pal rows :
  (length rows <= length pal)%nat -> map bar_label (chart_bars (barplot title pal rows)) = map fst rows.
Proof. intros Hl. rewrite <- (barplot_rows title pal rows Hl) at 2. by rewrite map_map. Qed.

(** A row whose label has no bar is not among the rows drawn. *)
Lemma barplot_left_out title pal rows r :
  (length rows <= length pal)%nat -> r.1 ∉ map bar_label (chart_bars (barplot title pal rows)) -> r ∉ rows.
Proof.
  intros Hl Hn Hr. apply Hn. rewrite barplot_labels by done. by apply list_elem_of_fmap_2.
Qed.

(** [head(k)] of a sorted table: a row left out comes after every row kept. *)
Lemma head_sorted_top {A} (col : A -> Z) asc t k x r :
  x ∈ df_head k (sort_impl col Z.le asc t) -> r ∈ t ->
  r ∉ df_head k (sort_impl col Z.le asc t) -> key_rel Z.le asc (col x) (col r).
Proof.
  intros Hx Hr Hn. apply (sort_impl_take_drop col Z.le asc t k x r Hx).
  rewrite <- (sort_impl_perm col Z.le asc t), <- (take_drop k (sort_impl col Z.le asc t)) in Hr.
  apply elem_of_app in Hr as [Hr|Hr]; [by destruct Hn|done].
Qed.

(** [tail(k)] of a sorted table: a row left out comes before every row
    kept, and the first row kept before the other rows kept. *)
Lemma tail_sorted_bottom {A} (col : A -> Z) asc t k x r :
  x ∈ df_tail k (sort_impl col Z.le asc t) -> r ∈ t ->
  r ∉ df_tail k (sort_impl col Z.le asc t) -> key_rel Z.le asc (col r) (col x).
Proof.
  unfold df_tail. set (m := (length (sort_impl col Z.le asc t) - k)%nat). intros Hx Hr Hn.
  apply (sort_impl_take_drop col Z.le asc t m r x); [|done].
  rewrite <- (sort_impl_perm col Z.le asc t), <- (take_drop m (sort_impl col Z.le asc t)) in Hr.
  apply elem_of_app in Hr as [Hr|Hr]; [done|by destruct Hn].
Qed.

Lemma tail_sorted_first {A} (col : A -> Z) asc t k x rest y :
  df_tail k (sort_impl col Z.le asc t) = x :: rest -> y ∈ rest -> key_rel Z.le asc (col x) (col y).
Proof.
  unfold df_tail. intros [Hx Hd]%drop_cons_split Hy.
  apply (sort_impl_take_drop col Z.le asc t _ x y Hx). by rewrite Hd.
Qed.

(** The bar chart of the first [k] rows of a table sorted by decreasing
    value, with a palette of at least [k] colours that starts with the
    highlight colour, shows the top of the table. *)
Lemma barplot_head_top title pal k t :
  (k <= length (highlight :: pal))%nat ->
  shows_top (barplot title (highlight :: pal) (df_head k (sort_impl snd Z.le false t))) t.
Proof.
  intros Hk. assert (length (df_head k (sort_impl snd Z.le false t)) <= length (highlight :: pal))%nat.
  { unfold df_head. rewrite length_take. lia. }
  split.
  - intros b r Hb Hr Hn. apply elem_of_barplot in Hb.
    exact (head_sorted_top snd false t k _ r Hb Hr (barplot_left_out _ _ _ r H Hn)).
  - intros b rest Hbars. unfold df_head in Hbars.
    destruct (sort_impl snd Z.le false t) as [|x l] eqn:E; [by rewrite take_nil in Hbars|].
    destruct k as [|k]; simpl in Hbars; [discriminate|].
    injection Hbars as <- _. split; [done|].
    intros r Hr. exact (sort_impl_head snd Z.le false t _ _ r E Hr).
Qed.

(** The chart of the first [k] rows of a sorted table, with a palette
    of at least [k] colours, draws [k] bars, or one per row of a shorter
    table. *)
Lemma barplot_head_length title pal k t :
  (k <= length pal)%nat ->
  length (chart_bars (barplot title pal (df_head k (sort_impl snd Z.le false t)))) = Nat.min k (length t).
Proof.
  intros Hk. unfold barplot, df_head. cbn [chart_bars].
  rewrite length_zip_with, length_take, <- (Permutation_length (sort_impl_perm snd Z.le false t)). lia.
Qed.

Lemma barplot_labels_sublist title pal rows :
  map bar_label (chart_bars (barplot title pal rows)) `sublist_of` map fst rows.
Proof.
  unfold barplot; simpl. revert pal.
  induction rows as [|r rows IH]; intros [|c pal]; simpl.
  - done.
  - done.
  - apply sublist_nil_l.
  - by apply sublist_skip, IH.
Qed.

Lemma barplot_wf title pal rows : NoDup (map fst rows) -> chart_wf (barplot title pal rows).
Proof. intros H. eapply sublist_NoDup; [exact H|exact (barplot_labels_sublist title pal rows)]. Qed.

Lemma monthly_chart_wf mr : NoDup (map fst mr) -> chart_wf (monthly_chart mr).
Proof. intros Hnd. split; [by rewrite !length_map, ?length_seq|done]. Qed.

Lemma NoDup_map_head {A B} (f : A -> B) k (l : list A) :
  NoDup (map f l) -> NoDup (map f (df_head k l)).
Proof. intros H. eapply sublist_NoDup; [exact H|]. apply (fmap_sublist f), sublist_take. Qed.

Lemma NoDup_map_tail {A B} (f : A -> B) k (l : list A) :
  NoDup (map f l) -> NoDup (map f (df_tail k l)).
Proof. intros H. eapply sublist_NoDup; [exact H|]. apply (fmap_sublist f), sublist_drop. Qed.

Lemma NoDup_map_sort {A B} (f : A -> B) (col : A -> Z) asc (l : list A) :
  NoDup (map f l) -> NoDup (map f (sort_impl col Z.le asc l)).
Proof. by rewrite (Permutation_map f (sort_impl_perm col Z.le asc l)). Qed.

#[local] Hint Resolve barplot_wf monthly_chart_wf NoDup_map_head NoDup_map_tail NoDup_map_sort
  groupby_agg_keys_NoDup : dash.

(** The charts of the page, in order. *)
Lemma main_page_charts v :
  concat (map element_charts (main_page v)) =
  [monthly_chart (monthly_revenue v); best_product_chart (product_order_count v);
   worst_product_chart (product_order_count v); city_chart (total_spent_percity v);
   category_chart (revenue_bycategory v)] ++ rfm_charts (rfm_table v).
Proof. reflexivity. Qed.

(** The views of a page that shows. *)
Lemma dashboard_views db selection v :
  dashboard db selection = inr v ->
  exists fo ps, monthly_revenue_df fo (items db) = Some (monthly_revenue v) /\
    product_order_count v = product_order_count_df fo (items db) ps /\
    total_spent_percity v = total_spent_percity_df fo (customers db) (payments db) /\
    revenue_bycategory v = revenue_bycategory_df fo (items db) ps /\
    rfm_table v = create_rfm_df fo (items db) (customers db).
Proof.
  unfold dashboard. destruct (load_orders _); [|done]. destruct (unpack_range _) as [[s e]|]; [|done].
  destruct (monthly_revenue_df _ _) eqn:E; [|done]. intros [= <-]. by do 2 eexists.
Qed.

(** The bars of the RFM panels are customers; a customer without a bar
    comes after every bar in the order of the panel's sort. *)
Lemma rfm_panel_extreme title col asc rfm_df b r :
  b ∈ chart_bars (rfm_panel title col asc rfm_df) -> r ∈ rfm_df ->
  out_uid r ∉ map bar_label (chart_bars (rfm_panel title col asc rfm_df)) ->
  key_rel Z.le asc (bar_value b) (col r).
Proof.
  unfold rfm_panel. set (rows := map _ (df_head 5 _)).
  assert (Hl : (length rows <= length rfm_palette)%nat).
  { unfold rows, df_head. rewrite length_map, length_take. apply Nat.le_min_l. }
  intros Hb Hr Hn. apply elem_of_barplot, list_elem_of_fmap in Hb as (x & Hx & Hxin).
  injection Hx as _ ->. apply (head_sorted_top col asc rfm_df 5 x r Hxin Hr).
  intros Hin. apply (barplot_left_out _ _ _ (out_uid r, col r) Hl Hn).
  apply list_elem_of_fmap. by exists r.
Qed.

(** ** Theorems *)

(** C33: the chart "Best Performing Product" of lines 152-163 shows the
    products with the most line items: a product of the ranking without a
    bar has a count below every bar, and the first bar, drawn in the
    highlight colour, has the largest count of the ranking. *)
Theorem best_product_chart_top o d p :
  shows_top (best_product_chart (product_order_count_df o d p)) (product_order_count_df o d p).
Proof.
  unfold best_product_chart, product_order_count_df.
  rewrite (sort_impl_perm snd Z.le false (count_by_product o d p)) at 2.
  apply barplot_head_top. simpl. lia.
Qed.

(** C34: the chart "Worst Performing Product" of lines 165-177 shows the
    products at the bottom of the ranking: a product without a bar has a
    count at least every bar's. Its first bar, the one drawn in the
    highlight colour, has the largest count of the bars: the best of the
    five, not the product with the fewest sales. *)
Theorem worst_product_chart_bottom o d p :
  (forall b r, b ∈ chart_bars (worst_product_chart (product_order_count_df o d p)) ->
     r ∈ product_order_count_df o d p ->
     r.1 ∉ map bar_label (chart_bars (worst_product_chart (product_order_count_df o d p))) ->
     bar_value b <= r.2) /\
  (forall b rest, chart_bars (worst_product_chart (product_order_count_df o d p)) = b :: rest ->
     bar_color b = highlight /\ forall b', b' ∈ rest -> bar_value b' <= bar_value b).
Proof.
  unfold worst_product_chart, product_order_count_df.
  set (t := count_by_product o d p). split.
  - intros b r Hb Hr Hn. rewrite (sort_impl_perm snd Z.le false t) in Hr.
    apply elem_of_barplot in Hb.
    refine (tail_sorted_bottom snd false t 5 _ r Hb Hr (barplot_left_out _ _ _ r _ Hn)).
    unfold df_tail. rewrite length_drop. simpl. lia.
  - intros b rest Hbars. destruct (df_tail 5 (sort_impl snd Z.le false t)) as [|x l] eqn:E; [done|].
    injection Hbars as <- <-. split; [done|]. intros b' Hb'.
    apply (elem_of_barplot "" (tail product_palette) l) in Hb'.
    exact (tail_sorted_first snd false t 5 x l _ E Hb').
Qed.

(** C35: the charts "Spending per City" (lines 181-196) and "Revenue per
    Category" (lines 200-216) draw the ten cities and the fifteen
    categories with the largest amounts (all of them when there are
    fewer), whatever order the unstable sort gives to ties, and highlight
    one with the largest amount. *)
Theorem city_category_charts_top total_spent_percity revenue_bycategory :
  shows_top (city_chart total_spent_percity) total_spent_percity /\
  length (chart_bars (city_chart total_spent_percity)) = Nat.min 10 (length total_spent_percity) /\
  shows_top (category_chart revenue_bycategory) revenue_bycategory /\
  length (chart_bars (category_chart revenue_bycategory)) = Nat.min 15 (length revenue_bycategory).
Proof.
  split_and!; (apply barplot_head_top || apply barplot_head_length); simpl; lia.
Qed.

(** C36: the three RFM panels of lines 234-267 show the customers with
    the lowest Recency, the highest Frequency and the highest Monetary: a
    customer of the table without a bar in a panel is at least as far
    from the panel's end as every bar. *)
Theorem rfm_panels_extremes rfm_df r :
  r ∈ rfm_df ->
  (forall b, b ∈ chart_bars (rfm_panel "By Recency (days)" out_recency true rfm_df) ->
     out_uid r ∉ map bar_label (chart_bars (rfm_panel "By Recency (days)" out_recency true rfm_df)) ->
     bar_value b <= out_recency r) /\
  (forall b, b ∈ chart_bars (rfm_panel "By Frequency" out_frequency false rfm_df) ->
     out_uid r ∉ map bar_label (chart_bars (rfm_panel "By Frequency" out_frequency false rfm_df)) ->
     out_frequency r <= bar_value b) /\
  (forall b, b ∈ chart_bars (rfm_panel "By Monetary" out_monetary false rfm_df) ->
     out_uid r ∉ map bar_label (chart_bars (rfm_panel "By Monetary" out_monetary false rfm_df)) ->
     out_monetary r <= bar_value b).
Proof. intros Hr. split_and!; intros b Hb Hn; exact (rfm_panel_extreme _ _ _ _ b r Hb Hr Hn). Qed.

(** C37: every chart of the page draws each category once: the month
    labels of the line plot, and the products, cities, categories and
    customers of the bar charts, are distinct, so each bar is one row of
    its table. *)
Theorem page_charts_wf db selection v :
  dashboard db selection = inr v ->
  Forall chart_wf (concat (map element_charts (main_page v))).
Proof.
  intros (fo & ps & Hm & Hp & Hc & Hk & Hr)%dashboard_views.
  pose proof (monthly_revenue_labels_NoDup _ _ _ Hm).
  pose proof (rfm_base_sorted (rfm_data fo (items db) (customers db))) as Hs.
  apply (StronglySorted_NoDup str_lt) in Hs. rewrite <- rfm_scores_uids in Hs.
  change (rfm_scores (rfm_base _)) with (create_rfm_df fo (items db) (customers db)) in Hs.
  rewrite Forall_forall. intros c Hin. rewrite main_page_charts, Hp, Hc, Hk, Hr in Hin.
  repeat (apply elem_of_cons in Hin as [->|Hin]); [..|set_solver];
    unfold best_product_chart, worst_product_chart, city_chart, category_chart, rfm_panel,
      product_order_count_df, total_spent_percity_df, revenue_bycategory_df,
      count_by_product, groupby_count, groupby_sum;
    try apply barplot_wf; rewrite ?map_map; eauto 6 with dash.
Qed.

(** C27: the metrics at the top of the page (lines 124-132). On orders
    with distinct ids and timestamps of the calendar and a range of two
    dates, the run draws the sidebar and the whole page without an
    exception; "Total orders" shows the number of orders of the range,
    and the string "Total Revenue" shows reads back as the price, in
    centavos, of every item of an order of the range. *)
Theorem page_summary_metrics db s e :
  NoDup (map order_id (orders db)) ->
  Forall (fun o => printable (order_purchase_timestamp o)) (orders db) ->
  exists os v str, load_orders (orders db) = Some os /\
    render db [s; e] = (sidebar os ++ main_page v, None) /\
    Metric "Total orders" (MCount (Z.of_nat (length (filter_orders os s e)))) ∈ main_page v /\
    Metric "Total Revenue" (MCurrency (Some str)) ∈ main_page v /\
    parse_cents es_CO_BRL (String.list_ascii_of_string str) =
      Some (Σ[ it <- filter (fun it => item_order_id it ∈ map order_id (filter_orders os s e)) (items db) ]
              price it).
Proof.
  intros Hnd Hp. destruct (loaded_monthly_revenue db s e Hnd Hp) as (os & mr & Hl & Hm & Hs).
  destruct (dashboard db [s; e]) as [err|v] eqn:Hd;
    [by unfold dashboard in Hd; rewrite Hl in Hd; cbn [unpack_range] in Hd; rewrite Hm in Hd|].
  assert (Hv : total_orders v = Z.of_nat (length (filter_orders os s e)) /\
               total_revenue v = sumZ snd mr).
  { unfold dashboard in Hd. rewrite Hl in Hd. cbn [unpack_range] in Hd. rewrite Hm in Hd.
    by injection Hd as <-. }
  destruct Hv as [Ho Hr].
  exists os, v, (format_currency (inject_Z (total_revenue v))).
  split; [done|]. split; [unfold render; by rewrite Hl, Hd|].
  split; [rewrite <- Ho; unfold main_page; set_solver|].
  split; [unfold main_page; set_solver|].
  unfold format_currency.
  by rewrite String.list_ascii_of_string_of_list_ascii, parse_format_cents, round_half_even_Z, Hr, Hs.
Qed.

(** What the page shows when the script stops: nothing when a purchase
    timestamp does not parse (line 96 raises before the first element);
    the sidebar, with its logo and date widget, and then the exception,
    when the selection is not two dates (line 106). *)
Lemma render_error_paths db selection :
  (load_orders (orders db) = None -> render db selection = ([], Some InvalidTimestamp)) /\
  (forall os, load_orders (orders db) = Some os -> length selection <> 2%nat ->
     render db selection = (sidebar os, Some IncompleteSelection)).
Proof.
  unfold render. split; intros; [by rewrite H|].
  rewrite H. unfold dashboard. rewrite H.
  destruct selection as [|a [|b [|c l]]]; simpl in *; done.
Qed.

(** A run that raises nothing draws the sidebar and the page of a
    summary of [dashboard]. *)
Lemma render_shown db selection els :
  render db selection = (els, None) ->
  exists os v, dashboard db selection = inr v /\ els = sidebar os ++ main_page v.
Proof.
  unfold render. destruct (load_orders (orders db)) as [os|]; [|done].
  destruct (dashboard db selection) as [|v]; [done|]. intros [= <-]. by exists os, v.
Qed.

(** C39: on every page that shows, the line plot of the monthly revenue
    (lines 136-148) has one point per month label, and its points add up
    to the amount the "Total Revenue" metric (line 131) shows: the
    metric's string reads back as the sum of the plotted revenues. *)
Theorem page_revenue_chart_total db selection els :
  render db selection = (els, None) ->
  exists xs ys str, Pyplot [LinePlot xs ys "#90CAF9"] ∈ els /\
    Metric "Total Revenue" (MCurrency (Some str)) ∈ els /\ length xs = length ys /\
    parse_cents es_CO_BRL (String.list_ascii_of_string str) = Some (sumZ id ys).
Proof.
  intros (os & v & Hd & ->)%render_shown.
  exists (map fst (monthly_revenue v)), (map snd (monthly_revenue v)),
    (format_currency (inject_Z (total_revenue v))).
  split; [unfold main_page, monthly_chart; set_solver|].
  split; [unfold main_page; set_solver|]. split; [by rewrite !length_map|].
  unfold format_currency. rewrite String.list_ascii_of_string_of_list_ascii, parse_format_cents,
    round_half_even_Z, (dashboard_total_revenue_monthly _ _ _ Hd), sumZ_map. reflexivity.
Qed.

End Charts.

(** ** Rounding *)

Local Open Scope Q_scope.

(** C38: the rounded means of lines 223 and 227 are within half a unit of
    their last digit of the exact mean. *)
Theorem round_to_bounds digits q :
  Qabs (round_to digits q - q) <= (1 # 2) / inject_Z (10 ^ Z.of_nat digits).
Proof.
  unfold round_to. set (s := inject_Z (10 ^ Z.of_nat digits)).
  assert (Hs : 0 < s).
  { unfold s, Qlt. simpl. pose proof (Z.pow_pos_nonneg 10 (Z.of_nat digits)). lia. }
  destruct (round_half_even_bounds (q * s)) as [Hl Hu].
  set (r := inject_Z (round_half_even (q * s))) in *.
  assert (E : r / s - q == (r - q * s) * / s) by (field; lra).
  rewrite E. apply Qabs_Qle_condition.
  assert (0 <= / s) by (apply Qlt_le_weak, Qinv_lt_0_compat, Hs).
  split; unfold Qdiv.
  - apply (Qle_trans _ ((- (1 # 2)) * / s)); [apply Qle_lteq; right; ring|].
    apply Qmult_le_compat_r; [lra|done].
  - apply Qmult_le_compat_r; [lra|done].
Qed.

(** ** Witnesses and examples *)

Local Open Scope Z_scope.

Definition sample_orders := ProductCount.sample_orders.
Definition sample_items := ProductCount.sample_items.
Definition sample_products := ProductCount.sample_products.

(** The ranking of the sample is [p1] (2 items), [p3] and [p2] (1 each):
    the chart of the worst products draws all three and highlights [p1],
    the best-selling product. *)
Lemma worst_chart_sample :
  chart_bars (worst_product_chart (product_order_count_df sample_orders sample_items sample_products)) =
  [mk_bar "p1" 2 highlight; mk_bar "p3" 1 "#D3D3D3"; mk_bar "p2" 1 "#D3D3D3"].
Proof. vm_compute. reflexivity. Qed.

Lemma best_product_chart_top_witness :
  @SortImplLaws merge_sort_impl /\
  shows_top (best_product_chart (product_order_count_df sample_orders sample_items sample_products))
    (product_order_count_df sample_orders sample_items sample_products).
Proof. split; [apply _|]. apply best_product_chart_top. Defined.

Lemma worst_product_chart_bottom_witness :
  @SortImplLaws merge_sort_impl /\
  forall b rest,
    chart_bars (worst_product_chart (product_order_count_df sample_orders sample_items sample_products)) =
      b :: rest ->
    bar_color b = highlight /\ forall b', b' ∈ rest -> bar_value b' <= bar_value b.
Proof. split; [apply _|]. apply worst_product_chart_bottom. Defined.

Definition sample_cities : list (string * Z) := [("curitiba", 300); ("sao paulo", 900); ("rio", 300)].

Lemma city_category_charts_top_witness :
  @SortImplLaws merge_sort_impl /\
  (shows_top (city_chart sample_cities) sample_cities /\
   length (chart_bars (city_chart sample_cities)) = Nat.min 10 (length sample_cities) /\
   shows_top (category_chart sample_cities) sample_cities /\
   length (chart_bars (category_chart sample_cities)) = Nat.min 15 (length sample_cities)).
Proof. split; [apply _|]. apply city_category_charts_top. Defined.

Definition sample_rfm : list rfm_out :=
  [mk_rfm_out "u1" 0 2 1000 0 0 0 0; mk_rfm_out "u2" 31 1 1000 0 0 0 0;
   mk_rfm_out "u3" 10 1 50 0 0 0 0].

Lemma rfm_panels_extremes_witness :
  @SortImplLaws merge_sort_impl /\ mk_rfm_out "u3" 10 1 50 0 0 0 0 ∈ sample_rfm /\
  forall b, b ∈ chart_bars (rfm_panel "By Monetary" out_monetary false sample_rfm) ->
     out_uid (mk_rfm_out "u3" 10 1 50 0 0 0 0)
       ∉ map bar_label (chart_bars (rfm_panel "By Monetary" out_monetary false sample_rfm)) ->
     out_monetary (mk_rfm_out "u3" 10 1 50 0 0 0 0) <= bar_value b.
Proof.
  assert (H : mk_rfm_out "u3" 10 1 50 0 0 0 0 ∈ sample_rfm) by (do 2 right; left).
  split; [apply _|]. split; [exact H|].
  exact (proj2 (proj2 (rfm_panels_extremes sample_rfm _ H))).
Defined.

Lemma page_charts_wf_witness :
  @SortImplLaws merge_sort_impl /\
  exists v, dashboard spec_db january_2023 = inr v /\
    Forall chart_wf (concat (map element_charts (main_page v))).
Proof.
  split; [apply _|].
  destruct (dashboard spec_db january_2023) as [e|v] eqn:E; [vm_compute in E; discriminate|].
  exists v. split; [reflexivity|]. exact (page_charts_wf _ _ _ E).
Defined.

Lemma page_summary_metrics_witness :
  @SortImplLaws merge_sort_impl /\
  NoDup (map order_id (orders spec_db)) /\
  Forall (fun o => printable (order_purchase_timestamp o)) (orders spec_db) /\
  exists os v str, load_orders (orders spec_db) = Some os /\
    render spec_db january_2023 = (sidebar os ++ main_page v, None) /\
    Metric "Total orders"
      (MCount (Z.of_nat (length (filter_orders os (mk_date 2023 1 1) (mk_date 2023 1 31))))) ∈ main_page v /\
    Metric "Total Revenue" (MCurrency (Some str)) ∈ main_page v /\
    parse_cents es_CO_BRL (String.list_ascii_of_string str) =
      Some (Σ[ it <- filter (fun it => item_order_id it ∈
                map order_id (filter_orders os (mk_date 2023 1 1) (mk_date 2023 1 31))) (items spec_db) ]
              price it).
Proof.
  assert (Hnd : NoDup (map order_id (orders spec_db))) by decide_by_eval.
  assert (Hp : Forall (fun o => printable (order_purchase_timestamp o)) (orders spec_db)) by decide_by_eval.
  split; [apply _|]. split; [exact Hnd|]. split; [exact Hp|].
  exact (page_summary_metrics spec_db (mk_date 2023 1 1) (mk_date 2023 1 31) Hnd Hp).
Defined.

Lemma page_revenue_chart_total_witness :
  @SortImplLaws merge_sort_impl /\
  render spec_db january_2023 = ((render spec_db january_2023).1, None) /\
  exists xs ys str, Pyplot [LinePlot xs ys "#90CAF9"] ∈ (render spec_db january_2023).1 /\
    Metric "Total Revenue" (MCurrency (Some str)) ∈ (render spec_db january_2023).1 /\
    length xs = length ys /\
    parse_cents es_CO_BRL (String.list_ascii_of_string str) = Some (sumZ id ys).
Proof.
  assert (Hr : render spec_db january_2023 = ((render spec_db january_2023).1, None))
    by (vm_compute; reflexivity).
  split; [apply _|]. split; [exact Hr|].
  exact (page_revenue_chart_total spec_db january_2023 _ Hr).
Defined.

(** The page of the spec's scenario shows, without an exception. *)
Lemma render_spec_example : (render spec_db january_2023).2 = None.
Proof. vm_compute. reflexivity. Qed.

(** [round] to even: 0.25 shows as 0.2, 0.75 as 0.8. *)
Lemma round_to_half_even : (round_to 1 (1 # 4) == 1 # 5 /\ round_to 1 (3 # 4) == 4 # 5)%Q.
Proof. split; vm_compute; reflexivity. Qed.

End Page.
