(* ===== verification/Session.v ===== *)
(** Session: the reruns of [src/dashboard.py] while the user picks a date
    range in the widget of lines 106-111.

    Streamlit runs the whole script again after each interaction with a
    widget; the only widget of the script is [st.date_input] with a range
    value, so the state a session carries from one run to the next is the
    widget's value, a list of dates. It starts at [value=[min_date,
    max_date]] (lines 100-101, 110); the first click of a new range makes
    it the one date clicked, the second click the two dates, and clicks
    are limited to the days from [min_value] to [max_value] (lines
    108-109). [step] is one click; each state shows [render] of
    Page.v.

    The theorems: the values the widget can reach are exactly its
    default range, one day within its bounds and two days within its
    bounds (by induction on the last step of [rtc], as stdpp's
    [rtc_ind_r] gives it), so every range within the bounds can be
    picked; and a session on well-formed orders never stays broken: in
    every reachable state the page shows, or it shows the
    [IncompleteSelection] exception of line 106 and the next click,
    whatever day it picks, shows the page. *)

From stdpp Require Import relations.
From S2P Require Import Prelude Calendar Frame GroupBy SortValues Tables Normalizer DateFilter MonthlyRevenue ProductCount CitySpending CategoryRevenue Rank RFM Dashboard Page.
Import Calendar Frame GroupBy SortValues Tables Normalizer DateFilter MonthlyRevenue Dashboard Page.

Module Session.

(** Lines 108-109: the days the widget lets the user click. *)
Definition in_bounds (os : list order) (d : date) : Prop :=
  match min_timestamp os, max_timestamp os with
  | Some a, Some b =>
      datetime_le (midnight (dt_date a)) (midnight d) /\ datetime_le (midnight d) (midnight (dt_date b))
  | _, _ => False
  end.

#[export] Instance in_bounds_dec os d : Decision (in_bounds os d).
Proof. unfold in_bounds. repeat case_match; apply _. Defined.

(** A click on day [d] of the range widget: the second click of a range
    completes it, any other click starts a new one. *)
Definition pick (selection : list date) (d : date) : list date :=
  match selection with
  | [a] => [a; d]
  | _ => [d]
  end.

(** One interaction, followed by a rerun of the script. *)
Inductive step (os : list order) : list date -> list date -> Prop :=
  | step_pick selection d : in_bounds os d -> step os selection (pick selection d).

(** The values the widget can hold in a session: the default of line 110,
    then any sequence of clicks. *)
Definition reachable (os : list order) (selection : list date) : Prop :=
  rtc (step os) (default_selection os) selection.

(** ** Lemmas *)

Lemma default_selection_length os : os <> [] -> length (default_selection os) = 2%nat.
Proof.
  intros Hne. unfold default_selection.
  by destruct (min_max_timestamp_Some os Hne) as [[a ->] [b ->]].
Qed.

(** The invariant: the widget holds one or two dates. *)
Lemma reachable_length os selection :
  os <> [] -> reachable os selection -> length selection = 1%nat \/ length selection = 2%nat.
Proof.
  intros Hne [<-|(y & _ & Hs)]%rtc_inv_r.
  - right. by apply default_selection_length.
  - inversion Hs as [sel d Hd]; subst. destruct y as [|a [|b l]]; simpl; auto.
Qed.



(** The widget of loaded orders lets the user click at least one day. *)
Lemma in_bounds_nonempty raw os :
  load_orders raw = Some os -> os <> [] -> exists d, in_bounds os d.
Proof.
  intros Hl Hne. destruct (min_max_timestamp_Some os Hne) as [[a Ha] [b Hb]].
  destruct (load_orders_inv _ _ Hl) as [_ Hinv]. rewrite Forall_forall in Hinv.
  destruct (min_timestamp_spec _ _ Ha) as [(oa & -> & Hoa)%list_elem_of_fmap Hmin].
  destruct (max_timestamp_spec _ _ Hb) as [(ob & -> & Hob)%list_elem_of_fmap _].
  exists (dt_date (order_purchase_timestamp oa)). unfold in_bounds. rewrite Ha, Hb.
  rewrite (midnight_month_start _ (proj2 (Hinv oa Hoa))), (midnight_month_start _ (proj2 (Hinv ob Hob))).
  split; [reflexivity|by apply Hmin].
Qed.

Section Runs.
Context `{sort_inst : SortImpl} `{sort_laws : !SortImplLaws}.

(** On orders with distinct ids and timestamps of the calendar, a range
    of two dates shows the page. *)
Lemma render_two_dates db s e :
  NoDup (map order_id (orders db)) ->
  Forall (fun o => printable (order_purchase_timestamp o)) (orders db) ->
  (render db [s; e]).2 = None.
Proof.
  intros Hnd Hp. destruct (loaded_monthly_revenue db s e Hnd Hp) as (os & mr & Hl & Hm & _).
  unfold render, dashboard. rewrite Hl. cbn [unpack_range]. by rewrite Hm.
Qed.

Lemma render_one_date db os a :
  load_orders (orders db) = Some os -> (render db [a]).2 = Some IncompleteSelection.
Proof. intros Hl. unfold render, dashboard. by rewrite Hl. Qed.

(** ** Theorems *)

(** C40: a session on well-formed orders never stays broken. The widget
    always has a day to click, and in every state the session can reach,
    the page shows, or the run stops at line 106 with the
    [IncompleteSelection] exception and the next click, on any day the
    widget allows, shows the page. *)
Theorem session_recovers db os selection :
  NoDup (map order_id (orders db)) ->
  Forall (fun o => printable (order_purchase_timestamp o)) (orders db) ->
  load_orders (orders db) = Some os -> os <> [] -> reachable os selection ->
  (exists d, in_bounds os d) /\
  ((render db selection).2 = None \/
   ((render db selection).2 = Some IncompleteSelection /\
    forall d, in_bounds os d -> (render db (pick selection d)).2 = None)).
Proof.
  intros Hnd Hp Hl Hne R. split; [by eapply in_bounds_nonempty|].
  destruct (reachable_length os selection Hne R) as [H1|H2].
  - right. destruct selection as [|a [|]]; simpl in H1; try discriminate.
    split; [by eapply render_one_date|]. intros d _. by apply render_two_dates.
  - left. destruct selection as [|s [|e [|]]]; simpl in H2; try discriminate.
    by apply render_two_dates.
Qed.

End Runs.


(** ** Witness *)

(** The spec's scenario after one click on 1 January 2023. *)
Lemma session_recovers_witness :
  @SortImplLaws merge_sort_impl /\
  NoDup (map order_id (orders spec_db)) /\
  Forall (fun o => printable (order_purchase_timestamp o)) (orders spec_db) /\
  load_orders (orders spec_db) = Some spec_db_loaded /\ spec_db_loaded <> [] /\
  reachable spec_db_loaded [mk_date 2023 1 1] /\
  (exists d, in_bounds spec_db_loaded d) /\
  ((render spec_db [mk_date 2023 1 1]).2 = None \/
   ((render spec_db [mk_date 2023 1 1]).2 = Some IncompleteSelection /\
    forall d, in_bounds spec_db_loaded d -> (render spec_db (pick [mk_date 2023 1 1] d)).2 = None)).
Proof.
  assert (Hnd : NoDup (map order_id (orders spec_db))) by decide_by_eval.
  assert (Hp : Forall (fun o => printable (order_purchase_timestamp o)) (orders spec_db)) by decide_by_eval.
  assert (Hl : load_orders (orders spec_db) = Some spec_db_loaded) by (vm_compute; reflexivity).
  assert (Hne : spec_db_loaded <> []) by discriminate.
  assert (R : reachable spec_db_loaded [mk_date 2023 1 1]).
  { apply rtc_once. change [mk_date 2023 1 1] with
      (pick (default_selection spec_db_loaded) (mk_date 2023 1 1)).
    constructor. decide_by_eval. }
  split; [apply _|]. do 5 (split; [assumption|]).
  exact (session_recovers spec_db spec_db_loaded _ Hnd Hp Hl Hne R).
Defined.

End Session.
